(** * Utility modules of the web application: a shallow embedding

    The development follows the Python sources under [api/utils]:

    - [auth.py]               -> [Module Auth]
    - [time_range_bound.py]   -> [Module TimeRangeBound], [Module TimeRangeSearch]
    - [datetime_converter.py] -> [Module DatetimeConverter],
                                 [Module DatetimeConverterSettings]
    - [logger_manager.py]     -> [Module LoggerManager], [Module LoggerLifecycle],
                                 [Module Performance]
    - [app_logger.py]         -> [Module AppLogger]
    - [scheduler.py]          -> [Module Scheduler], [Module SchedulerLifecycle]

    and, before them, what these sources take from Python and its
    libraries: text ([Module Text]), exceptions ([Module Py]), dates and
    times ([Module Datetime]), the values passed as bounds
    ([Module Values]), regular expressions ([Module Regex]) and
    [datetime.strptime] ([Module Strptime]).

    What the sources get from libraries that are not part of them is a
    parameter of the embedding: the clock, the arithmetic of
    [relativedelta] and the free-form parser of [dateutil]; the handlers
    that [loguru] refuses and the directories that cannot be made; the
    fire times [APScheduler] computes.  The properties hold for every
    choice of these; [Module SampleEnv] and [Module SampleBackend] fix
    one to run examples on.

    Python text is modelled by Stdlib strings, that is sequences of 8-bit
    characters.  The programs only ever test text against ASCII literals
    (['x'], ['DESKTOP'], digits, white space), so the case maps [lower] and
    [upper] act on the ASCII letters and leave every other character alone.
    Python dictionaries are [gmap]s, Python lists are lists, raised
    exceptions are values of an explicit outcome type.

    The file has three parts: the embedding, the vocabulary in which the
    properties are stated, and the properties with their proofs. *)

From Stdlib Require Import ZArith Ascii String List Bool Lia DecimalString.
From stdpp Require Import base option list gmap strings.

Local Open Scope string_scope.

(** ** Text helpers: the [str] methods the sources call *)

Module Text.

Definition code (c : ascii) : N := N_of_ascii c.

(** one character of [str.lower()] *)
Definition lower_char (c : ascii) : ascii :=
  if ((65 <=? code c) && (code c <=? 90))%N then ascii_of_N (code c + 32) else c.

(** one character of [str.upper()] *)
Definition upper_char (c : ascii) : ascii :=
  if ((97 <=? code c) && (code c <=? 122))%N then ascii_of_N (code c - 32) else c.

Fixpoint lower (s : string) : string :=
  match s with
  | EmptyString => EmptyString
  | String c s' => String (lower_char c) (lower s')
  end.

Fixpoint upper (s : string) : string :=
  match s with
  | EmptyString => EmptyString
  | String c s' => String (upper_char c) (upper s')
  end.

(** [s.startswith(p)] *)
Fixpoint startswith (s p : string) {struct p} : bool :=
  match p, s with
  | EmptyString, _ => true
  | String _ _, EmptyString => false
  | String a p', String b s' => if Ascii.eqb a b then startswith s' p' else false
  end.

(** truth value of a [str]: only the empty string is falsy *)
Definition truthy (s : string) : bool :=
  match s with EmptyString => false | String _ _ => true end.

(** [x in [a, b, ...]] on strings *)
Fixpoint str_in (x : string) (l : list string) : bool :=
  match l with
  | [] => false
  | y :: l' => if String.eqb x y then true else str_in x l'
  end.

(** [\d] on the 8-bit characters *)
Definition is_digit (c : ascii) : bool :=
  ((48 <=? code c) && (code c <=? 57))%N.

(** [\s] and [str.isspace] on the 8-bit characters *)
Definition is_space (c : ascii) : bool :=
  let n := code c in
  (((9 <=? n) && (n <=? 13)) || ((28 <=? n) && (n <=? 32))
   || (n =? 133) || (n =? 160))%N.

Fixpoint lstrip (s : string) : string :=
  match s with
  | EmptyString => EmptyString
  | String c s' => if is_space c then lstrip s' else s
  end.

(** the characters of [s] up to its last non-blank one *)
Fixpoint rstrip (s : string) : string :=
  match s with
  | EmptyString => EmptyString
  | String c s' =>
    match rstrip s' with
    | EmptyString => if is_space c then EmptyString else String c EmptyString
    | r => String c r
    end
  end.

(** [s.strip()] *)
Definition strip (s : string) : string := rstrip (lstrip s).

(** ["%d" % n] *)
Definition str_of_nat (n : nat) : string :=
  NilEmpty.string_of_uint (Nat.to_uint n).

(** [o == lit] where [o] comes from [dict.get] and may be [None] *)
Definition opt_eqb (o : option string) (lit : string) : bool :=
  match o with Some s => String.eqb s lit | None => false end.

End Text.

(** ** Python outcomes: a value returned or an exception raised *)

Module Py.

(** The exception classes the sources raise, catch or let through.  The
    last three built-in classes derive from [BaseException] only, so an
    [except Exception] clause does not catch them. *)
Inductive exc_class :=
| ValueError
| TypeError
| OverflowError
| AttributeError
| ZeroDivisionError
| ParserError                         (* dateutil: a subclass of ValueError *)
| UserException (name : string)       (* class name(Exception) *)
| SystemExit
| KeyboardInterrupt
| GeneratorExit
| UserBaseException (name : string).  (* class name(BaseException) *)

Record exn := Exn { exn_class : exc_class; exn_msg : string }.

(** [isinstance(e, Exception)] *)
Definition isinstance_Exception (e : exn) : bool :=
  match exn_class e with
  | SystemExit | KeyboardInterrupt | GeneratorExit | UserBaseException _ => false
  | _ => true
  end.

(** [isinstance(e, ValueError)] *)
Definition isinstance_ValueError (e : exn) : bool :=
  match exn_class e with
  | ValueError | ParserError => true
  | _ => false
  end.

Inductive outcome (A : Type) :=
| Return (a : A)
| Raise (e : exn).
Arguments Return {A}.
Arguments Raise {A}.

(** sequencing: an exception raised by the first statement ends the block *)
Definition bind {A B} (k : A -> outcome B) (c : outcome A) : outcome B :=
  match c with
  | Return a => k a
  | Raise e => Raise e
  end.

Definition raises {A} (c : outcome A) : bool :=
  match c with Return _ => false | Raise _ => true end.

End Py.

Notation "'let*' x ':=' c 'in' k" := (Py.bind (fun x => k) c)
  (at level 10, x name, c at level 100, k at level 200).

(** ** The [datetime] values the sources compute with *)

Module Datetime.

Record date := Date { d_year : Z; d_month : Z; d_day : Z }.

Record time := Time { t_hour : Z; t_minute : Z; t_second : Z; t_microsecond : Z }.

(** [utcoffset] is [None] for a naive datetime and the offset in seconds
    for an aware one. *)
Record datetime := Dt {
  year : Z; month : Z; day : Z;
  hour : Z; minute : Z; second : Z; microsecond : Z;
  utcoffset : option Z
}.

Definition time_min : time := Time 0 0 0 0.
Definition time_max : time := Time 23 59 59 999999.

(** [datetime.combine(d, t)] for a naive [t] *)
Definition combine (d : date) (t : time) : datetime :=
  Dt (d_year d) (d_month d) (d_day d)
     (t_hour t) (t_minute t) (t_second t) (t_microsecond t) None.

(** [dt.date()] and [dt.time()] *)
Definition date_of (dt : datetime) : date := Date (year dt) (month dt) (day dt).
Definition time_of (dt : datetime) : time :=
  Time (hour dt) (minute dt) (second dt) (microsecond dt).

Definition is_leap (y : Z) : bool :=
  ((y mod 4 =? 0) && (negb (y mod 100 =? 0) || (y mod 400 =? 0)))%Z.

Definition days_in_month (y m : Z) : Z :=
  (if m =? 2 then (if is_leap y then 29 else 28)
   else if (m =? 4) || (m =? 6) || (m =? 9) || (m =? 11) then 30 else 31)%Z.

(** the range checks of the [date] constructor *)
Definition valid_date (y m d : Z) : bool :=
  ((1 <=? y) && (y <=? 9999) && (1 <=? m) && (m <=? 12)
   && (1 <=? d) && (d <=? days_in_month y m))%Z.

(** the range checks of the [time] part of the [datetime] constructor *)
Definition valid_time (h mi s us : Z) : bool :=
  ((0 <=? h) && (h <=? 23) && (0 <=? mi) && (mi <=? 59)
   && (0 <=? s) && (s <=? 59) && (0 <=? us) && (us <=? 999999))%Z.

Definition digit_char (n : Z) : ascii := ascii_of_N (48 + Z.to_N (n mod 10)).

(** [n] in decimal on exactly [width] digits, zero padded *)
Fixpoint pad (width : nat) (n : Z) : string :=
  match width with
  | O => EmptyString
  | S w => pad w (n / 10) ++ String (digit_char n) EmptyString
  end.

(** [str(d)], which is [d.isoformat()] *)
Definition date_isoformat (d : date) : string :=
  pad 4 (d_year d) ++ "-" ++ pad 2 (d_month d) ++ "-" ++ pad 2 (d_day d).

Definition offset_isoformat (off : Z) : string :=
  let a := Z.abs off in
  (if (off <? 0)%Z then "-" else "+")
  ++ pad 2 (a / 3600) ++ ":" ++ pad 2 ((a / 60) mod 60)
  ++ (if (a mod 60 =? 0)%Z then "" else ":" ++ pad 2 (a mod 60)).

(** [dt.isoformat()] *)
Definition isoformat (dt : datetime) : string :=
  date_isoformat (date_of dt) ++ "T"
  ++ pad 2 (hour dt) ++ ":" ++ pad 2 (minute dt) ++ ":" ++ pad 2 (second dt)
  ++ (if (microsecond dt =? 0)%Z then "" else "." ++ pad 6 (microsecond dt))
  ++ match utcoffset dt with None => "" | Some off => offset_isoformat off end.

(** [dt.replace(microsecond=0)] *)
Definition drop_microsecond (dt : datetime) : datetime :=
  Dt (year dt) (month dt) (day dt) (hour dt) (minute dt) (second dt) 0 (utcoffset dt).

End Datetime.

(** ** The Python values handed to the date helpers *)

Module Values.
Import Datetime.

(** [PDate] is a [date] that is not a [datetime]; [POther] stands for a
    value of any other type, of which only the type name and the truth
    value matter. *)
Inductive pyval :=
| PNone
| PStr (s : string)
| PDatetime (dt : datetime)
| PDate (d : date)
| POther (type_name : string) (truth : bool).

(** the truth value Python gives [v] in [if v] and [not v] *)
Definition truthy (v : pyval) : bool :=
  match v with
  | PNone => false
  | PStr s => Text.truthy s
  | PDatetime _ | PDate _ => true
  | POther _ b => b
  end.

Definition type_name_of (v : pyval) : string :=
  match v with
  | PNone => "NoneType"
  | PStr _ => "str"
  | PDatetime _ => "datetime.datetime"
  | PDate _ => "datetime.date"
  | POther n _ => n
  end.

Definition is_str (v : pyval) : bool :=
  match v with PStr _ => true | _ => false end.
(** [isinstance(v, date)]: [datetime] is a subclass of [date] *)
Definition is_date (v : pyval) : bool :=
  match v with PDate _ | PDatetime _ => true | _ => false end.
Definition is_datetime (v : pyval) : bool :=
  match v with PDatetime _ => true | _ => false end.

End Values.

(** ** Regular expressions, as [re] matches them

    A backtracking matcher in continuation-passing style: alternatives are
    tried left to right, [*] and [?] are greedy and give characters back
    when the rest of the pattern fails.  This is the order in which [re]
    explores a pattern, so the first match found is the one [re] reports. *)

Module Regex.
Import Text.

Inductive regex :=
| Eps
| Chr (c : ascii)                    (* a literal character *)
| Cls (p : ascii -> bool)            (* a character class: \d, \s, [0-5] *)
| Seq (r1 r2 : regex)
| Alt (r1 r2 : regex)                (* r1|r2 *)
| Star (p : ascii -> bool)           (* c*, for a class c *)
| Opt (r : regex)                    (* r? *)
| Grp (name : string) (r : regex).   (* (?P<name>r) *)

Definition groups := list (string * string).

(** the first [n] characters of [s] *)
Fixpoint take_str (n : nat) (s : string) : string :=
  match n, s with
  | S n', String c s' => String c (take_str n' s')
  | _, _ => EmptyString
  end.

Section Matcher.
Context {R : Type}.

Fixpoint star (p : ascii -> bool) (k : string -> option R) (s : string) : option R :=
  match s with
  | String a s' =>
    if p a then
      match star p k s' with
      | Some x => Some x
      | None => k s
      end
    else k s
  | EmptyString => k s
  end.

Fixpoint run (r : regex) (s : string) (g : groups)
         (k : string -> groups -> option R) : option R :=
  match r with
  | Eps => k s g
  | Chr c =>
    match s with
    | String a s' => if Ascii.eqb a c then k s' g else None
    | EmptyString => None
    end
  | Cls p =>
    match s with
    | String a s' => if p a then k s' g else None
    | EmptyString => None
    end
  | Seq r1 r2 => run r1 s g (fun s' g' => run r2 s' g' k)
  | Alt r1 r2 =>
    match run r1 s g k with
    | Some x => Some x
    | None => run r2 s g k
    end
  | Star p => star p (fun s' => k s' g) s
  | Opt r1 =>
    match run r1 s g k with
    | Some x => Some x
    | None => k s g
    end
  | Grp name r1 =>
    run r1 s g (fun s' g' =>
      k s' ((name, take_str (String.length s - String.length s') s) :: g'))
  end.
End Matcher.

(** [re.match(r, s)]: the groups and the unmatched rest of [s] *)
Definition rmatch (r : regex) (s : string) : option (groups * string) :=
  run r s [] (fun rest g => Some (g, rest)).

(** [re.search(r, s)]: the first start position with a match *)
Fixpoint search (r : regex) (s : string) : option groups :=
  match rmatch r s with
  | Some (g, _) => Some g
  | None =>
    match s with
    | EmptyString => None
    | String _ s' => search r s'
    end
  end.

(** [m.group(name)] *)
Fixpoint group (name : string) (g : groups) : option string :=
  match g with
  | [] => None
  | (n, v) :: g' => if String.eqb n name then Some v else group name g'
  end.

(** a character range [[lo-hi]] *)
Definition range (lo hi : ascii) (c : ascii) : bool :=
  ((Text.code lo <=? Text.code c) && (Text.code c <=? Text.code hi))%N.

Definition digit : regex := Cls is_digit.

(** a literal word *)
Fixpoint word (w : string) : regex :=
  match w with
  | EmptyString => Eps
  | String c w' => Seq (Chr c) (word w')
  end.

(** [int(s)] for a run of digits, after optional leading white space *)
Fixpoint int_digits (acc : Z) (s : string) : Z :=
  match s with
  | EmptyString => acc
  | String c s' =>
    if is_digit c then int_digits (10 * acc + Z.of_N (Text.code c - 48)) s'
    else int_digits acc s'
  end.

Definition int_of (s : string) : Z := int_digits 0 s.

End Regex.

(** ** [datetime.strptime], for the directives the sources use

    [_strptime] turns a format into a regular expression (one named group
    per directive, a run of white space for every blank of the format),
    matches it at the start of the text, refuses text left over, and builds
    the [datetime], whose constructor checks the ranges.  Every failure is
    a [ValueError], rendered here by [None]. *)

Module Strptime.
Import Regex Datetime.

Inductive directive :=
| DY | Dm | Dd | DH | DM | DS      (* %Y %m %d %H %M %S *)
| Lit (c : ascii)
| Ws.                              (* white space in the format: \s+ *)

Definition format := list directive.

Definition directive_regex (d : directive) : regex :=
  match d with
  | DY => (* \d\d\d\d *)
    Grp "Y" (Seq digit (Seq digit (Seq digit digit)))
  | Dm => (* 1[0-2]|0[1-9]|[1-9] *)
    Grp "m" (Alt (Seq (Chr "1") (Cls (range "0" "2")))
            (Alt (Seq (Chr "0") (Cls (range "1" "9")))
                 (Cls (range "1" "9"))))
  | Dd => (* 3[0-1]|[1-2]\d|0[1-9]|[1-9]| [1-9] *)
    Grp "d" (Alt (Seq (Chr "3") (Cls (range "0" "1")))
            (Alt (Seq (Cls (range "1" "2")) digit)
            (Alt (Seq (Chr "0") (Cls (range "1" "9")))
            (Alt (Cls (range "1" "9"))
                 (Seq (Chr " ") (Cls (range "1" "9")))))))
  | DH => (* 2[0-3]|[0-1]\d|\d *)
    Grp "H" (Alt (Seq (Chr "2") (Cls (range "0" "3")))
            (Alt (Seq (Cls (range "0" "1")) digit)
                 digit))
  | DM => (* [0-5]\d|\d *)
    Grp "M" (Alt (Seq (Cls (range "0" "5")) digit) digit)
  | DS => (* 6[0-1]|[0-5]\d|\d *)
    Grp "S" (Alt (Seq (Chr "6") (Cls (range "0" "1")))
            (Alt (Seq (Cls (range "0" "5")) digit)
                 digit))
  | Lit c => Chr c
  | Ws => Seq (Cls Text.is_space) (Star Text.is_space)
  end.

Fixpoint format_regex (f : format) : regex :=
  match f with
  | [] => Eps
  | d :: f' => Seq (directive_regex d) (format_regex f')
  end.

(** the number read by a directive, or its default when the format has
    no such directive *)
Definition field (name : string) (dflt : Z) (g : groups) : Z :=
  match group name g with
  | Some v => int_of v
  | None => dflt
  end.

Definition strptime (s : string) (f : format) : option datetime :=
  match rmatch (format_regex f) s with
  | None => None                                 (* does not match format *)
  | Some (g, String _ _) => None                 (* unconverted data remains *)
  | Some (g, EmptyString) =>
    let y := field "Y" 1900 g in
    let m := field "m" 1 g in
    let d := field "d" 1 g in
    let H := field "H" 0 g in
    let M := field "M" 0 g in
    let S := field "S" 0 g in
    if valid_date y m d && valid_time H M S 0
    then Some (Dt y m d H M S 0 None)
    else None                                    (* out of range *)
  end.

End Strptime.

(** ** time_range_bound.py *)

Module TimeRangeBound.
Import Py Datetime Values Strptime.

(** '%Y-%m-%d %H:%M:%S', '%Y-%m-%d %H:%M', '%Y-%m-%d' *)
Definition fmt_date : format := [DY; Lit "-"; Dm; Lit "-"; Dd].
Definition fmt_minutes : format := (fmt_date ++ [Ws; DH; Lit ":"; DM])%list.
Definition fmt_seconds : format := (fmt_minutes ++ [Lit ":"; DS])%list.
Definition formats : list format := [fmt_seconds; fmt_minutes; fmt_date].

(** the loop over the formats: the first one that reads the text wins *)
Fixpoint try_formats (s : string) (fs : list format) : option datetime :=
  match fs with
  | [] => None
  | f :: fs' =>
    match strptime s f with
    | Some dt => Some dt
    | None => try_formats s fs'
    end
  end.

(** [parse_time_input], time_range_bound.py lines 7-20 *)
Definition parse_time_input (time_input : pyval) : outcome datetime :=
  match time_input with
  | PDatetime dt => Return dt
  | PDate d => Return (combine d time_min)
  | PStr s =>
    match try_formats s formats with
    | Some dt => Return dt
    | None => Raise (Exn ValueError ("Unable to parse time string: " ++ s))
    end
  | _ =>
    Raise (Exn TypeError
      ("Unsupported time input type: <class '" ++ type_name_of time_input ++ "'>"))
  end.

(** [str(v)] for the values that reach the length test *)
Definition py_str (v : pyval) : string :=
  match v with
  | PStr s => s
  | PDate d => date_isoformat d
  | _ => ""
  end.

(** [x if cond else None] *)
Definition parse_if_truthy (v : pyval) : outcome (option datetime) :=
  if truthy v then let* dt := parse_time_input v in Return (Some dt) else Return None.

(** [get_time_range_bounds], time_range_bound.py lines 23-33 *)
Definition get_time_range_bounds (start end_ : pyval) (inclusive : string)
  : outcome (option datetime * option datetime) :=
  let* start_dt := parse_if_truthy start in
  let* end_dt := parse_if_truthy end_ in
  let end_dt :=
    match end_dt with
    | Some e =>
      if (is_str end_ || is_date end_) && negb (is_datetime end_) then
        if (String.length (py_str end_) =? 10)%nat || is_date end_
        then Some (combine (date_of e) time_max)
        else Some e
      else Some e
    | None => None
    end in
  Return (start_dt, end_dt).

(** [Q(name, **params)]: a query of the given kind over a keyword
    dictionary; for a range filter, field -> (operator -> bound) *)
Record Q := MkQ { q_name : string; q_params : gmap string (gmap string string) }.

Definition missing_bounds : exn :=
  Exn ValueError "At least one of start or end must be provided".

(** [build_time_range_query], time_range_bound.py lines 36-59 *)
Definition build_time_range_query (field : string) (start end_ : pyval)
           (inclusive : string) : outcome Q :=
  let* bounds := get_time_range_bounds start end_ inclusive in
  let start_dt : option datetime := fst bounds in
  let end_dt : option datetime := snd bounds in
  let range_params : gmap string string := ∅ in
  let range_params : gmap string string :=
    match start_dt with
    | Some s =>
      if Text.str_in inclusive ["both"; "start"]
      then <["gte" := isoformat s]> range_params
      else <["gt" := isoformat s]> range_params
    | None => range_params
    end in
  let range_params : gmap string string :=
    match end_dt with
    | Some e =>
      if Text.str_in inclusive ["both"; "end"]
      then <["lte" := isoformat e]> range_params
      else <["lt" := isoformat e]> range_params
    | None => range_params
    end in
  if bool_decide (range_params = ∅) then Raise missing_bounds
  else Return (MkQ "range" {[ field := range_params ]}).

End TimeRangeBound.

(** ** datetime_converter.py

    The module leans on three things it does not define: the clock
    ([datetime.now()]), [dateutil]'s [relativedelta] arithmetic and
    [dateutil]'s free-form [parser.parse].  They are the variables of the
    section below; everything the module itself does (the table of
    relative phrases, the eight patterns, the order of the attempts, the
    exceptions caught and those let through) is written out. *)

Module DatetimeConverter.
Import Py Datetime Values Regex.

Inductive unit_ := Days | Weeks | Months | Years.

(** what [parse_date_string] hands back besides [None] *)
Inductive parsed :=
| AsDatetime (dt : datetime)
| AsIso (s : string).

Definition digits1 : regex := Grp "1" (Seq digit (Star Text.is_digit)).   (* (\d+) *)
Definition spaces : regex := Star Text.is_space.                          (* \s* *)

(** [(\d+)\s*<unit>s?\s*ago] *)
Definition ago_pattern (unit_word : string) : regex :=
  Seq digits1 (Seq spaces (Seq (word unit_word) (Seq (Opt (Chr "s"))
    (Seq spaces (word "ago"))))).

(** [in\s*(\d+)\s*<unit>s?] *)
Definition in_pattern (unit_word : string) : regex :=
  Seq (word "in") (Seq spaces (Seq digits1 (Seq spaces
    (Seq (word unit_word) (Opt (Chr "s")))))).

Definition unit_word (u : unit_) : string :=
  match u with Days => "day" | Weeks => "week" | Months => "month" | Years => "year" end.

(** the eight patterns, each with the direction and the unit of its offset *)
Definition patterns : list (regex * (bool * unit_)) :=
  [ (ago_pattern "day", (false, Days)); (ago_pattern "week", (false, Weeks));
    (ago_pattern "month", (false, Months)); (ago_pattern "year", (false, Years));
    (in_pattern "day", (true, Days)); (in_pattern "week", (true, Weeks));
    (in_pattern "month", (true, Months)); (in_pattern "year", (true, Years)) ].

Section Converter.
(** [datetime.now()], read once by [parse_relative_date] *)
Variable now : datetime.
(** [dt + relativedelta(unit=n)]; [dt - relativedelta(unit=n)] is the
    sum with [-n].  The sum raises when it leaves the years 1..9999. *)
Variable plus : datetime -> unit_ -> Z -> outcome datetime.
(** [parser.parse(text, fuzzy=True, dayfirst=b)] *)
Variable parse : string -> bool -> outcome datetime.

Definition minus (dt : datetime) (u : unit_) (n : Z) : outcome datetime :=
  plus dt u (- n).

(** the dictionary of simple relative dates; Python builds all ten
    entries before it looks one up *)
Definition relative_dates : outcome (gmap string datetime) :=
  let* yesterday := minus now Days 1 in
  let* tomorrow := plus now Days 1 in
  let* last_week := minus now Weeks 1 in
  let* next_week := plus now Weeks 1 in
  let* last_month := minus now Months 1 in
  let* next_month := plus now Months 1 in
  let* last_year := minus now Years 1 in
  let* next_year := plus now Years 1 in
  Return (list_to_map
    [ ("today", now); ("now", now);
      ("yesterday", yesterday); ("tomorrow", tomorrow);
      ("last week", last_week); ("next week", next_week);
      ("last month", last_month); ("next month", next_month);
      ("last year", last_year); ("next year", next_year) ]).

(** the loop over the patterns: the first one found in the text wins *)
Fixpoint first_pattern (ps : list (regex * (bool * unit_))) (s : string)
  : outcome (option datetime) :=
  match ps with
  | [] => Return None
  | (p, (forward, u)) :: ps' =>
    match search p s with
    | Some g =>
      let x := int_of (default "" (group "1" g)) in
      let* dt := (if forward then plus now u x else minus now u x) in
      Return (Some dt)
    | None => first_pattern ps' s
    end
  end.

(** [parse_relative_date], datetime_converter.py lines 61-100 *)
Definition parse_relative_date (date_string : string) : outcome (option datetime) :=
  let date_string_lower := Text.lower date_string in
  let* table := relative_dates in
  match table !! date_string_lower with
  | Some dt => Return (Some dt)
  | None => first_pattern patterns date_string_lower
  end.

(** the common tail of the three successful paths *)
Definition finish (return_iso include_microseconds : bool) (dt : datetime)
  : option parsed :=
  let dt := if include_microseconds then dt else drop_microsecond dt in
  Some (if return_iso then AsIso (isoformat dt) else AsDatetime dt).

(** [try: ... parser.parse(..) ... except (parser.ParserError, ValueError): pass] *)
Definition try_parse (s : string) (dayfirst return_iso include_microseconds : bool)
           (otherwise : outcome (option parsed)) : outcome (option parsed) :=
  match parse s dayfirst with
  | Return dt => Return (finish return_iso include_microseconds dt)
  | Raise e => if isinstance_ValueError e then otherwise else Raise e
  end.

(** [parse_date_string], datetime_converter.py lines 7-58 *)
Definition parse_date_string (date_string : pyval)
           (return_iso include_microseconds : bool) : outcome (option parsed) :=
  match date_string with
  | PStr s =>
    if negb (Text.truthy s) then Return None
    else
      let s := Text.strip s in
      let* relative_dt := parse_relative_date s in
      match relative_dt with
      | Some dt => Return (finish return_iso include_microseconds dt)
      | None =>
        try_parse s false return_iso include_microseconds
          (try_parse s true return_iso include_microseconds
            (Return None))
      end
  | _ => Return None      (* falsy, or not an instance of str *)
  end.

End Converter.

End DatetimeConverter.

(** ** A clock and a [relativedelta] to run the converter on

    [relativedelta_plus] follows [dateutil]: years and months move the
    calendar fields, the day is cut back to the length of the month
    reached, and days and weeks are added last, as a [timedelta].
    [parse_iso_date] is a stand-in for [parser.parse] that reads nothing
    but ISO dates; it serves to run examples, the properties below hold of
    any parser. *)

Module SampleEnv.
Import Py Datetime DatetimeConverter.

(** days from 1970-01-01 to the given date of the proleptic Gregorian
    calendar, and back *)
Definition days_from_civil (y m d : Z) : Z :=
  (let y := if m <=? 2 then y - 1 else y in
   let era := y / 400 in
   let yoe := y - era * 400 in
   let doy := (153 * (if 2 <? m then m - 3 else m + 9) + 2) / 5 + d - 1 in
   let doe := yoe * 365 + yoe / 4 - yoe / 100 + doy in
   era * 146097 + doe - 719468)%Z.

Definition civil_from_days (z : Z) : Z * Z * Z :=
  (let z := z + 719468 in
   let era := z / 146097 in
   let doe := z - era * 146097 in
   let yoe := (doe - doe / 1460 + doe / 36524 - doe / 146096) / 365 in
   let doy := doe - (365 * yoe + yoe / 4 - yoe / 100) in
   let mp := (5 * doy + 2) / 153 in
   let d := doy - (153 * mp + 2) / 5 + 1 in
   let m := if mp <? 10 then mp + 3 else mp - 9 in
   (yoe + era * 400 + (if m <=? 2 then 1 else 0), m, d))%Z.

Definition with_date (dt : datetime) (y m d : Z) : datetime :=
  Dt y m d (hour dt) (minute dt) (second dt) (microsecond dt) (utcoffset dt).

(** ["%d" % z] *)
Definition str_of_Z (z : Z) : string :=
  if (z <? 0)%Z then "-" ++ Text.str_of_nat (Z.to_nat (- z))
  else Text.str_of_nat (Z.to_nat z).

(** [dt + timedelta(days=n)] *)
Definition plus_days (dt : datetime) (n : Z) : outcome datetime :=
  if (999999999 <? Z.abs n)%Z then
    Raise (Exn OverflowError
             ("days=" ++ str_of_Z n ++ "; must have magnitude <= 999999999"))
  else
    let '(y, m, d) := civil_from_days (days_from_civil (year dt) (month dt) (day dt) + n) in
    if valid_date y m d then Return (with_date dt y m d)
    else Raise (Exn OverflowError "date value out of range").

(** [dt.replace(year=.., month=.., day=..)] after a move by [n] months *)
Definition plus_months (dt : datetime) (n : Z) : outcome datetime :=
  (let total := year dt * 12 + (month dt - 1) + n in
   let y := total / 12 in
   let m := total mod 12 + 1 in
   let d := Z.min (days_in_month y m) (day dt) in
   if (1 <=? y) && (y <=? 9999) then Return (with_date dt y m d)
   else Raise (Exn ValueError ("year " ++ str_of_Z y ++ " is out of range")))%Z.

Definition relativedelta_plus (dt : datetime) (u : unit_) (n : Z) : outcome datetime :=
  match u with
  | Days => plus_days dt n
  | Weeks => plus_days dt (7 * n)
  | Months => plus_months dt n
  | Years => plus_months dt (12 * n)
  end.

Fixpoint digits_only (s : string) : bool :=
  match s with
  | EmptyString => true
  | String c s' => Text.is_digit c && digits_only s'
  end.

(** a parser for the examples.  It answers as dateutil does, under
    [fuzzy=True], on the texts the examples give it: a calendar date
    [YYYY-MM-DD], which is read as its midnight -- under [dayfirst] with
    the last number as the month when it can be one --; a numeral too
    large for a C long, on which the year overflows; a text without a
    letter or a digit, in which no date is found.  It reads nothing
    else, and the examples give it nothing else. *)
Definition parse_iso_date (s : string) (dayfirst : bool) : outcome datetime :=
  match Strptime.strptime s TimeRangeBound.fmt_date with
  | Some dt =>
    if dayfirst && (day dt <=? 12)%Z then Return (with_date dt (year dt) (day dt) (month dt))
    else Return dt
  | None =>
    if digits_only s && (2 ^ 63 <=? Regex.int_of s)%Z then
      Raise (Exn OverflowError "Python int too large to convert to C long")
    else Raise (Exn ParserError ("String does not contain a date: " ++ s))
  end.

(** noon of 15 June 2024 *)
Definition noon : datetime := Dt 2024 6 15 12 0 0 0 None.

End SampleEnv.

(** ** auth.py *)

Module Auth.
Import Text.

(** What the access check reads: the process environment, the WSGI
    environment of the request, the host name and the request cookies. *)
Record request_ctx := {
  env_DATA_SOURCE_MODE : option string;   (* os.environ.get('DATA_SOURCE_MODE') *)
  env_FLASK_ENV        : option string;   (* os.environ.get('FLASK_ENV') *)
  env_FLASK_DEBUG      : option string;   (* os.environ.get('FLASK_DEBUG') *)
  environ_REMOTE_ADDR  : option string;   (* request.environ, key 'REMOTE_ADDR' *)
  platform_node        : string;          (* platform.node() *)
  cookies_LASTUSER     : option string    (* request.cookies, key 'LASTUSER' *)
}.

Inductive level := INFO | WARNING.

(** What a run of the check leaves behind: the log lines it wrote and the
    calls of [is_restricted_user] it made. *)
Inductive event :=
| Log (lvl : level) (msg : string)
| Restriction_rule (user_id : string).

(** [is_development_environment()], auth.py lines 10-32 *)
Definition is_development_environment (r : request_ctx) : bool :=
  let data_source_mode := env_DATA_SOURCE_MODE r in
  if opt_eqb data_source_mode "dummy"
     && str_in (default "" (environ_REMOTE_ADDR r)) ["127.0.0.1"; "localhost"; "::1"]
  then true
  else
    let node_name := upper (platform_node r) in
    if startswith node_name "DESKTOP" then true
    else if opt_eqb (env_FLASK_ENV r) "development" || opt_eqb (env_FLASK_DEBUG r) "1"
    then true
    else false.

(** [is_restricted_user(user_id)], auth.py lines 34-41: [not user_id] holds
    of [None] and of the empty string *)
Definition is_restricted_user (user_id : option string) : bool :=
  match user_id with
  | None => false
  | Some u => if truthy u then startswith (lower u) "x" else false
  end.

(** [get_user_from_cookie()], auth.py lines 43-48 *)
Definition get_user_from_cookie (r : request_ctx) : option string :=
  cookies_LASTUSER r.

Definition access := (bool * option string)%type.

(** [check_user_access()], auth.py lines 50-69 *)
Definition check_user_access (r : request_ctx) : access * list event :=
  if is_development_environment r then
    ((true, Some "dev_user"),
     [Log INFO "Development environment detected - bypassing authentication"])
  else
    let user_id := get_user_from_cookie r in
    match user_id with
    | None => ((false, None), [Log WARNING "No LASTUSER cookie found in request"])
    | Some u =>
      if negb (truthy u) then
        ((false, None), [Log WARNING "No LASTUSER cookie found in request"])
      else
        let has_access := negb (is_restricted_user user_id) in
        ((has_access, user_id),
         Restriction_rule u ::
         (if negb has_access
          then [Log INFO ("Access denied for restricted user: " ++ u)]
          else []))
    end.

(** the decision alone, as the caller receives it *)
Definition decision (r : request_ctx) : access := fst (check_user_access r).

(** the handler outcome of the [require_access] decorator, auth.py lines 71-87 *)
Inductive response (A : Type) :=
| Denied (error message : string) (status : Z)
| Handled (a : A).
Arguments Denied {A}.
Arguments Handled {A}.

Definition require_access {A} (f : unit -> A) (r : request_ctx) : response A :=
  let '(has_access, _) := decision r in
  if negb has_access then
    Denied "Access denied" "You do not have permission to access this resource" 403
  else Handled (f tt).

End Auth.

(** ** logger_manager.py

    The manager works on two pieces of process-wide state that it does not
    own: the handler registry of the logging backend ([loguru]) and the
    [print] function of [builtins].  Both are part of [state], next to the
    manager object itself.

    Of the backend only the registry matters here: [logger.add] files the
    handler under the next identifier of a counter that never goes back,
    [logger.remove()] empties the registry, and [logger.remove(id)] raises
    [ValueError] when no handler is filed under [id] -- the very case
    [cleanup] catches with [except ValueError: pass  # Handler already
    removed].  [logger.add] can refuse a handler: Python itself when the
    call has no [sink], loguru when it does not know the level, cannot
    read the rotation or the retention, cannot open the file.  Which
    handlers loguru refuses, and with what exception, is the parameter
    [refusal]. *)

Module LoggerManager.
Import Py.

(** a function object, known by its name *)
Inductive callable := Callable (name : string).

Inductive sink := Stdout | File (path : string) | Other (description : string).

(** a keyword argument of [logger.add] *)
Inductive kwval :=
| KSink (s : sink)
| KStr (s : string)
| KBool (b : bool)
| KCallable (f : option callable).     (* a callable, or None *)

Inductive printer := builtin_print | custom_print.

Record loguru := Loguru {
  handlers : gmap nat (gmap string kwval);   (* the registry *)
  handlers_count : nat                        (* the next identifier *)
}.

(** the arguments of [LoggerManager(...)], with their defaults below *)
Record init_args := {
  a_log_name : string;
  a_log_file_path : string;
  a_level : string;
  a_retention : string;
  a_rotation : string;
  a_json_format : bool;
  a_mode : string;
  a_console_level : option string;
  a_enable_print_redirect : bool;
  a_enable_exception_logging : bool;
  a_custom_format : option string;
  a_colorize : option bool;
  a_backtrace : option bool;
  a_diagnose : option bool;
  a_catch_exceptions : bool;
  a_extra_handlers : option (list (gmap string kwval));
  a_filter_func : option callable
}.

Definition default_args : init_args := {|
  a_log_name := "app"; a_log_file_path := "logs/app.log"; a_level := "DEBUG";
  a_retention := "7 days"; a_rotation := "500 MB"; a_json_format := false;
  a_mode := "dev"; a_console_level := None; a_enable_print_redirect := false;
  a_enable_exception_logging := true; a_custom_format := None;
  a_colorize := None; a_backtrace := None; a_diagnose := None;
  a_catch_exceptions := true; a_extra_handlers := None; a_filter_func := None
|}.

(** the attributes of a manager object *)
Record manager := Manager {
  log_name : string;
  log_file_path : string;
  level : string;
  retention : string;
  rotation : string;
  json_format : bool;
  mode : string;
  console_level : string;
  enable_print_redirect : bool;
  enable_exception_logging : bool;
  custom_format : option string;
  colorize : bool;
  backtrace : bool;
  diagnose : bool;
  catch_exceptions : bool;
  extra_handlers : list (gmap string kwval);
  filter_func : option callable;
  _original_print : printer;
  _print_redirected : bool;
  _handler_ids : list nat;
  exception_handler : bool               (* whether the attribute is set *)
}.

Record state := State {
  logger : loguru;            (* loguru's global logger *)
  builtins_print : printer;   (* builtins.print *)
  self : manager
}.

Definition set_logger (l : loguru) (st : state) : state :=
  State l (builtins_print st) (self st).
Definition set_print (p : printer) (st : state) : state :=
  State (logger st) p (self st).
Definition set_self (m : manager) (st : state) : state :=
  State (logger st) (builtins_print st) m.

Definition with_handler_ids (ids : list nat) (m : manager) : manager :=
  Manager (log_name m) (log_file_path m) (level m) (retention m) (rotation m)
    (json_format m) (mode m) (console_level m) (enable_print_redirect m)
    (enable_exception_logging m) (custom_format m) (colorize m) (backtrace m)
    (diagnose m) (catch_exceptions m) (extra_handlers m) (filter_func m)
    (_original_print m) (_print_redirected m) ids (exception_handler m).
Definition with_print_redirected (b : bool) (m : manager) : manager :=
  Manager (log_name m) (log_file_path m) (level m) (retention m) (rotation m)
    (json_format m) (mode m) (console_level m) (enable_print_redirect m)
    (enable_exception_logging m) (custom_format m) (colorize m) (backtrace m)
    (diagnose m) (catch_exceptions m) (extra_handlers m) (filter_func m)
    (_original_print m) b (_handler_ids m) (exception_handler m).
Definition with_filter_func (f : option callable) (m : manager) : manager :=
  Manager (log_name m) (log_file_path m) (level m) (retention m) (rotation m)
    (json_format m) (mode m) (console_level m) (enable_print_redirect m)
    (enable_exception_logging m) (custom_format m) (colorize m) (backtrace m)
    (diagnose m) (catch_exceptions m) (extra_handlers m) f
    (_original_print m) (_print_redirected m) (_handler_ids m) (exception_handler m).
Definition with_extra_handlers (hs : list (gmap string kwval)) (m : manager) : manager :=
  Manager (log_name m) (log_file_path m) (level m) (retention m) (rotation m)
    (json_format m) (mode m) (console_level m) (enable_print_redirect m)
    (enable_exception_logging m) (custom_format m) (colorize m) (backtrace m)
    (diagnose m) (catch_exceptions m) hs (filter_func m)
    (_original_print m) (_print_redirected m) (_handler_ids m) (exception_handler m).
Definition with_exception_handler (m : manager) : manager :=
  Manager (log_name m) (log_file_path m) (level m) (retention m) (rotation m)
    (json_format m) (mode m) (console_level m) (enable_print_redirect m)
    (enable_exception_logging m) (custom_format m) (colorize m) (backtrace m)
    (diagnose m) (catch_exceptions m) (extra_handlers m) (filter_func m)
    (_original_print m) (_print_redirected m) (_handler_ids m) true.

(** *** Statements that read and write the state and may raise *)

Definition M (A : Type) : Type := state -> outcome A * state.

Definition ret {A} (a : A) : M A := fun st => (Return a, st).
Definition seq {A B} (k : A -> M B) (c : M A) : M B :=
  fun st =>
    match c st with
    | (Return a, st') => k a st'
    | (Raise e, st') => (Raise e, st')
    end.
Definition modify (f : state -> state) : M unit := fun st => (Return tt, f st).

Notation "'do' x ':=' c 'in' k" := (seq (fun x => k) c)
  (at level 10, x name, c at level 100, k at level 200).
Notation "c ';;;' k" := (seq (fun _ => k) c)
  (at level 100, k at level 200, right associativity).

(** [try: c  except ValueError: pass] *)
Definition except_ValueError_pass (c : M unit) : M unit :=
  fun st =>
    match c st with
    | (Raise e, st') => if isinstance_ValueError e then (Return tt, st') else (Raise e, st')
    | r => r
    end.

(** *** The backend *)

Definition no_such_handler (handler_id : nat) : exn :=
  Exn ValueError ("There is no existing handler with id " ++ Text.str_of_nat handler_id).

Section Backend.
(** what loguru's [add] does with keyword arguments it refuses -- a level
    name it does not know, a rotation or retention text it cannot read,
    a file it cannot open, a filter that is no filter --: the exception
    it raises, and whether it had taken an identifier by then; [None]
    when it accepts them *)
Variable refusal : gmap string kwval -> option (exn * bool).
(** what [Path(p).parent.mkdir(parents=True, exist_ok=True)] raises for
    the file [p], if anything *)
Variable mkdir_error : string -> option exn.

(** the call of [add] without its one required argument *)
Definition missing_sink : exn :=
  Exn TypeError "Logger.add() missing 1 required positional argument: 'sink'".

(** [logger.add] with keyword arguments [kwargs] *)
Definition logger_add (kwargs : gmap string kwval) : M nat :=
  fun st =>
    let l := logger st in
    match kwargs !! "sink" with
    | None => (Raise missing_sink, st)
    | Some _ =>
      let handler_id := handlers_count l in
      match refusal kwargs with
      | Some (e, taken) =>
        (Raise e,
         set_logger (Loguru (handlers l) (if taken then S handler_id else handler_id)) st)
      | None =>
        (Return handler_id,
         set_logger (Loguru (<[handler_id := kwargs]> (handlers l)) (S handler_id)) st)
      end
    end.

(** [self.log_file_path.parent.mkdir(parents=True, exist_ok=True)] *)
Definition mkdir_parent : M unit :=
  fun st =>
    match mkdir_error (log_file_path (self st)) with
    | Some e => (Raise e, st)
    | None => (Return tt, st)
    end.

(** [logger.remove(handler_id)]; [None] stands for the call without argument *)
Definition logger_remove (handler_id : option nat) : M unit :=
  fun st =>
    let l := logger st in
    match handler_id with
    | None => (Return tt, set_logger (Loguru ∅ (handlers_count l)) st)
    | Some i =>
      match handlers l !! i with
      | None => (Raise (no_such_handler i), st)
      | Some _ =>
        (Return tt, set_logger (Loguru (delete i (handlers l)) (handlers_count l)) st)
      end
    end.

(** *** The manager *)

(** [self._handler_ids.append(handler_id)] *)
Definition append_handler_id (handler_id : nat) : M unit :=
  modify (fun st =>
    set_self (with_handler_ids (_handler_ids (self st) ++ [handler_id]) (self st)) st).

(** [l.remove(x)]: drops the first occurrence *)
Fixpoint list_remove (x : nat) (l : list nat) : list nat :=
  match l with
  | [] => []
  | y :: l' => if Nat.eqb x y then l' else y :: list_remove x l'
  end.

(** [_redirect_print], logger_manager.py lines 165-175 *)
Definition _redirect_print : M unit :=
  fun st =>
    if _print_redirected (self st) then (Return tt, st)
    else
      (Return tt,
       set_self (with_print_redirected true (self st)) (set_print custom_print st)).

(** [restore_print], logger_manager.py lines 177-181 *)
Definition restore_print : M unit :=
  fun st =>
    if _print_redirected (self st) then
      (Return tt,
       set_self (with_print_redirected false (self st))
                (set_print (_original_print (self st)) st))
    else (Return tt, st).

(** [_setup_exception_logging], logger_manager.py lines 183-190 *)
Definition _setup_exception_logging : M unit :=
  fun st =>
    if catch_exceptions (self st)
    then (Return tt, set_self (with_exception_handler (self st)) st)
    else (Return tt, st).

(** a handler dictionary after [if 'filter' not in h and self.filter_func:
    h['filter'] = self.filter_func] *)
Definition fill_filter (f : option callable) (h : gmap string kwval) : gmap string kwval :=
  match h !! "filter", f with
  | None, Some _ => <["filter" := KCallable f]> h
  | _, _ => h
  end.

Definition console_kwargs (m : manager) : gmap string kwval :=
  list_to_map
    [ ("sink", KSink Stdout); ("level", KStr (console_level m));
      ("format", KStr "{time:YYYY-MM-DD HH:mm:ss} | {level:<5} | {message}");
      ("colorize", KBool false); ("backtrace", KBool (backtrace m));
      ("diagnose", KBool (diagnose m)); ("filter", KCallable (filter_func m)) ].

Definition file_format (m : manager) : string :=
  if json_format m then "{message}"
  else
    match custom_format m with
    | Some (String c f) => String c f
    | _ => "{time:YYYY-MM-DD HH:mm:ss} | {level:<5} | {function}:{line} | {message}"
    end.

Definition file_kwargs (m : manager) : gmap string kwval :=
  list_to_map
    [ ("sink", KSink (File (log_file_path m))); ("level", KStr (level m));
      ("rotation", KStr (rotation m)); ("retention", KStr (retention m));
      ("format", KStr (file_format m)); ("backtrace", KBool (backtrace m));
      ("diagnose", KBool (diagnose m)); ("enqueue", KBool true);
      ("serialize", KBool (json_format m)); ("filter", KCallable (filter_func m)) ].

(** the loop over [self.extra_handlers]; the dictionaries are the
    manager's own objects, so the filter written into one stays there *)
Fixpoint add_extra_handlers (todo done : list (gmap string kwval)) : M unit :=
  match todo with
  | [] => ret tt
  | h :: todo' =>
    fun st =>
      let h' := fill_filter (filter_func (self st)) h in
      (modify (fun st => set_self (with_extra_handlers (done ++ h' :: todo') (self st)) st) ;;;
       do handler_id := logger_add h' in
       append_handler_id handler_id ;;;
       add_extra_handlers todo' (done ++ [h'])) st
  end.

(** [_setup_logger], logger_manager.py lines 97-162 *)
Definition _setup_logger : M unit :=
  logger_remove None ;;;
  (fun st => (do handler_id := logger_add (console_kwargs (self st)) in
              append_handler_id handler_id) st) ;;;
  mkdir_parent ;;;
  (fun st => (do handler_id := logger_add (file_kwargs (self st)) in
              append_handler_id handler_id) st) ;;;
  (fun st => add_extra_handlers (extra_handlers (self st)) [] st) ;;;
  (fun st => if enable_print_redirect (self st) then _redirect_print st else ret tt st) ;;;
  (fun st => if enable_exception_logging (self st)
             then _setup_exception_logging st else ret tt st).

(** [LoggerManager(...)], logger_manager.py lines 36-95, run in a process
    whose backend is [l] and whose [print] is [p] *)
Definition __init__ (a : init_args) (l : loguru) (p : printer) : outcome unit * state :=
  let level := Text.upper (a_level a) in
  let mode := Text.lower (a_mode a) in
  let is_dev := String.eqb mode "dev" in
  let console_level :=
    match a_console_level a with
    | Some (String c s) => Text.upper (String c s)
    | _ => if is_dev then "INFO" else level
    end in
  _setup_logger
    (State l p
      {| log_name := a_log_name a; log_file_path := a_log_file_path a;
         level := level; retention := a_retention a; rotation := a_rotation a;
         json_format := a_json_format a; mode := mode;
         console_level := console_level;
         enable_print_redirect := a_enable_print_redirect a;
         enable_exception_logging := a_enable_exception_logging a;
         custom_format := a_custom_format a;
         colorize := default false (a_colorize a);
         backtrace := default is_dev (a_backtrace a);
         diagnose := default is_dev (a_diagnose a);
         catch_exceptions := a_catch_exceptions a;
         extra_handlers := default [] (a_extra_handlers a);
         filter_func := a_filter_func a;
         _original_print := p;
         _print_redirected := false;
         _handler_ids := [];
         exception_handler := false |}).

(** [add_handler], logger_manager.py lines 192-203 *)
Definition add_handler (kwargs : gmap string kwval) : M nat :=
  fun st =>
    (do handler_id := logger_add (fill_filter (filter_func (self st)) kwargs) in
     append_handler_id handler_id ;;;
     ret handler_id) st.

(** [remove_handler], logger_manager.py lines 205-209 *)
Definition remove_handler (handler_id : nat) : M unit :=
  logger_remove (Some handler_id) ;;;
  (fun st =>
     if bool_decide (handler_id ∈ _handler_ids (self st))
     then (Return tt,
           set_self (with_handler_ids (list_remove handler_id (_handler_ids (self st)))
                                      (self st)) st)
     else (Return tt, st)).

(** the loop of [cleanup] over a copy of the identifiers *)
Fixpoint remove_all (ids : list nat) : M unit :=
  match ids with
  | [] => ret tt
  | handler_id :: ids' =>
    except_ValueError_pass (logger_remove (Some handler_id)) ;;; remove_all ids'
  end.

(** [cleanup], logger_manager.py lines 304-315 *)
Definition cleanup : M unit :=
  (fun st => remove_all (_handler_ids (self st)) st) ;;;
  modify (fun st => set_self (with_handler_ids [] (self st)) st) ;;;
  restore_print.

(** [set_filter], logger_manager.py lines 287-302 *)
Definition set_filter (f : option callable) : M unit :=
  modify (fun st => set_self (with_filter_func f (self st)) st) ;;;
  cleanup ;;;
  _setup_logger.

End Backend.

(** the backend of a fresh interpreter: loguru's default handler has
    identifier 0 *)
Definition fresh_loguru : loguru :=
  Loguru {[ 0%nat := {[ "sink" := KSink (Other "stderr") ]} ]} 1.

End LoggerManager.

(** ** A backend for the examples: loguru with its seven standard levels,
    on a file system where every directory can be made but those under
    [/proc/nope] *)

Module SampleBackend.
Import Py LoggerManager.

Definition standard_levels : list string :=
  [ "TRACE"; "DEBUG"; "INFO"; "SUCCESS"; "WARNING"; "ERROR"; "CRITICAL" ].

(** a level name that is none of the seven is refused, the identifier
    taken; everything else is accepted *)
Definition loguru_refusal (kwargs : gmap string kwval) : option (exn * bool) :=
  match kwargs !! "level" with
  | Some (KStr name) =>
    if Text.str_in name standard_levels then None
    else Some (Exn ValueError ("Level '" ++ name ++ "' does not exist"), true)
  | _ => None
  end.

(** [FileNotFoundError], a subclass of [OSError] and so of [Exception],
    as [mkdir] raises it under [/proc] *)
Definition no_such_directory : exn :=
  Exn (UserException "FileNotFoundError")
      "[Errno 2] No such file or directory: '/proc/nope'".

Definition writable (path : string) : option exn :=
  if Text.startswith path "/proc/nope/" then Some no_such_directory else None.

End SampleBackend.

(** ** scheduler.py

    A scheduled callable acts on the rest of the process, a state of some
    type [W], and returns a result of some type [R] or raises.  The log is
    the list of records written through the application logger.  Of the
    scheduling backend only the job store is kept: [add_job] files a job
    under the identifier given, or under a fresh one. *)

Module Scheduler.
Import Py.

Inductive level := INFO | SUCCESS | WARNING | ERROR.

Record log_record := LogRecord {
  lvl : level;
  message : string;
  extra : list (string * string);     (* the fields bound to the logger *)
  exc_info : option exn               (* the exception [logger.exception] attaches *)
}.

(** a logger with fields bound to it *)
Definition bound_logger := list (string * string).

(** app_logger.py: [get_task_logger(task_name)] *)
Definition get_task_logger (task_name : string) : bound_logger :=
  [("task", task_name); ("task_type", "scheduled")].

Definition info (l : bound_logger) (msg : string) : log_record :=
  LogRecord INFO msg l None.
Definition success (l : bound_logger) (msg : string) : log_record :=
  LogRecord SUCCESS msg l None.
(** [l.exception(msg)], called while [e] is being handled *)
Definition exception (l : bound_logger) (msg : string) (e : exn) : log_record :=
  LogRecord ERROR msg l (Some e).

Section Jobs.
Context {W R : Type}.

(** what a job runs in: the log and the rest of the process *)
Definition job_state : Type := list log_record * W.

Record callable := Callable {
  __name__ : string;
  call : W -> outcome R * W
}.

(** the keyword arguments of [add_job] that the module looks at *)
Record job_kwargs := { kw_name : option string; kw_id : option string }.

Record job := Job {
  job_id : string;
  job_name : string;
  job_func : job_state -> outcome R * job_state;
  job_trigger : string;
  next_run_time : option string
}.

(** the backend: its job store and the count of identifiers it has made up *)
Record background_scheduler := Backend {
  jobs : list job;
  running : bool;
  made_up : nat
}.

Record scheduler_manager := SchedulerManager {
  scheduler : option background_scheduler;
  _initialized : bool
}.

(** the closure [logged_job_wrapper] that [add_job] builds around [func],
    scheduler.py lines 112-122 *)
Definition logged_job_wrapper (job_name : string) (func : callable)
  : job_state -> outcome R * job_state :=
  fun '(log, w) =>
    let task_logger := get_task_logger job_name in
    let log := (log ++ [info task_logger ("Starting scheduled task: " ++ job_name)])%list in
    match call func w with
    | (Return result, w') =>
      (Return result,
       ((log ++ [success task_logger ("Completed scheduled task: " ++ job_name)])%list, w'))
    | (Raise e, w') =>
      if isinstance_Exception e then            (* except Exception as e: *)
        (Raise e,
         ((log ++ [exception task_logger ("Error in scheduled task: " ++ job_name) e])%list,
          w'))
      else (Raise e, (log, w'))
    end.

Definition has_job_id (i : string) (j : job) : bool := String.eqb (job_id j) i.

(** [trigger.get_next_fire_time(None, now)], printed: the time a running
    scheduler gives a job it takes; [None] when the trigger will not fire *)
Variable next_fire_time : string -> option string.

(** the run time of a job just added: a scheduler that is not running
    has computed none yet *)
Definition first_run_time (b : background_scheduler) (trigger : string) : option string :=
  if running b then next_fire_time trigger else None.

(** the backend's [add_job(func, trigger, name=.., id=..)] *)
Definition backend_add_job (func : job_state -> outcome R * job_state)
           (trigger name : string) (id : option string) (b : background_scheduler)
  : outcome job * background_scheduler :=
  match id with
  | Some i =>
    if existsb (has_job_id i) (jobs b)
    then (Raise (Exn (UserException "ConflictingIdError")
                     ("Job identifier (" ++ i ++ ") conflicts with an existing job")), b)
    else
      let j := Job i name func trigger (first_run_time b trigger) in
      (Return j, Backend (jobs b ++ [j])%list (running b) (made_up b))
  | None =>
    let j := Job ("job-" ++ Text.str_of_nat (made_up b)) name func trigger
                 (first_run_time b trigger) in
    (Return j, Backend (jobs b ++ [j])%list (running b) (S (made_up b)))
  end.

(** [SchedulerManager.add_job(func, trigger, **kwargs)], scheduler.py lines
    99-133, on the application log and the manager *)
Definition add_job (func : callable) (trigger : string) (kwargs : job_kwargs)
           (st : list log_record * scheduler_manager)
  : outcome job * (list log_record * scheduler_manager) :=
  let '(log, self) := st in
  let job_name := default (__name__ func) (kw_name kwargs) in
  let wrapper := logged_job_wrapper job_name func in
  match scheduler self with
  | None =>
    (Raise (Exn AttributeError "'NoneType' object has no attribute 'add_job'"), st)
  | Some b =>
    match backend_add_job wrapper trigger job_name (kw_id kwargs) b with
    | (Return j, b') =>
      (Return j,
       ((log ++ [LogRecord INFO ("Added scheduled job: " ++ job_name)
                   [("trigger", trigger); ("job_id", job_id j);
                    ("next_run", default "None" (next_run_time j))] None])%list,
        SchedulerManager (Some b') (_initialized self)))
    | (Raise e, b') => (Raise e, (log, SchedulerManager (Some b') (_initialized self)))
    end
  end.

End Jobs.

Arguments callable : clear implicits.
Arguments job : clear implicits.
Arguments background_scheduler : clear implicits.
Arguments scheduler_manager : clear implicits.

End Scheduler.

(** ** time_range_bound.py: the search helper

    Of the search object only the calls made on it are kept: the filter
    clauses in the order of the [filter] calls, the parameters set by
    [params] and the sort keys set by [sort].  The extra filters are a
    dictionary, walked in insertion order; it is a list of pairs here. *)

Module TimeRangeSearch.
Import Py Datetime Values TimeRangeBound.






End TimeRangeSearch.

(** ** datetime_converter.py: the entry point with settings

    [parse_date_string_with_settings] hands the parser three more
    arguments; the free-form parser of this section takes them all. *)

Module DatetimeConverterSettings.
Import Py Datetime Values Regex DatetimeConverter.

Section Settings.
Variable now : datetime.
Variable plus : datetime -> unit_ -> Z -> outcome datetime.
(** [parser.parse(text, fuzzy=True, dayfirst=.., yearfirst=.., default=..)] *)
Variable parse_with : string -> bool -> bool -> option datetime -> outcome datetime.

(** [parse_date_string_with_settings], datetime_converter.py lines 103-150 *)
Definition parse_date_string_with_settings (date_string : pyval)
           (return_iso dayfirst yearfirst : bool) (default : option datetime)
           (include_microseconds : bool) : outcome (option parsed) :=
  match date_string with
  | PStr s =>
    if negb (Text.truthy s) then Return None
    else
      let s := Text.strip s in
      let* relative_dt := parse_relative_date now plus s in
      match relative_dt with
      | Some dt => Return (finish return_iso include_microseconds dt)
      | None =>
        match parse_with s dayfirst yearfirst default with
        | Return dt => Return (finish return_iso include_microseconds dt)
        | Raise e => if isinstance_ValueError e then Return None else Raise e
        end
      end
  | _ => Return None
  end.

End Settings.

End DatetimeConverterSettings.

(** ** logger_manager.py: flushing, the context manager, finalisation *)

Module LoggerLifecycle.
Import Py LoggerManager.

Section Flush.
(** [logger.complete()]: it waits for the queued messages and leaves the
    registry alone; whether it raises depends on the sinks *)
Variable complete : state -> outcome unit.

(** [try: logger.complete()  except Exception: pass] *)
Definition complete_quietly : M unit :=
  fun st =>
    match complete st with
    | Return _ => (Return tt, st)
    | Raise e => if isinstance_Exception e then (Return tt, st) else (Raise e, st)
    end.

(** the loop of [flush] over the tracked identifiers *)
Fixpoint flush_each (ids : list nat) : M unit :=
  match ids with
  | [] => ret tt
  | _ :: ids' => complete_quietly ;;; flush_each ids'
  end.

(** [flush], logger_manager.py lines 227-237 *)
Definition flush : M unit :=
  fun st => flush_each (_handler_ids (self st)) st.

(** [__exit__], logger_manager.py lines 321-326 *)
Definition __exit__ : M bool :=
  flush ;;;
  (fun st => if enable_print_redirect (self st) then restore_print st else ret tt st) ;;;
  ret false.

End Flush.

(** [__del__], logger_manager.py lines 328-333 *)
Definition __del__ : M unit :=
  fun st =>
    match cleanup st with
    | (Raise e, st') =>
      if isinstance_Exception e then (Return tt, st') else (Raise e, st')
    | r => r
    end.

End LoggerLifecycle.

(** ** logger_manager.py: the decorator [log_performance] *)

Module Performance.
Import Py Scheduler.

(** [', '.join(l)] *)
Fixpoint join (sep : string) (l : list string) : string :=
  match l with
  | [] => ""
  | [x] => x
  | x :: l' => x ++ sep ++ join sep l'
  end.

(** the text about the arguments; [args] holds the [repr] of the
    positional arguments and [kwargs] the names and the [repr] of the
    keyword arguments *)
Definition kwarg_text (kv : string * string) : string := fst kv ++ "=" ++ snd kv.

Definition arg_str (include_args : bool) (args : list string)
           (kwargs : list (string * string)) : string :=
  if include_args then
    let arg_list := args in
    let kwarg_list := map kwarg_text kwargs in
    " with args: (" ++ join ", " (arg_list ++ kwarg_list)%list ++ ")"
  else "".

Section Wrapper.
Context {W R : Type}.

(** the closure [wrapper] that [log_performance(include_args,
    log_exceptions)] builds around [func], logger_manager.py lines
    255-277; [elapsed] is the duration the clock gives, printed with
    three decimals *)
Definition log_performance (include_args log_exceptions : bool) (func : callable W R)
           (args : list string) (kwargs : list (string * string)) (elapsed : string)
  : job_state -> outcome R * job_state :=
  fun '(log, w) =>
    let func_name := __name__ func in
    let arg_str := arg_str include_args args kwargs in
    match call func w with
    | (Return result, w') =>
      (Return result,
       ((log ++ [LogRecord INFO
                   ("Function '" ++ func_name ++ "'" ++ arg_str
                    ++ " executed successfully in " ++ elapsed ++ " seconds")
                   [] None])%list, w'))
    | (Raise e, w') =>
      if isinstance_Exception e then            (* except Exception as e: *)
        (Raise e,
         (if log_exceptions then
            (log ++ [LogRecord ERROR
                       ("Function '" ++ func_name ++ "'" ++ arg_str
                        ++ " failed after " ++ elapsed ++ " seconds")
                       [] (Some e)])%list
          else log, w'))
      else (Raise e, (log, w'))
    end.

End Wrapper.

End Performance.

(** ** app_logger.py: the one logger of the application *)

Module AppLogger.
Import Py LoggerManager Scheduler.

(** the two variables of the environment the module reads *)
Record environ := Environ {
  LOG_LEVEL : option string;
  FLASK_ENV : option string
}.

(** what the start-up record tells about the process *)
Record host := Host {
  pid : string;      (* [os.getpid()], printed *)
  cwd : string       (* the working directory, for [Path.absolute()] *)
}.

(** [os.getenv('FLASK_ENV') == 'production'] *)
Definition is_production (e : environ) : bool :=
  Text.opt_eqb (FLASK_ENV e) "production".

(** the arguments of [LoggerManager(...)], app_logger.py lines 22-35 *)
Definition manager_args (e : environ) : init_args := {|
  a_log_name := "skewnono_app";
  a_log_file_path := "logs/skewnono_app.log";
  a_level := default "INFO" (LOG_LEVEL e);
  a_retention := "30 days";
  a_rotation := "100 MB";
  a_json_format := is_production e;
  a_mode := if is_production e then "prod" else "dev";
  a_console_level := Some "INFO";
  a_enable_print_redirect := false;
  a_enable_exception_logging := true;
  a_custom_format := None;
  a_colorize := None;
  a_backtrace := Some true;
  a_diagnose := Some (negb (is_production e));
  a_catch_exceptions := true;
  a_extra_handlers := None;
  a_filter_func := None
|}.

(** the interpreter as the module sees it: loguru's logger, [print], the
    two globals of the module, and the records handed to the logger *)
Record process := Process {
  backend : loguru;
  print : printer;
  _log_manager : option manager;
  _logger : bool;                    (* whether [_logger] is set *)
  written : list log_record
}.

Definition startup_record (h : host) (m : manager) : log_record :=
  LogRecord INFO "Application logger initialized"
    [("pid", pid h); ("log_file", cwd h ++ "/" ++ log_file_path m)] None.

Section Backend.
(** the backend and the file system, as in [LoggerManager] *)
Variable refusal : gmap string kwval -> option (exn * bool).
Variable mkdir_error : string -> option exn.

(** [get_app_logger], app_logger.py lines 13-43; the logger it returns
    is loguru's one logger.  An exception of the constructor leaves the
    function before either global is assigned.  The start-up record is
    written once the constructor has returned: the log file has been
    opened under the working directory by then, so that
    [log_file_path.absolute()] finds it. *)
Definition get_app_logger (e : environ) (h : host) (s : process)
  : outcome unit * process :=
  if _logger s then (Return tt, s)
  else
    match __init__ refusal mkdir_error (manager_args e) (backend s) (print s) with
    | (Return _, st) =>
      (Return tt,
       Process (logger st) (builtins_print st) (Some (self st)) true
         (written s ++ [startup_record h (self st)])%list)
    | (Raise x, st) =>
      (Raise x,
       Process (logger st) (builtins_print st) (_log_manager s) (_logger s) (written s))
    end.

End Backend.

(** [cleanup_logger], app_logger.py lines 59-69 *)
Definition cleanup_logger (s : process) : outcome unit * process :=
  match _log_manager s with
  | Some m =>
    match cleanup (State (backend s) (print s) m) with
    | (Return _, st) =>
      (Return tt, Process (logger st) (builtins_print st) None false (written s))
    | (Raise x, st) =>
      (Raise x,
       Process (logger st) (builtins_print st) (Some (self st)) (_logger s) (written s))
    end
  | None => (Return tt, s)
  end.

(** the interpreter before the module is imported *)
Definition fresh_process : process :=
  Process fresh_loguru builtin_print None false [].

End AppLogger.

(** ** scheduler.py: starting and stopping the scheduler *)

Module SchedulerLifecycle.
Import Py Scheduler.

Inductive event := EVENT_JOB_EXECUTED | EVENT_JOB_ERROR | EVENT_JOB_MISSED.

(** the three bound methods the manager registers as listeners *)
Inductive listener :=
| _job_executed_listener
| _job_error_listener
| _job_missed_listener.

Section Lifecycle.
Context {W R : Type}.

(** the process as the module sees it *)
Record world := World {
  log : list log_record;                 (* the records handed to the application logger *)
  manager : scheduler_manager W R;       (* the global [scheduler_manager] *)
  listeners : list (listener * event);   (* the listeners of [manager.scheduler] *)
  atexit : nat                           (* how often [shutdown] is registered with [atexit] *)
}.

(** what the backend's own [shutdown] leaves in its job store *)
Variable jobs_after_shutdown : list (job W R) -> list (job W R).
(** the time a running scheduler gives a job it takes *)
Variable next_fire_time : string -> option string.

(** [BackgroundScheduler(...)]: no job, not running *)
Definition new_scheduler : background_scheduler W R := Backend [] false 0.

(** [init_scheduler], scheduler.py lines 22-68; [started] is how
    [self.scheduler.start()] ends *)
Definition init_scheduler (started : outcome unit) (w : world)
  : outcome (option (background_scheduler W R)) * world :=
  let self := manager w in
  if _initialized self then
    (Return (scheduler self),
     World (log w ++ [LogRecord WARNING "Scheduler already initialized, skipping..."
                        [] None])%list
           self (listeners w) (atexit w))
  else
    let b := new_scheduler in
    let ls := [ (_job_executed_listener, EVENT_JOB_EXECUTED);
                (_job_error_listener, EVENT_JOB_ERROR);
                (_job_missed_listener, EVENT_JOB_MISSED) ] in
    match started with
    | Return _ =>
      let b' := Backend (jobs b) true (made_up b) in
      (Return (Some b'),
       World (log w ++ [LogRecord SUCCESS "Scheduler initialized successfully"
                          [("jobs_count", Text.str_of_nat (length (jobs b')))] None])%list
             (SchedulerManager (Some b') true) ls (S (atexit w)))
    | Raise e =>
      if isinstance_Exception e then            (* except Exception as e: *)
        (Raise e,
         World (log w ++ [LogRecord ERROR "Failed to initialize scheduler" []
                            (Some e)])%list
               (SchedulerManager (Some b) false) ls (atexit w))
      else
        (Raise e, World (log w) (SchedulerManager (Some b) false) ls (atexit w))
    end.

(** [shutdown], scheduler.py lines 156-162 *)
Definition shutdown (wait : bool) (w : world) : outcome unit * world :=
  match scheduler (manager w) with
  | Some b =>
    if running b then
      (Return tt,
       World (log w ++ [LogRecord INFO "Shutting down scheduler..." [] None;
                        LogRecord SUCCESS "Scheduler shutdown complete" [] None])%list
             (SchedulerManager
                (Some (Backend (jobs_after_shutdown (jobs b)) false (made_up b))) false)
             (listeners w) (atexit w))
    else (Return tt, w)
  | None => (Return tt, w)
  end.

(** [get_scheduler], scheduler.py lines 167-171 *)
Definition get_scheduler (started : outcome unit) (w : world)
  : outcome (option (background_scheduler W R)) * world :=
  if negb (_initialized (manager w)) then
    match init_scheduler started w with
    | (Return _, w') => (Return (scheduler (manager w')), w')
    | (Raise e, w') => (Raise e, w')
    end
  else (Return (scheduler (manager w)), w).

(** [add_scheduled_job], scheduler.py lines 173-175 *)
Definition add_scheduled_job (func : callable W R) (trigger : string)
           (kwargs : job_kwargs) (w : world) : outcome (job W R) * world :=
  match add_job next_fire_time func trigger kwargs (log w, manager w) with
  | (r, (log', manager')) => (r, World log' manager' (listeners w) (atexit w))
  end.

(** the process right after the module is imported *)
Definition fresh_world : world := World [] (SchedulerManager None false) [] 0.

End Lifecycle.

Arguments world : clear implicits.

End SchedulerLifecycle.

(** * The vocabulary of the properties

    The predicates in which the properties are stated, and the sample
    inputs on which they are exercised. *)

Section AuthVocabulary.
Import Text Auth.

(** the three addresses the gate takes for the local machine *)
Definition loopback (r : request_ctx) : Prop :=
  let a := default "" (environ_REMOTE_ADDR r) in
  a = "127.0.0.1" \/ a = "localhost" \/ a = "::1".

Definition dummy_mode_from_loopback (r : request_ctx) : Prop :=
  env_DATA_SOURCE_MODE r = Some "dummy" /\ loopback r.

Definition development_hostname (r : request_ctx) : Prop :=
  startswith (upper (platform_node r)) "DESKTOP" = true.

Definition debug_flag (r : request_ctx) : Prop :=
  env_FLASK_ENV r = Some "development" \/ env_FLASK_DEBUG r = Some "1".

(** no development bypass applies *)
Definition no_development_bypass (r : request_ctx) : Prop :=
  ~ dummy_mode_from_loopback r /\ ~ development_hostname r /\ ~ debug_flag r.

(** the first character of [u] is [x], in either case *)
Definition first_char_is_x (u : string) : Prop :=
  exists c rest, u = String c rest /\ (c = "x"%char \/ c = "X"%char).

(** the request [r] without its [LASTUSER] cookie *)
Definition without_cookie (r : request_ctx) : request_ctx :=
  {| env_DATA_SOURCE_MODE := env_DATA_SOURCE_MODE r;
     env_FLASK_ENV := env_FLASK_ENV r;
     env_FLASK_DEBUG := env_FLASK_DEBUG r;
     environ_REMOTE_ADDR := environ_REMOTE_ADDR r;
     platform_node := platform_node r;
     cookies_LASTUSER := None |}.

(** the rule of the gate read to the letter: every cookie that is
    present, the empty one included, is judged by its first character *)
Definition cookie_rule_to_the_letter (r : request_ctx) : Prop :=
  no_development_bypass r ->
  match cookies_LASTUSER r with
  | None => decision r = (false, None)
  | Some u =>
    (first_char_is_x u -> decision r = (false, Some u))
    /\ (~ first_char_is_x u -> decision r = (true, Some u))
  end.

(** the requests of the examples: a production host, no debug flag *)
Definition request_with (cookie : option string) : request_ctx :=
  {| env_DATA_SOURCE_MODE := None; env_FLASK_ENV := Some "production";
     env_FLASK_DEBUG := None; environ_REMOTE_ADDR := Some "10.0.0.7";
     platform_node := "web-01"; cookies_LASTUSER := cookie |}.

Definition dummy_request (cookie : option string) : request_ctx :=
  {| env_DATA_SOURCE_MODE := Some "dummy"; env_FLASK_ENV := Some "production";
     env_FLASK_DEBUG := None; environ_REMOTE_ADDR := Some "127.0.0.1";
     platform_node := "web-01"; cookies_LASTUSER := cookie |}.

End AuthVocabulary.

Section RegexVocabulary.
Import Regex.

(** the least number of characters a match of [r] consumes *)
Fixpoint min_len (r : regex) : nat :=
  match r with
  | Eps | Star _ | Opt _ => 0
  | Chr _ | Cls _ => 1
  | Seq r1 r2 => min_len r1 + min_len r2
  | Alt r1 r2 => Nat.min (min_len r1) (min_len r2)
  | Grp _ r1 => min_len r1
  end.

(** the names of the groups of [r] *)
Fixpoint names (r : regex) : list string :=
  match r with
  | Eps | Star _ | Chr _ | Cls _ => []
  | Seq r1 r2 | Alt r1 r2 => names r1 ++ names r2
  | Opt r1 => names r1
  | Grp n r1 => n :: names r1
  end.

End RegexVocabulary.

Section TimeRangeVocabulary.
Import Py Datetime Values Regex Strptime TimeRangeBound.

(** [v] is read by [parse_time_input] *)
Definition parses (v : pyval) : Prop :=
  exists dt, parse_time_input v = Return dt.

(** [v] does not make [get_time_range_bounds] raise: it is left out (or
    falsy, which the builder treats alike), or it parses *)
Definition usable (v : pyval) : Prop := truthy v = false \/ parses v.

(** the text is read by one of the two formats with a time of day *)
Definition has_time_component (s : string) : Prop :=
  is_Some (strptime s fmt_seconds) \/ is_Some (strptime s fmt_minutes).






End TimeRangeVocabulary.

Section ConverterVocabulary.
Import Py Datetime Values Regex DatetimeConverter.

Variable now : datetime.
Variable plus : datetime -> unit_ -> Z -> outcome datetime.
Variable parse : string -> bool -> outcome datetime.

(** the clock is at least a year away from both ends of the range of
    [datetime], so the ten entries of the table of relative dates exist *)
Definition clock_in_range : Prop :=
  forall u, raises (plus now u 1) = false /\ raises (plus now u (-1)) = false.

Definition relative_phrases : list string :=
  [ "today"; "now"; "yesterday"; "tomorrow"; "last week"; "next week";
    "last month"; "next month"; "last year"; "next year" ].

(** the text is one of the relative phrases, in any case *)
Definition is_relative_phrase (s : string) : Prop :=
  In (Text.lower s) relative_phrases.

(** one of the eight patterns is found in the text *)
Definition matches_offset_pattern (s : string) : Prop :=
  exists p d, In (p, d) patterns /\ is_Some (search p (Text.lower s)).

(** a free-form attempt fails: the parser raises [ParserError] or
    another [ValueError] *)
Definition parse_fails (s : string) (dayfirst : bool) : Prop :=
  exists e, parse s dayfirst = Raise e /\ isinstance_ValueError e = true.

(** the test that no pattern is found, by running the eight searches *)
Definition no_offset_pattern (s : string) : bool :=
  forallb (fun pd : regex * (bool * unit_) =>
             match search (fst pd) (Text.lower s) with Some _ => false | None => true end)
          patterns.

End ConverterVocabulary.

Section LoggerVocabulary.
Import Py LoggerManager SampleBackend.

(** a manager with the default arguments, and one that redirects
    [print], each built in a fresh interpreter *)
Definition default_manager : state :=
  snd (__init__ loguru_refusal writable default_args fresh_loguru builtin_print).

Definition redirecting_args : init_args := {|
  a_log_name := "app"; a_log_file_path := "logs/app.log"; a_level := "DEBUG";
  a_retention := "7 days"; a_rotation := "500 MB"; a_json_format := false;
  a_mode := "dev"; a_console_level := None; a_enable_print_redirect := true;
  a_enable_exception_logging := true; a_custom_format := None;
  a_colorize := None; a_backtrace := None; a_diagnose := None;
  a_catch_exceptions := true; a_extra_handlers := None; a_filter_func := None
|}.

Definition redirecting_manager : state :=
  snd (__init__ loguru_refusal writable redirecting_args fresh_loguru builtin_print).

(** every identifier below [c] is free, and the counter has passed [c] *)
Definition above (c : nat) (st : state) : Prop :=
  c <= handlers_count (logger st)
  /\ forall i, i < c -> handlers (logger st) !! i = None.

(** a statement keeps the property [P] of the state, however it ends *)
Definition preserves {A} (P : state -> Prop) (c : M A) : Prop :=
  forall st, P st -> P (snd (c st)).

(** an extra sink, as a caller of [add_handler] would describe it *)
Definition audit_sink : gmap string kwval := {[ "sink" := KSink (Other "audit") ]}.

End LoggerVocabulary.

Section SchedulerVocabulary.
Import Py Scheduler.
Context {W R : Type}.

Definition started (name : string) : log_record :=
  info (get_task_logger name) ("Starting scheduled task: " ++ name).

Definition completed (name : string) : log_record :=
  success (get_task_logger name) ("Completed scheduled task: " ++ name).

Definition failed (name : string) (e : exn) : log_record :=
  exception (get_task_logger name) ("Error in scheduled task: " ++ name) e.

(** the records [log'] holds beyond those of [log] *)
Definition written_since (log log' : list log_record) : list log_record :=
  drop (length log) log'.

(** the wrapper contract read to the letter: whatever the callable
    raises comes out of the wrapper again, and has been logged by then *)
Definition logs_and_reraises_every_exception
           (func : callable W R) (wrapped : job_state -> outcome R * job_state) : Prop :=
  forall log w e w',
    call func w = (Raise e, w') ->
    exists log',
      wrapped (log, w) = (Raise e, (log', w'))
      /\ exists r, In r (written_since log log') /\ exc_info r = Some e.

End SchedulerVocabulary.

Section SchedulerSamples.
Import Py Scheduler.

(** a running scheduler with no job yet *)
Definition idle_manager : list log_record * scheduler_manager unit Z :=
  ([], SchedulerManager (Some (Backend [] true 0)) true).

Definition no_kwargs : job_kwargs := {| kw_name := None; kw_id := None |}.

(** three jobs: one returns 42, one divides by zero, one leaves through
    [sys.exit(1)] *)
Definition answer : callable unit Z :=
  Callable "answer" (fun w => (Return 42%Z, w)).

Definition broken : callable unit Z :=
  Callable "broken" (fun w => (Raise (Exn ZeroDivisionError "division by zero"), w)).

Definition leaving : callable unit Z :=
  Callable "leaving" (fun w => (Raise (Exn SystemExit "1"), w)).

(** a scheduler whose jobs fire ten seconds after they are added *)
Definition in_ten_seconds (trigger : string) : option string :=
  Some "2024-06-15 12:00:10+00:00".

End SchedulerSamples.

Section AuthCoverageVocabulary.
Import Text Auth.

(** the request carries a cookie the gate accepts: it is there, it is not
    empty and it does not start with [x] or [X] *)
Definition acceptable_cookie (r : request_ctx) : Prop :=
  exists u, cookies_LASTUSER r = Some u /\ u <> "" /\ ~ first_char_is_x u.

(** the request [r] with another [LASTUSER] cookie, or none *)
Definition with_cookie (cookie : option string) (r : request_ctx) : request_ctx :=
  {| env_DATA_SOURCE_MODE := env_DATA_SOURCE_MODE r;
     env_FLASK_ENV := env_FLASK_ENV r;
     env_FLASK_DEBUG := env_FLASK_DEBUG r;
     environ_REMOTE_ADDR := environ_REMOTE_ADDR r;
     platform_node := platform_node r;
     cookies_LASTUSER := cookie |}.

(** the fixed answer of the decorator to a request it turns away *)
Definition access_denied {A} : response A :=
  Denied "Access denied" "You do not have permission to access this resource" 403.

(** a developer's machine, as [platform.node()] names it *)
Definition desktop_request (cookie : option string) : request_ctx :=
  {| env_DATA_SOURCE_MODE := None; env_FLASK_ENV := Some "production";
     env_FLASK_DEBUG := None; environ_REMOTE_ADDR := Some "10.0.0.7";
     platform_node := "Desktop-7QK2"; cookies_LASTUSER := cookie |}.

End AuthCoverageVocabulary.

Section ConverterCoverageVocabulary.
Import Py Datetime Values Regex DatetimeConverter.

(** the relative phrases with the offset each one stands for; [None] is
    the present instant *)
Definition phrase_offsets : list (string * option (unit_ * Z)) :=
  [ ("today", None); ("now", None);
    ("yesterday", Some (Days, -1)%Z); ("tomorrow", Some (Days, 1%Z));
    ("last week", Some (Weeks, -1)%Z); ("next week", Some (Weeks, 1%Z));
    ("last month", Some (Months, -1)%Z); ("next month", Some (Months, 1%Z));
    ("last year", Some (Years, -1)%Z); ("next year", Some (Years, 1%Z)) ].



End ConverterCoverageVocabulary.

Section OffsetVocabulary.
Import Regex DatetimeConverter.

Fixpoint all_digits (s : string) : bool :=
  match s with
  | EmptyString => true
  | String c s' => Text.is_digit c && all_digits s'
  end.

(** a numeral: one decimal digit or more *)
Definition numeral (s : string) : bool := Text.truthy s && all_digits s.

(** the text does not begin with a digit *)
Definition no_digit_head (s : string) : bool :=
  match s with
  | String c _ => negb (Text.is_digit c)
  | EmptyString => true
  end.

Definition plural_s (plural : bool) : string := if plural then "s" else "".

(** what follows the numeral in [3 days ago] and in [in 3 days] *)
Definition ago_tail (u : unit_) (plural : bool) : string :=
  " " ++ unit_word u ++ plural_s plural ++ " ago".

Definition in_tail (u : unit_) (plural : bool) : string :=
  " " ++ unit_word u ++ plural_s plural.

(** [<n> <unit> ago] and [in <n> <unit>], the unit singular or plural *)
Definition ago_text (n : string) (u : unit_) (plural : bool) : string :=
  n ++ ago_tail u plural.

Definition in_text (n : string) (u : unit_) (plural : bool) : string :=
  "in " ++ n ++ in_tail u plural.

(** what the [ago] patterns ask for after the numeral, and the [in]
    patterns after theirs *)
Definition after_ago (w : string) : regex :=
  Seq spaces (Seq (word w) (Seq (Opt (Chr "s")) (Seq spaces (word "ago")))).

Definition after_in (w : string) : regex :=
  Seq spaces (Seq (word w) (Opt (Chr "s"))).

Definition found (rest : string) (g : groups) : option (groups * string) :=
  Some (g, rest).

End OffsetVocabulary.

Section LoggerCoverageVocabulary.
Import Py LoggerManager.

(** the registry with the handlers [hs] under the identifiers [c], [c+1], ... *)
Fixpoint register (c : nat) (hs : list (gmap string kwval))
         (reg : gmap nat (gmap string kwval)) : gmap nat (gmap string kwval) :=
  match hs with
  | [] => reg
  | h :: hs' => register (S c) hs' (<[c := h]> reg)
  end.

(** the registry without the handlers under the identifiers [ids] *)
Fixpoint unregister (ids : list nat) (reg : gmap nat (gmap string kwval))
  : gmap nat (gmap string kwval) :=
  match ids with
  | [] => reg
  | i :: ids' => unregister ids' (delete i reg)
  end.

(** the state [_setup_logger] leaves, in closed form *)
Definition after_setup (st : state) : state :=
  let m := self st in
  let c := handlers_count (logger st) in
  let hs := map (fill_filter (filter_func m)) (extra_handlers m) in
  let n := length (extra_handlers m) in
  State
    (Loguru (register (S (S c)) hs
               (<[S c := file_kwargs m]> (<[c := console_kwargs m]> ∅)))
            (S (S c) + n))
    (if enable_print_redirect m && negb (_print_redirected m)
     then custom_print else builtins_print st)
    (Manager (log_name m) (log_file_path m) (level m) (retention m) (rotation m)
       (json_format m) (mode m) (console_level m) (enable_print_redirect m)
       (enable_exception_logging m) (custom_format m) (colorize m) (backtrace m)
       (diagnose m) (catch_exceptions m) hs (filter_func m)
       (_original_print m)
       (_print_redirected m || enable_print_redirect m)
       (_handler_ids m ++ List.seq c (2 + n))
       (exception_handler m || (enable_exception_logging m && catch_exceptions m))).

(** the state [cleanup] leaves, in closed form *)
Definition after_cleanup (st : state) : state :=
  let m := self st in
  State
    (Loguru (unregister (_handler_ids m) (handlers (logger st)))
            (handlers_count (logger st)))
    (if _print_redirected m then _original_print m else builtins_print st)
    (Manager (log_name m) (log_file_path m) (level m) (retention m) (rotation m)
       (json_format m) (mode m) (console_level m) (enable_print_redirect m)
       (enable_exception_logging m) (custom_format m) (colorize m) (backtrace m)
       (diagnose m) (catch_exceptions m) (extra_handlers m) (filter_func m)
       (_original_print m) false [] (exception_handler m)).

(** the backend takes a handler: the call has a sink and is not refused *)
Definition accepts (refusal : gmap string kwval -> option (exn * bool))
           (kwargs : gmap string kwval) : Prop :=
  is_Some (kwargs !! "sink") /\ refusal kwargs = None.

(** nothing stands in the way of [_setup_logger]: the backend takes the
    console handler, the directory of the log file can be made, and the
    backend takes the file handler and every extra handler *)
Definition setup_accepted (refusal : gmap string kwval -> option (exn * bool))
           (mkdir_error : string -> option exn) (st : state) : Prop :=
  let m := self st in
  accepts refusal (console_kwargs m)
  /\ mkdir_error (log_file_path m) = None
  /\ accepts refusal (file_kwargs m)
  /\ Forall (fun h => accepts refusal (fill_filter (filter_func m) h))
            (extra_handlers m).

(** the state a manager starts from, before [_setup_logger] runs *)
Definition before_setup (a : init_args) (l : loguru) (p : printer) : state :=
  State l p
    {| log_name := a_log_name a; log_file_path := a_log_file_path a;
       level := Text.upper (a_level a); retention := a_retention a;
       rotation := a_rotation a; json_format := a_json_format a;
       mode := Text.lower (a_mode a);
       console_level :=
         match a_console_level a with
         | Some (String c s) => Text.upper (String c s)
         | _ => if String.eqb (Text.lower (a_mode a)) "dev" then "INFO"
                else Text.upper (a_level a)
         end;
       enable_print_redirect := a_enable_print_redirect a;
       enable_exception_logging := a_enable_exception_logging a;
       custom_format := a_custom_format a;
       colorize := default false (a_colorize a);
       backtrace := default (String.eqb (Text.lower (a_mode a)) "dev") (a_backtrace a);
       diagnose := default (String.eqb (Text.lower (a_mode a)) "dev") (a_diagnose a);
       catch_exceptions := a_catch_exceptions a;
       extra_handlers := default [] (a_extra_handlers a);
       filter_func := a_filter_func a;
       _original_print := p;
       _print_redirected := false;
       _handler_ids := [];
       exception_handler := false |}.

(** loguru issues its identifiers in order: none at or above the counter
    is in use *)
Definition backend_ok (l : loguru) : Prop :=
  forall i, handlers_count l <= i -> handlers l !! i = None.

(** the states of the interpreter a manager goes through, from its
    construction on, whether the calls return or raise *)
Inductive reachable (refusal : gmap string kwval -> option (exn * bool))
          (mkdir_error : string -> option exn) : state -> Prop :=
| reach_init a l p :
    backend_ok l -> reachable refusal mkdir_error (snd (__init__ refusal mkdir_error a l p))
| reach_add_handler kw st :
    reachable refusal mkdir_error st ->
    reachable refusal mkdir_error (snd (add_handler refusal kw st))
| reach_remove_handler h st :
    reachable refusal mkdir_error st ->
    reachable refusal mkdir_error (snd (remove_handler h st))
| reach_cleanup st :
    reachable refusal mkdir_error st -> reachable refusal mkdir_error (snd (cleanup st))
| reach_set_filter f st :
    reachable refusal mkdir_error st ->
    reachable refusal mkdir_error (snd (set_filter refusal mkdir_error f st))
| reach_restore_print st :
    reachable refusal mkdir_error st ->
    reachable refusal mkdir_error (snd (restore_print st)).

(** what reachable states have in common *)
Definition well_formed (st : state) : Prop :=
  backend_ok (logger st)
  /\ forall i, i ∈ _handler_ids (self st) -> i < handlers_count (logger st).

(** arguments the sample backend refuses: a level loguru does not know,
    and a log file in a directory that cannot be made *)
Definition verbose_args : init_args := {|
  a_log_name := "app"; a_log_file_path := "logs/app.log"; a_level := "verbose";
  a_retention := "7 days"; a_rotation := "500 MB"; a_json_format := false;
  a_mode := "dev"; a_console_level := None; a_enable_print_redirect := false;
  a_enable_exception_logging := true; a_custom_format := None;
  a_colorize := None; a_backtrace := None; a_diagnose := None;
  a_catch_exceptions := true; a_extra_handlers := None; a_filter_func := None
|}.

Definition proc_args : init_args := {|
  a_log_name := "app"; a_log_file_path := "/proc/nope/app.log"; a_level := "DEBUG";
  a_retention := "7 days"; a_rotation := "500 MB"; a_json_format := false;
  a_mode := "dev"; a_console_level := None; a_enable_print_redirect := false;
  a_enable_exception_logging := true; a_custom_format := None;
  a_colorize := None; a_backtrace := None; a_diagnose := None;
  a_catch_exceptions := true; a_extra_handlers := None; a_filter_func := None
|}.

(** a manager built under the filter [g] with one extra sink *)
Definition filtered_args (g : callable) : init_args := {|
  a_log_name := "app"; a_log_file_path := "logs/app.log"; a_level := "DEBUG";
  a_retention := "7 days"; a_rotation := "500 MB"; a_json_format := false;
  a_mode := "dev"; a_console_level := None; a_enable_print_redirect := false;
  a_enable_exception_logging := true; a_custom_format := None;
  a_colorize := None; a_backtrace := None; a_diagnose := None;
  a_catch_exceptions := true; a_extra_handlers := Some [audit_sink];
  a_filter_func := Some g
|}.

End LoggerCoverageVocabulary.

Section LifecycleVocabulary.
Import Py LoggerManager.

(** the arguments [a] with another value for [colorize] *)
Definition with_colorize (b : option bool) (a : init_args) : init_args := {|
  a_log_name := a_log_name a; a_log_file_path := a_log_file_path a;
  a_level := a_level a; a_retention := a_retention a; a_rotation := a_rotation a;
  a_json_format := a_json_format a; a_mode := a_mode a;
  a_console_level := a_console_level a;
  a_enable_print_redirect := a_enable_print_redirect a;
  a_enable_exception_logging := a_enable_exception_logging a;
  a_custom_format := a_custom_format a; a_colorize := b;
  a_backtrace := a_backtrace a; a_diagnose := a_diagnose a;
  a_catch_exceptions := a_catch_exceptions a;
  a_extra_handlers := a_extra_handlers a; a_filter_func := a_filter_func a
|}.

(** a backend whose queue flushes without trouble, and one that is
    interrupted from the keyboard *)
Definition complete_fine (st : state) : outcome unit := Return tt.

Definition complete_interrupted (st : state) : outcome unit :=
  Raise (Exn KeyboardInterrupt "").

End LifecycleVocabulary.

Section PerformanceVocabulary.
Import Py Scheduler Performance.

(** the two records the decorator writes *)
Definition performance_ok (name args elapsed : string) : log_record :=
  LogRecord INFO
    ("Function '" ++ name ++ "'" ++ args ++ " executed successfully in "
     ++ elapsed ++ " seconds") [] None.

Definition performance_failed (name args elapsed : string) (e : exn) : log_record :=
  LogRecord ERROR
    ("Function '" ++ name ++ "'" ++ args ++ " failed after " ++ elapsed ++ " seconds")
    [] (Some e).

End PerformanceVocabulary.

Section AppLoggerVocabulary.
Import Py LoggerManager AppLogger.

(** the globals are in step: [_logger] is set exactly when
    [_log_manager] is *)
Definition in_step (s : process) : Prop :=
  _logger s = true <-> is_Some (_log_manager s).

(** a development host, and a production environment *)
Definition no_environment : environ := Environ None None.
Definition production : environ := Environ (Some "warning") (Some "production").
(** an environment whose [LOG_LEVEL] loguru does not know *)
Definition verbose_environment : environ := Environ (Some "verbose") None.
Definition this_host : host := Host "4242" "/srv/app".

End AppLoggerVocabulary.

Section SchedulerLifecycleVocabulary.
Import Py Scheduler SchedulerLifecycle.

(** the scheduler a successful start leaves: running, without jobs *)
Definition started_scheduler {W R} : background_scheduler W R := Backend [] true 0.

(** a job store that the backend empties when it shuts down *)
Definition emptied {W R} (js : list (job W R)) : list (job W R) := [].

(** a world whose scheduler runs one job *)
Definition busy_world : world unit Z :=
  World [] (SchedulerManager
              (Some (Backend [Job "job-0" "answer" (logged_job_wrapper "answer" answer)
                                  "interval" (in_ten_seconds "interval")] true 1)) true)
        [] 1.

End SchedulerLifecycleVocabulary.

(** * Properties *)

(** ** The access gate *)

Section AuthProps.
Import Text Auth.

Lemma opt_eqb_spec (o : option string) (lit : string) :
  opt_eqb o lit = true <-> o = Some lit.
Proof.
  destruct o as [s|]; simpl.
  - rewrite String.eqb_eq. split; congruence.
  - split; discriminate.
Qed.

Lemma str_in_spec (x : string) (l : list string) :
  str_in x l = true <-> In x l.
Proof.
  induction l as [|y l IH]; simpl.
  - split; [discriminate | tauto].
  - destruct (String.eqb_spec x y) as [->|Hne].
    + tauto.
    + rewrite IH. split; [tauto | intros [H|H]; congruence].
Qed.

Lemma str_in_loopback (a : string) :
  str_in a ["127.0.0.1"; "localhost"; "::1"] = true <->
  a = "127.0.0.1" \/ a = "localhost" \/ a = "::1".
Proof.
  rewrite str_in_spec. simpl.
  split; [intros [H|[H|[H|[]]]]; auto | intros [H|[H|H]]; auto].
Qed.

Lemma is_development_environment_spec (r : request_ctx) :
  is_development_environment r = true <->
  dummy_mode_from_loopback r \/ development_hostname r \/ debug_flag r.
Proof.
  unfold is_development_environment, dummy_mode_from_loopback, loopback,
    development_hostname, debug_flag.
  pose proof (opt_eqb_spec (env_DATA_SOURCE_MODE r) "dummy") as Hd.
  pose proof (str_in_loopback (default "" (environ_REMOTE_ADDR r))) as Hl.
  pose proof (opt_eqb_spec (env_FLASK_ENV r) "development") as He.
  pose proof (opt_eqb_spec (env_FLASK_DEBUG r) "1") as Hf.
  destruct (opt_eqb (env_DATA_SOURCE_MODE r) "dummy");
    destruct (str_in _ _);
    destruct (startswith _ _);
    destruct (opt_eqb (env_FLASK_ENV r) _);
    destruct (opt_eqb (env_FLASK_DEBUG r) _); simpl; intuition (try congruence).
Qed.

Lemma no_bypass_spec (r : request_ctx) :
  no_development_bypass r <-> is_development_environment r = false.
Proof.
  unfold no_development_bypass.
  pose proof (is_development_environment_spec r) as H.
  destruct (is_development_environment r); split; intros; intuition congruence.
Qed.

Lemma lower_char_x (c : ascii) :
  Ascii.eqb "x" (lower_char c) = true <-> c = "x"%char \/ c = "X"%char.
Proof.
  destruct c as [[] [] [] [] [] [] [] []]; vm_compute;
    split; intros H; try discriminate; try (destruct H; discriminate); auto.
Qed.

Lemma is_restricted_user_spec (u : string) :
  is_restricted_user (Some u) = true <-> first_char_is_x u.
Proof.
  unfold first_char_is_x. destruct u as [|c rest].
  - split; [discriminate | intros (c & rest & H & _); discriminate].
  - change (is_restricted_user (Some (String c rest)))
      with (if Ascii.eqb "x" (lower_char c) then true else false).
    pose proof (lower_char_x c) as Hc.
    destruct (Ascii.eqb "x" (lower_char c)).
    + split; [intros _; exists c, rest; tauto | reflexivity].
    + split; [discriminate |].
      intros (c' & rest' & Heq & Hx). injection Heq as -> ->.
      apply Hc in Hx. discriminate.
Qed.

Lemma check_user_access_no_bypass (r : request_ctx) :
  no_development_bypass r ->
  check_user_access r =
  match cookies_LASTUSER r with
  | None | Some EmptyString =>
    ((false, None), [Log WARNING "No LASTUSER cookie found in request"])
  | Some u =>
    ((negb (is_restricted_user (Some u)), Some u),
     Restriction_rule u ::
     (if is_restricted_user (Some u)
      then [Log INFO ("Access denied for restricted user: " ++ u)] else []))
  end.
Proof.
  intros Hnb. apply no_bypass_spec in Hnb.
  unfold check_user_access, get_user_from_cookie. rewrite Hnb.
  destruct (cookies_LASTUSER r) as [[|c u]|]; try reflexivity.
  change (truthy (String c u)) with true. cbv beta iota delta [negb].
  destruct (is_restricted_user (Some (String c u))); reflexivity.
Qed.

(** C2, as amended.  When no development bypass applies: an absent or
    empty [LASTUSER] cookie is denied with a null identity; a cookie
    whose first character is [x] or [X] is denied with the cookie as
    identity; any other non-empty cookie is allowed with the cookie as
    identity.  When the dummy-data-source mode is set and the request
    address is one of 127.0.0.1, localhost and ::1, access is granted to
    the identity [dev_user] whatever the cookie. *)
Theorem check_user_access_decision (r : request_ctx) :
  (no_development_bypass r ->
     (cookies_LASTUSER r = None \/ cookies_LASTUSER r = Some "" ->
      decision r = (false, None))
     /\ (forall u, cookies_LASTUSER r = Some u -> first_char_is_x u ->
         decision r = (false, Some u))
     /\ (forall u, cookies_LASTUSER r = Some u -> u <> "" -> ~ first_char_is_x u ->
         decision r = (true, Some u)))
  /\ (dummy_mode_from_loopback r -> decision r = (true, Some "dev_user")).
Proof.
  split.
  - intros Hnb. unfold decision. rewrite (check_user_access_no_bypass r Hnb).
    split; [|split].
    + intros [-> | ->]; reflexivity.
    + intros u -> Hx.
      pose proof (proj2 (is_restricted_user_spec u) Hx) as Hr.
      destruct Hx as (c & rest & -> & _). rewrite Hr. reflexivity.
    + intros u -> Hne Hx.
      destruct u as [|c rest]; [congruence|].
      destruct (is_restricted_user (Some (String c rest))) eqn:Hr.
      * apply is_restricted_user_spec in Hr. contradiction.
      * reflexivity.
  - intros Hd. unfold decision, check_user_access.
    rewrite (proj2 (is_development_environment_spec r) (or_introl Hd)).
    reflexivity.
Qed.

(** C10.  With no development bypass, a [LASTUSER] cookie that is present
    but empty is treated exactly like an absent one: the gate answers
    (denied, null identity), leaves the same trace as for the request
    without the cookie, and never consults the first-character rule. *)
Theorem empty_cookie_like_absent (r : request_ctx) :
  no_development_bypass r ->
  cookies_LASTUSER r = Some "" ->
  check_user_access r
  = ((false, None), [Log WARNING "No LASTUSER cookie found in request"])
  /\ check_user_access r = check_user_access (without_cookie r)
  /\ (forall u, ~ In (Restriction_rule u) (snd (check_user_access r))).
Proof.
  intros Hnb Hc.
  assert (Hnb' : no_development_bypass (without_cookie r)).
  { apply no_bypass_spec. apply no_bypass_spec in Hnb. exact Hnb. }
  rewrite (check_user_access_no_bypass r Hnb), Hc.
  rewrite (check_user_access_no_bypass _ Hnb'). simpl.
  split; [reflexivity | split; [reflexivity |]].
  intros u [H | []]. discriminate.
Qed.

Lemma request_with_no_bypass (cookie : option string) :
  no_development_bypass (request_with cookie).
Proof. apply no_bypass_spec. reflexivity. Qed.

Lemma check_user_access_decision_witness :
  decision (request_with None) = (false, None)
  /\ decision (request_with (Some "xavier")) = (false, Some "xavier")
  /\ decision (request_with (Some "maria")) = (true, Some "maria")
  /\ decision (dummy_request (Some "xavier")) = (true, Some "dev_user").
Proof.
  split; [|split; [|split]].
  - apply (proj1 (check_user_access_decision (request_with None))
             (request_with_no_bypass None)).
    left. reflexivity.
  - apply (proj1 (check_user_access_decision (request_with (Some "xavier")))
             (request_with_no_bypass _)).
    + reflexivity.
    + exists "x"%char, "avier". split; [reflexivity | left; reflexivity].
  - apply (proj1 (check_user_access_decision (request_with (Some "maria")))
             (request_with_no_bypass _)).
    + reflexivity.
    + discriminate.
    + intros (c & rest & Heq & [Hx | Hx]); injection Heq as <- _; discriminate.
  - apply (proj2 (check_user_access_decision (dummy_request (Some "xavier")))).
    split; [reflexivity | left; reflexivity].
Defined.

Lemma empty_cookie_like_absent_witness :
  check_user_access (request_with (Some ""))
  = ((false, None), [Log WARNING "No LASTUSER cookie found in request"])
  /\ check_user_access (request_with (Some "")) = check_user_access (request_with None).
Proof.
  destruct (empty_cookie_like_absent (request_with (Some ""))
              (request_with_no_bypass _) eq_refl) as (H1 & H2 & _).
  split; [exact H1 | exact H2].
Defined.

(** C2 read to the letter fails on the empty cookie: it is present, its
    first character is not [x], and yet the request is denied with a
    null identity. *)
Lemma empty_cookie_refutes_letter :
  ~ cookie_rule_to_the_letter (request_with (Some "")).
Proof.
  unfold cookie_rule_to_the_letter. intros H.
  destruct (H (request_with_no_bypass _)) as [_ Hallow].
  assert (Hx : ~ first_char_is_x "").
  { intros (c & rest & Heq & _). discriminate. }
  specialize (Hallow Hx). vm_compute in Hallow. discriminate.
Qed.

End AuthProps.

(** ** What a regular-expression match consumes and captures *)

Section RegexProps.
Import Regex.

Lemma star_spec {R} (p : ascii -> bool) (k : string -> option R) (s : string) (x : R) :
  star p k s = Some x ->
  exists s', k s' = Some x /\ String.length s' <= String.length s.
Proof.
  induction s as [|a s IH]; simpl.
  - intros H. exists EmptyString. auto.
  - destruct (p a).
    + destruct (star p k s) as [y|] eqn:Hs.
      * intros [= ->]. destruct (IH eq_refl) as (s' & Hk & Hl).
        exists s'. split; [exact Hk | lia].
      * intros H. exists (String a s). auto.
    + intros H. exists (String a s). auto.
Qed.

Lemma run_spec {R} (r : regex) :
  forall (s : string) (g : groups) (k : string -> groups -> option R) (x : R),
    run r s g k = Some x ->
    exists s' g',
      k s' g' = Some x
      /\ min_len r + String.length s' <= String.length s
      /\ (forall n, ~ In n (names r) -> group n g' = group n g).
Proof.
  induction r as [| c | p | r1 IH1 r2 IH2 | r1 IH1 r2 IH2 | p | r1 IH1 | name r1 IH1];
    intros s g k x; simpl.
  - intros H. exists s, g. auto.
  - destruct s as [|a s]; [discriminate|].
    destruct (Ascii.eqb a c); [|discriminate].
    intros H. exists s, g. simpl. auto.
  - destruct s as [|a s]; [discriminate|].
    destruct (p a); [|discriminate].
    intros H. exists s, g. simpl. auto.
  - intros H. apply IH1 in H. destruct H as (s1 & g1 & H & Hl1 & Hg1).
    apply IH2 in H. destruct H as (s2 & g2 & H & Hl2 & Hg2).
    exists s2, g2. split; [exact H|]. split; [lia|].
    intros n Hn. rewrite in_app_iff in Hn.
    rewrite Hg2, Hg1; tauto.
  - destruct (run r1 s g k) as [y|] eqn:H1.
    + intros [= ->]. apply IH1 in H1. destruct H1 as (s1 & g1 & H & Hl1 & Hg1).
      exists s1, g1. split; [exact H|]. split; [lia|].
      intros n Hn. rewrite in_app_iff in Hn. apply Hg1. tauto.
    + intros H. apply IH2 in H. destruct H as (s2 & g2 & H & Hl2 & Hg2).
      exists s2, g2. split; [exact H|]. split; [lia|].
      intros n Hn. rewrite in_app_iff in Hn. apply Hg2. tauto.
  - intros H. apply star_spec in H. destruct H as (s' & H & Hl).
    exists s', g. auto.
  - destruct (run r1 s g k) as [y|] eqn:H1.
    + intros [= ->]. apply IH1 in H1. destruct H1 as (s1 & g1 & H & Hl1 & Hg1).
      exists s1, g1. split; [exact H|]. split; [lia|]. exact Hg1.
    + intros H. exists s, g. auto.
  - intros H. apply IH1 in H. destruct H as (s1 & g1 & H & Hl1 & Hg1).
    eexists s1, _. split; [exact H|]. split; [exact Hl1|].
    intros n Hn. simpl.
    destruct (String.eqb_spec name n) as [->|Hne]; [tauto|].
    apply Hg1. tauto.
Qed.

Lemma rmatch_spec (r : regex) (s rest : string) (g : groups) :
  rmatch r s = Some (g, rest) ->
  min_len r + String.length rest <= String.length s
  /\ (forall n, ~ In n (names r) -> group n g = None).
Proof.
  unfold rmatch. intros H. apply run_spec in H.
  destruct H as (s' & g' & [= -> ->] & Hl & Hg). auto.
Qed.

End RegexProps.

(** ** The time-range builder *)

Section TimeRangeProps.
Import Py Datetime Values Regex Strptime TimeRangeBound.

Lemma strptime_length (s : string) (f : format) (dt : datetime) :
  strptime s f = Some dt -> min_len (format_regex f) <= String.length s.
Proof.
  unfold strptime. destruct (rmatch (format_regex f) s) as [[g rest]|] eqn:Hm;
    [|discriminate].
  intros _. apply rmatch_spec in Hm. lia.
Qed.

Lemma strptime_date_midnight (s : string) (dt : datetime) :
  strptime s fmt_date = Some dt -> time_of dt = time_min /\ utcoffset dt = None.
Proof.
  unfold strptime. destruct (rmatch (format_regex fmt_date) s) as [[g rest]|] eqn:Hm;
    [|discriminate].
  apply rmatch_spec in Hm. destruct Hm as [_ Hg].
  destruct rest; [|discriminate].
  unfold field.
  rewrite (Hg "H"), (Hg "M"), (Hg "S").
  - destruct (valid_date _ _ _ && valid_time 0 0 0 0); [|discriminate].
    intros [= <-]. split; reflexivity.
  - simpl. intuition discriminate.
  - simpl. intuition discriminate.
  - simpl. intuition discriminate.
Qed.

Lemma time_component_length (s : string) :
  has_time_component s -> 12 <= String.length s.
Proof.
  intros [[dt H] | [dt H]]; apply strptime_length in H.
  - change (min_len (format_regex fmt_seconds)) with 14 in H. lia.
  - change (min_len (format_regex fmt_minutes)) with 12 in H. lia.
Qed.

Lemma parse_str_cases (s : string) (dt : datetime) :
  parse_time_input (PStr s) = Return dt ->
  has_time_component s
  \/ (~ has_time_component s /\ strptime s fmt_date = Some dt).
Proof.
  unfold parse_time_input, formats, try_formats, has_time_component.
  destruct (strptime s fmt_seconds) as [d1|]; [left; left; eauto|].
  destruct (strptime s fmt_minutes) as [d2|]; [left; right; eauto|].
  destruct (strptime s fmt_date) as [d3|]; [|discriminate].
  intros [= ->]. right. split; [|reflexivity].
  intros [[x Hx] | [x Hx]]; discriminate.
Qed.

Lemma parses_truthy (v : pyval) : parses v -> truthy v = true.
Proof.
  intros [dt H]. destruct v as [|s| | |]; try discriminate; try reflexivity.
  destruct s; [|reflexivity]. vm_compute in H. discriminate.
Qed.

Lemma parse_if_truthy_usable (v : pyval) :
  usable v ->
  exists o, parse_if_truthy v = Return o
            /\ (o = None <-> truthy v = false)
            /\ (forall dt, o = Some dt -> parse_time_input v = Return dt).
Proof.
  unfold parse_if_truthy. intros [Hf | Hp].
  - rewrite Hf. exists None. split; [reflexivity|]. split; [tauto | discriminate].
  - rewrite (parses_truthy v Hp). destruct Hp as [dt Hdt]. rewrite Hdt. simpl.
    exists (Some dt). split; [reflexivity|]. split; [split; discriminate|].
    intros dt' [= ->]. reflexivity.
Qed.

Lemma date_of_combine (d : date) (t : time) : date_of (combine d t) = d.
Proof. destruct d. reflexivity. Qed.

Lemma get_time_range_bounds_eq (start end_ : pyval) (inclusive : string)
      (o e : option datetime) :
  parse_if_truthy start = Return o ->
  parse_if_truthy end_ = Return e ->
  get_time_range_bounds start end_ inclusive
  = Return (o,
      match e with
      | Some e' =>
        if (is_str end_ || is_date end_) && negb (is_datetime end_) then
          if (String.length (py_str end_) =? 10)%nat || is_date end_
          then Some (combine (date_of e') time_max)
          else Some e'
        else Some e'
      | None => None
      end).
Proof.
  intros Ho He. unfold get_time_range_bounds. rewrite Ho, He. reflexivity.
Qed.

(** C4.  Whenever the builder returns (the start bound is left out or
    parses): an end bound given as a calendar date [d] comes back as the
    last instant of [d], 23:59:59.999999; an end bound given as a
    10-character date string comes back as the last instant of the day
    it names; an end bound given as a datetime comes back as it is; and
    an end bound given as a string with a time of day comes back as
    parsed. *)
Theorem end_bound_widening (start : pyval) (inclusive : string) :
  usable start ->
  (forall d, exists start_dt,
      get_time_range_bounds start (PDate d) inclusive
      = Return (start_dt, Some (combine d time_max)))
  /\ (forall s dt,
      String.length s = 10 -> parse_time_input (PStr s) = Return dt ->
      time_of dt = time_min
      /\ exists start_dt,
          get_time_range_bounds start (PStr s) inclusive
          = Return (start_dt, Some (combine (date_of dt) time_max)))
  /\ (forall dt, exists start_dt,
      get_time_range_bounds start (PDatetime dt) inclusive
      = Return (start_dt, Some dt))
  /\ (forall s dt,
      has_time_component s -> parse_time_input (PStr s) = Return dt ->
      exists start_dt,
        get_time_range_bounds start (PStr s) inclusive
        = Return (start_dt, Some dt)).
Proof.
  intros Hs. destruct (parse_if_truthy_usable start Hs) as (o & Ho & _).
  split; [|split; [|split]].
  - intros d. exists o.
    rewrite (get_time_range_bounds_eq start (PDate d) inclusive o _ Ho eq_refl).
    cbn. rewrite ?orb_true_r, date_of_combine. reflexivity.
  - intros s dt Hlen Hp.
    assert (Ht : truthy (PStr s) = true) by (apply parses_truthy; eexists; exact Hp).
    split.
    + destruct (parse_str_cases s dt Hp) as [Htc | [_ Hd]].
      * apply time_component_length in Htc. lia.
      * apply strptime_date_midnight in Hd. tauto.
    + exists o.
      rewrite (get_time_range_bounds_eq start (PStr s) inclusive o (Some dt) Ho).
      * cbn [is_str is_date is_datetime py_str orb andb negb]. rewrite Hlen. reflexivity.
      * unfold parse_if_truthy. rewrite Ht, Hp. reflexivity.
  - intros dt. exists o.
    rewrite (get_time_range_bounds_eq start (PDatetime dt) inclusive o _ Ho eq_refl).
    reflexivity.
  - intros s dt Htc Hp.
    assert (Ht : truthy (PStr s) = true) by (apply parses_truthy; eexists; exact Hp).
    apply time_component_length in Htc.
    exists o.
    rewrite (get_time_range_bounds_eq start (PStr s) inclusive o (Some dt) Ho).
    + cbn [is_str is_date is_datetime py_str orb andb negb].
      destruct (Nat.eqb_spec (String.length s) 10) as [Heq|_]; [lia|]. reflexivity.
    + unfold parse_if_truthy. rewrite Ht, Hp. reflexivity.
Qed.

Lemma end_bound_widening_witness :
  get_time_range_bounds (PStr "2024-01-01") (PDate (Date 2024 1 31)) "both"
  = Return (Some (Dt 2024 1 1 0 0 0 0 None), Some (Dt 2024 1 31 23 59 59 999999 None))
  /\ get_time_range_bounds (PStr "2024-01-01") (PStr "2024-01-31") "both"
     = Return (Some (Dt 2024 1 1 0 0 0 0 None), Some (Dt 2024 1 31 23 59 59 999999 None))
  /\ get_time_range_bounds (PStr "2024-01-01") (PStr "2024-01-31 23:59:59") "both"
     = Return (Some (Dt 2024 1 1 0 0 0 0 None), Some (Dt 2024 1 31 23 59 59 0 None)).
Proof.
  assert (Hs : usable (PStr "2024-01-01")).
  { right. exists (Dt 2024 1 1 0 0 0 0 None). vm_compute. reflexivity. }
  destruct (end_bound_widening (PStr "2024-01-01") "both" Hs) as (Hd & H10 & _ & Ht).
  split; [|split].
  - destruct (Hd (Date 2024 1 31)) as [sd H]. rewrite H. vm_compute in H.
    injection H as <-. reflexivity.
  - destruct (H10 "2024-01-31" (Dt 2024 1 31 0 0 0 0 None)) as [_ [sd H]].
    + reflexivity.
    + vm_compute. reflexivity.
    + rewrite H. vm_compute in H. injection H as <-. reflexivity.
  - destruct (Ht "2024-01-31 23:59:59" (Dt 2024 1 31 23 59 59 0 None)) as [sd H].
    + left. eexists. vm_compute. reflexivity.
    + vm_compute. reflexivity.
    + rewrite H. vm_compute in H. injection H as <-. reflexivity.
Defined.


Lemma build_time_range_query_eq (field : string) (start end_ : pyval)
      (inclusive : string) (sd ed : option datetime) :
  get_time_range_bounds start end_ inclusive = Return (sd, ed) ->
  build_time_range_query field start end_ inclusive
  = let p0 : gmap string string :=
      match sd with
      | Some a =>
        if Text.str_in inclusive ["both"; "start"]
        then <["gte" := isoformat a]> ∅ else <["gt" := isoformat a]> ∅
      | None => ∅
      end in
    let p1 : gmap string string :=
      match ed with
      | Some b =>
        if Text.str_in inclusive ["both"; "end"]
        then <["lte" := isoformat b]> p0 else <["lt" := isoformat b]> p0
      | None => p0
      end in
    if bool_decide (p1 = ∅) then Raise missing_bounds
    else Return (MkQ "range" {[ field := p1 ]}).
Proof.
  intros H. unfold build_time_range_query. rewrite H. reflexivity.
Qed.



(** the example of the specification: default inclusivity, two bare dates *)
Example range_both_example :
  exists params : gmap string string,
    build_time_range_query "timestamp" (PStr "2024-01-01") (PStr "2024-01-31") "both"
    = Return (MkQ "range" {[ "timestamp" := params ]})
    /\ map_to_list params
       = [("gte", "2024-01-01T00:00:00"); ("lte", "2024-01-31T23:59:59.999999")].
Proof. eexists. split; vm_compute; reflexivity. Qed.



Lemma build_raises_missing (field : string) (start end_ : pyval) (inclusive : string) :
  get_time_range_bounds start end_ inclusive = Return (None, None) ->
  build_time_range_query field start end_ inclusive = Raise missing_bounds.
Proof.
  intros Hb. rewrite (build_time_range_query_eq _ _ _ _ _ _ Hb). reflexivity.
Qed.




(** C9.  Two empty strings are two bounds left out: the bounds come back
    as (None, None) without any parse error, so the builder raises the
    missing-bounds validation error, not the unparseable-string error
    that parsing the empty string would give. *)
Theorem empty_strings_are_absent (field inclusive : string) :
  get_time_range_bounds (PStr "") (PStr "") inclusive = Return (None, None)
  /\ build_time_range_query field (PStr "") (PStr "") inclusive = Raise missing_bounds
  /\ parse_time_input (PStr "") = Raise (Exn ValueError "Unable to parse time string: ")
  /\ missing_bounds <> Exn ValueError "Unable to parse time string: ".
Proof.
  assert (Hb : get_time_range_bounds (PStr "") (PStr "") inclusive = Return (None, None))
    by reflexivity.
  split; [exact Hb|]. split; [apply build_raises_missing; exact Hb|].
  split; [vm_compute; reflexivity | discriminate].
Qed.

End TimeRangeProps.

(** ** The date normaliser *)

Section ConverterProps.
Import Py Datetime Values Regex DatetimeConverter.

Variable now : datetime.
Variable plus : datetime -> unit_ -> Z -> outcome datetime.
Variable parse : string -> bool -> outcome datetime.

Lemma returns_of_not_raises {A} (c : outcome A) :
  raises c = false -> exists a, c = Return a.
Proof. destruct c as [a|e]; [eauto | discriminate]. Qed.

Lemma relative_dates_keys :
  clock_in_range now plus ->
  exists table : gmap string datetime,
    relative_dates now plus = Return table
    /\ forall s, ~ In s relative_phrases -> table !! s = None.
Proof.
  intros Hc. unfold relative_dates, minus. change (- (1))%Z with (-1)%Z.
  destruct (returns_of_not_raises _ (proj1 (Hc Days))) as [d1 ->].
  destruct (returns_of_not_raises _ (proj2 (Hc Days))) as [d2 ->].
  destruct (returns_of_not_raises _ (proj1 (Hc Weeks))) as [w1 ->].
  destruct (returns_of_not_raises _ (proj2 (Hc Weeks))) as [w2 ->].
  destruct (returns_of_not_raises _ (proj1 (Hc Months))) as [m1 ->].
  destruct (returns_of_not_raises _ (proj2 (Hc Months))) as [m2 ->].
  destruct (returns_of_not_raises _ (proj1 (Hc Years))) as [y1 ->].
  destruct (returns_of_not_raises _ (proj2 (Hc Years))) as [y2 ->].
  cbn [Py.bind]. eexists. split; [reflexivity|].
  intros s Hs. apply not_elem_of_list_to_map.
  rewrite list_elem_of_In. exact Hs.
Qed.

Lemma first_pattern_none (ps : list (regex * (bool * unit_))) (s : string) :
  (forall p d, In (p, d) ps -> search p s = None) ->
  first_pattern now plus ps s = Return None.
Proof.
  induction ps as [|[p [fw u]] ps IH]; intros H; simpl; [reflexivity|].
  rewrite (H p (fw, u)) by (left; reflexivity).
  apply IH. intros q d Hq. apply (H q d). right. exact Hq.
Qed.

Lemma parse_relative_date_none (s : string) :
  clock_in_range now plus ->
  ~ is_relative_phrase s -> ~ matches_offset_pattern s ->
  parse_relative_date now plus s = Return None.
Proof.
  intros Hc Hp Hm. unfold parse_relative_date.
  destruct (relative_dates_keys Hc) as (table & -> & Hk).
  cbn [Py.bind]. rewrite (Hk _ Hp).
  apply first_pattern_none. intros p d Hin.
  destruct (search p (Text.lower s)) as [g|] eqn:Hs; [|reflexivity].
  exfalso. apply Hm. exists p, d. split; [exact Hin | rewrite Hs; eauto].
Qed.

Lemma no_offset_pattern_spec (s : string) :
  no_offset_pattern s = true -> ~ matches_offset_pattern s.
Proof.
  unfold no_offset_pattern. rewrite forallb_forall.
  intros H (p & d & Hin & [g Hs]).
  specialize (H (p, d) Hin). simpl in H. rewrite Hs in H. discriminate.
Qed.

(** The part of the claim C7 the code keeps: [parse_date_string] returns
    [None], and so does not raise, when its argument is [None], the
    empty string or not a string; and, on a clock in range, when the
    stripped text is no relative phrase, contains none of the eight
    offset patterns, and both free-form attempts, month first and then
    day first, fail with a [ParserError] or another [ValueError]. *)
Lemma parse_date_string_absent (v : pyval) (return_iso include_microseconds : bool) :
  (v = PNone \/ v = PStr "" \/ is_str v = false ->
   parse_date_string now plus parse v return_iso include_microseconds = Return None)
  /\ (forall s,
       v = PStr s -> clock_in_range now plus ->
       ~ is_relative_phrase (Text.strip s) ->
       ~ matches_offset_pattern (Text.strip s) ->
       parse_fails parse (Text.strip s) false ->
       parse_fails parse (Text.strip s) true ->
       parse_date_string now plus parse v return_iso include_microseconds = Return None).
Proof.
  split.
  - intros [-> | [-> | H]]; try reflexivity.
    destruct v; try reflexivity. discriminate.
  - intros s -> Hc Hp Hm (e1 & H1 & He1) (e2 & H2 & He2).
    unfold parse_date_string. destruct (Text.truthy s); [|reflexivity].
    cbn [negb]. rewrite (parse_relative_date_none _ Hc Hp Hm).
    cbn [Py.bind]. unfold try_parse. rewrite H1, He1, H2, He2. reflexivity.
Qed.

(** C7 (the code departs from it).  The claim wants [None], and no
    exception, whenever both free-form attempts fail.  The code catches
    [ParserError] and [ValueError] only.  A first attempt that fails
    with any other error -- dateutil raises [OverflowError] on a numeral
    too long for a year -- ends the call with that error, the second
    attempt not made; and so does a second attempt that fails that way
    after a first one that failed with a [ValueError]. *)
Theorem parse_failure_escapes (s : string) (return_iso include_microseconds : bool)
        (e : exn) :
  clock_in_range now plus ->
  s <> "" ->
  ~ is_relative_phrase (Text.strip s) ->
  ~ matches_offset_pattern (Text.strip s) ->
  isinstance_ValueError e = false ->
  parse (Text.strip s) false = Raise e
  \/ (parse_fails parse (Text.strip s) false /\ parse (Text.strip s) true = Raise e) ->
  parse_date_string now plus parse (PStr s) return_iso include_microseconds = Raise e.
Proof.
  intros Hc Hs Hp Hm He Hfail. unfold parse_date_string.
  destruct s as [|c s]; [contradiction Hs; reflexivity|].
  cbn [Text.truthy negb]. rewrite (parse_relative_date_none _ Hc Hp Hm).
  cbn [Py.bind]. unfold try_parse.
  destruct Hfail as [H1 | [(e1 & H1 & He1) H2]].
  - rewrite H1, He. reflexivity.
  - rewrite H1, He1, H2, He. reflexivity.
Qed.

End ConverterProps.


Section ConverterExamples.
Import Py Datetime Values Regex DatetimeConverter SampleEnv.

Lemma noon_in_range : clock_in_range noon relativedelta_plus.
Proof. intros []; split; reflexivity. Qed.

Lemma parse_date_string_absent_witness :
  parse_date_string noon relativedelta_plus parse_iso_date PNone false true = Return None
  /\ parse_date_string noon relativedelta_plus parse_iso_date (PStr "") false true
     = Return None
  /\ parse_date_string noon relativedelta_plus parse_iso_date (PStr " ??? ") false true
     = Return None.
Proof.
  split; [|split].
  - apply (parse_date_string_absent noon relativedelta_plus parse_iso_date PNone).
    left. reflexivity.
  - apply (parse_date_string_absent noon relativedelta_plus parse_iso_date (PStr "")).
    right. left. reflexivity.
  - apply (proj2 (parse_date_string_absent noon relativedelta_plus parse_iso_date
                    (PStr " ??? ") false true) " ??? " eq_refl noon_in_range).
    + unfold is_relative_phrase. vm_compute. intuition discriminate.
    + apply no_offset_pattern_spec. vm_compute. reflexivity.
    + eexists. split; [vm_compute; reflexivity | reflexivity].
    + eexists. split; [vm_compute; reflexivity | reflexivity].
Defined.

Lemma parse_failure_escapes_witness :
  parse_date_string noon relativedelta_plus parse_iso_date
    (PStr "99999999999999999999") false true
  = Raise (Exn OverflowError "Python int too large to convert to C long").
Proof.
  apply (parse_failure_escapes noon relativedelta_plus parse_iso_date
           "99999999999999999999" false true
           (Exn OverflowError "Python int too large to convert to C long")
           noon_in_range).
  - discriminate.
  - unfold is_relative_phrase. vm_compute. intuition discriminate.
  - apply no_offset_pattern_spec. vm_compute. reflexivity.
  - reflexivity.
  - left. vm_compute. reflexivity.
Defined.

End ConverterExamples.

(** ** The logging facade *)

Section LoggerProps.
Import Py LoggerManager.

Variable refusal : gmap string kwval -> option (exn * bool).
Variable mkdir_error : string -> option exn.

(** C8.  Print redirection and its reversal are idempotent:
    [restore_print] on a manager that is not redirecting changes nothing
    (neither [builtins.print] nor the flag nor anything else), enabling
    redirection on a manager that is already redirecting changes
    nothing, and doing either twice is the same as doing it once. *)
Theorem print_redirection_idempotent (st : state) :
  (_print_redirected (self st) = false -> restore_print st = (Return tt, st))
  /\ (_print_redirected (self st) = true -> _redirect_print st = (Return tt, st))
  /\ restore_print (snd (restore_print st)) = restore_print st
  /\ _redirect_print (snd (_redirect_print st)) = _redirect_print st.
Proof.
  unfold restore_print, _redirect_print.
  split; [|split; [|split]].
  - intros ->. reflexivity.
  - intros ->. reflexivity.
  - destruct (_print_redirected (self st)) eqn:H; simpl; [reflexivity|].
    rewrite H. reflexivity.
  - destruct (_print_redirected (self st)) eqn:H; simpl; [|reflexivity].
    rewrite H. reflexivity.
Qed.

Lemma print_redirection_idempotent_witness :
  restore_print default_manager = (Return tt, default_manager)
  /\ builtins_print default_manager = builtin_print
  /\ _redirect_print redirecting_manager = (Return tt, redirecting_manager)
  /\ builtins_print redirecting_manager = custom_print.
Proof.
  split; [|split; [|split]].
  - exact (proj1 (print_redirection_idempotent default_manager) eq_refl).
  - reflexivity.
  - exact (proj1 (proj2 (print_redirection_idempotent redirecting_manager)) eq_refl).
  - reflexivity.
Defined.

(** *** Removing a handler that the backend no longer has *)

Lemma remove_handler_unknown (h : nat) (st : state) :
  handlers (logger st) !! h = None ->
  remove_handler h st = (Raise (no_such_handler h), st).
Proof.
  intros H. unfold remove_handler, seq, logger_remove. rewrite H. reflexivity.
Qed.

Lemma preserves_seq {A B} (P : state -> Prop) (c : M A) (k : A -> M B) :
  preserves P c -> (forall a, preserves P (k a)) -> preserves P (seq k c).
Proof.
  intros Hc Hk st HP. unfold seq. specialize (Hc st HP).
  destruct (c st) as [[a|e] st']; simpl in *; [apply Hk; exact Hc | exact Hc].
Qed.

Lemma preserves_ret {A} (P : state -> Prop) (a : A) : preserves P (ret a).
Proof. intros st HP. exact HP. Qed.

Lemma preserves_read {A} (P : state -> Prop) (c : state -> M A) :
  (forall s, preserves P (c s)) -> preserves P (fun st => c st st).
Proof. intros H st HP. apply H. exact HP. Qed.

Lemma above_logger_add (c : nat) (kw : gmap string kwval) :
  preserves (above c) (logger_add refusal kw).
Proof.
  intros st [Hc Hfree]. unfold logger_add, above.
  destruct (kw !! "sink"); [|split; assumption].
  destruct (refusal kw) as [[e []]|]; simpl; (split; [lia|]);
    intros i Hi; rewrite ?lookup_insert_ne by lia; apply Hfree; exact Hi.
Qed.

Lemma above_mkdir (c : nat) : preserves (above c) (mkdir_parent mkdir_error).
Proof.
  intros st H. unfold mkdir_parent.
  destruct (mkdir_error (log_file_path (self st))); exact H.
Qed.

Lemma above_append (c i : nat) : preserves (above c) (append_handler_id i).
Proof. intros st H. exact H. Qed.

Lemma above_redirect (c : nat) : preserves (above c) _redirect_print.
Proof.
  intros st H. unfold _redirect_print.
  destruct (_print_redirected (self st)); exact H.
Qed.

Lemma above_exception_logging (c : nat) : preserves (above c) _setup_exception_logging.
Proof.
  intros st H. unfold _setup_exception_logging.
  destruct (catch_exceptions (self st)); exact H.
Qed.

Lemma above_extras (c : nat) (todo : list (gmap string kwval)) :
  forall done, preserves (above c) (add_extra_handlers refusal todo done).
Proof.
  induction todo as [|h todo IH]; intros done; simpl.
  - apply preserves_ret.
  - apply (preserves_read (above c)
             (fun s => _ ;;; do handler_id := logger_add refusal _ in _ ;;; _)).
    intros s. apply preserves_seq; [intros st H; exact H|]. intros _.
    apply preserves_seq; [apply above_logger_add|]. intros i.
    apply preserves_seq; [apply above_append|]. intros _. apply IH.
Qed.

Lemma above_add_and_append (c : nat) (kw : manager -> gmap string kwval) :
  preserves (above c)
    (fun st => (do handler_id := logger_add refusal (kw (self st)) in
                append_handler_id handler_id) st).
Proof.
  apply (preserves_read (above c)
           (fun s => do handler_id := logger_add refusal (kw (self s)) in
                     append_handler_id handler_id)).
  intros s. apply preserves_seq; [apply above_logger_add|].
  intros i. apply above_append.
Qed.

Lemma setup_logger_above (c : nat) (st : state) :
  handlers_count (logger st) = c ->
  above c (snd (_setup_logger refusal mkdir_error st)).
Proof.
  intros Hc.
  assert (Hrest : preserves (above c)
    ((fun st => (do handler_id := logger_add refusal (console_kwargs (self st)) in
                 append_handler_id handler_id) st) ;;;
     mkdir_parent mkdir_error ;;;
     (fun st => (do handler_id := logger_add refusal (file_kwargs (self st)) in
                 append_handler_id handler_id) st) ;;;
     (fun st => add_extra_handlers refusal (extra_handlers (self st)) [] st) ;;;
     (fun st => if enable_print_redirect (self st) then _redirect_print st else ret tt st) ;;;
     (fun st => if enable_exception_logging (self st)
                then _setup_exception_logging st else ret tt st))).
  { apply preserves_seq; [apply above_add_and_append|]. intros _.
    apply preserves_seq; [apply above_mkdir|]. intros _.
    apply preserves_seq; [apply above_add_and_append|]. intros _.
    apply preserves_seq.
    { apply (preserves_read (above c)
               (fun s => add_extra_handlers refusal (extra_handlers (self s)) [])).
      intros s. apply above_extras. }
    intros _. apply preserves_seq.
    { intros s H. destruct (enable_print_redirect (self s));
        [apply above_redirect | ]; exact H. }
    intros _ s H. destruct (enable_exception_logging (self s));
      [apply above_exception_logging | ]; exact H. }
  unfold _setup_logger. unfold seq at 1. unfold logger_remove at 1.
  cbv beta iota zeta. apply Hrest.
  split; [simpl; lia | intros i _; apply lookup_empty].
Qed.

Lemma count_remove_all (c : nat) (ids : list nat) :
  preserves (fun st => handlers_count (logger st) = c) (remove_all ids).
Proof.
  induction ids as [|i ids IH]; simpl; [apply preserves_ret|].
  apply preserves_seq; [|intros _; exact IH].
  intros st H. unfold except_ValueError_pass, logger_remove.
  destruct (handlers (logger st) !! i); simpl; exact H.
Qed.

Lemma count_cleanup (c : nat) :
  preserves (fun st => handlers_count (logger st) = c) cleanup.
Proof.
  unfold cleanup.
  apply preserves_seq.
  { apply (preserves_read _ (fun s => remove_all (_handler_ids (self s)))).
    intros s. apply count_remove_all. }
  intros _. apply preserves_seq; [intros st H; exact H|].
  intros _ st H. unfold restore_print.
  destruct (_print_redirected (self st)); exact H.
Qed.

Lemma remove_all_returns (ids : list nat) :
  forall st, fst (remove_all ids st) = Return tt.
Proof.
  induction ids as [|i ids IH]; intros st; simpl; [reflexivity|].
  unfold seq, except_ValueError_pass, logger_remove.
  destruct (handlers (logger st) !! i); simpl; apply IH.
Qed.

(** [cleanup] never raises *)
Lemma cleanup_returns (st : state) : fst (cleanup st) = Return tt.
Proof.
  unfold cleanup, seq.
  pose proof (remove_all_returns (_handler_ids (self st)) st) as Hr.
  destruct (remove_all (_handler_ids (self st)) st) as [o st']. simpl in Hr.
  rewrite Hr. simpl. unfold restore_print.
  destruct (_print_redirected _); reflexivity.
Qed.

(** [set_filter] leaves no handler under an identifier issued before it *)
Lemma set_filter_invalidates (f : option callable) (st : state) (h : nat) :
  h < handlers_count (logger st) ->
  handlers (logger (snd (set_filter refusal mkdir_error f st))) !! h = None.
Proof.
  intros Hh. unfold set_filter.
  unfold seq at 1. unfold modify. cbv beta iota.
  set (st1 := set_self (with_filter_func f (self st)) st).
  pose proof (count_cleanup (handlers_count (logger st)) st1 eq_refl) as H2.
  pose proof (cleanup_returns st1) as H3.
  unfold seq. destruct (cleanup st1) as [o st2]. simpl in H2, H3. rewrite H3.
  destruct (setup_logger_above _ st2 H2) as [_ H4]. apply H4. exact Hh.
Qed.

(** a first, successful [remove_handler] takes the handler out of the backend *)
Lemma remove_handler_removes (h : nat) (st st' : state) :
  remove_handler h st = (Return tt, st') ->
  handlers (logger st') !! h = None.
Proof.
  unfold remove_handler, seq, logger_remove.
  destruct (handlers (logger st) !! h); [|discriminate].
  destruct (bool_decide _); intros [= <-]; simpl; apply lookup_delete_eq.
Qed.

(** C1 (the code departs from it).  The claim wants [remove_handler] to
    be a silent no-op on an identifier the backend no longer has.  The
    code hands the identifier to [logger.remove] unguarded, so the call
    raises the backend's [ValueError] and leaves the state as it was;
    this holds of every identifier the backend does not have, so of an
    identifier removed once already, and of every identifier issued
    before a [set_filter].  [cleanup], next to
    it, catches that very error ([cleanup_returns]). *)
Theorem remove_handler_after_removal_raises :
  (forall st h,
      handlers (logger st) !! h = None ->
      remove_handler h st = (Raise (no_such_handler h), st))
  /\ (forall st h st',
      remove_handler h st = (Return tt, st') ->
      remove_handler h st' = (Raise (no_such_handler h), st'))
  /\ (forall f st h,
      h < handlers_count (logger st) ->
      remove_handler h (snd (set_filter refusal mkdir_error f st))
      = (Raise (no_such_handler h), snd (set_filter refusal mkdir_error f st))).
Proof.
  split; [|split].
  - intros st h. apply remove_handler_unknown.
  - intros st h st' H. apply remove_handler_unknown.
    apply (remove_handler_removes h st st' H).
  - intros f st h Hh. apply remove_handler_unknown.
    apply set_filter_invalidates. exact Hh.
Qed.

End LoggerProps.

Section LoggerExamples.
Import Py LoggerManager SampleBackend.

Lemma remove_handler_after_removal_raises_witness :
  let added := add_handler loguru_refusal audit_sink default_manager in
  let filtered :=
    snd (set_filter loguru_refusal writable (Some (Callable "no_password_filter"))
           (snd added)) in
  fst added = Return 3
  /\ remove_handler 3 filtered
     = (Raise (Exn ValueError "There is no existing handler with id 3"), filtered).
Proof.
  cbv zeta. split; [reflexivity|].
  apply (proj2 (proj2 (remove_handler_after_removal_raises loguru_refusal writable))
           (Some (Callable "no_password_filter"))
           (snd (add_handler loguru_refusal audit_sink default_manager)) 3).
  vm_compute. lia.
Defined.

End LoggerExamples.

(** ** The scheduler facade *)

Section SchedulerProps.
Import Py Scheduler.
Context {W R : Type}.
Variable next_fire_time : string -> option string.

Lemma add_job_installs_wrapper (func : callable W R) (trigger : string)
      (kwargs : job_kwargs) (st st' : list log_record * scheduler_manager W R)
      (j : job W R) :
  add_job next_fire_time func trigger kwargs st = (Return j, st') ->
  job_func j = logged_job_wrapper (default (__name__ func) (kw_name kwargs)) func
  /\ job_name j = default (__name__ func) (kw_name kwargs)
  /\ exists b, scheduler (snd st') = Some b /\ In j (jobs b).
Proof.
  destruct st as [log self]. unfold add_job.
  destruct (scheduler self) as [b|]; [|discriminate].
  unfold backend_add_job.
  destruct (kw_id kwargs) as [i|].
  - destruct (existsb (has_job_id i) (jobs b)); [discriminate|].
    intros [= <- <-]. simpl. split; [reflexivity|]. split; [reflexivity|].
    eexists. split; [reflexivity|]. simpl. apply in_or_app. right. left. reflexivity.
  - intros [= <- <-]. simpl. split; [reflexivity|]. split; [reflexivity|].
    eexists. split; [reflexivity|]. simpl. apply in_or_app. right. left. reflexivity.
Qed.

(** C3, as amended.  The callable that [add_job] files with the backend
    hands back, unchanged, whatever the registered callable returns, and
    raises again, unchanged, whatever it raises: no exception is
    swallowed.  The start of each run is logged; a normal return is
    followed by the success record; an exception that is an instance of
    [Exception] is logged before it is raised again; an exception that
    is not ([SystemExit], [KeyboardInterrupt], [GeneratorExit]) passes
    through with no record of its own. *)
Theorem logged_job_wrapper_contract (func : callable W R) (trigger : string)
        (kwargs : job_kwargs) (st st' : list log_record * scheduler_manager W R)
        (j : job W R) :
  add_job next_fire_time func trigger kwargs st = (Return j, st') ->
  let name := default (__name__ func) (kw_name kwargs) in
  (exists b, scheduler (snd st') = Some b /\ In j (jobs b))
  /\ forall log w,
      match call func w with
      | (Return result, w') =>
        job_func j (log, w)
        = (Return result, ((log ++ [started name; completed name])%list, w'))
      | (Raise e, w') =>
        job_func j (log, w)
        = (Raise e,
           ((log ++ started name
                     :: (if isinstance_Exception e then [failed name e] else []))%list,
            w'))
      end.
Proof.
  intros Hadd name.
  destruct (add_job_installs_wrapper _ _ _ _ _ _ Hadd) as (Hf & _ & Hin).
  split; [exact Hin|].
  intros log w. rewrite Hf. unfold logged_job_wrapper. fold name.
  destruct (call func w) as [[result|e] w'].
  - rewrite <- app_assoc. reflexivity.
  - destruct (isinstance_Exception e).
    + rewrite <- app_assoc. reflexivity.
    + reflexivity.
Qed.

End SchedulerProps.


Section SchedulerExamples.
Import Py Scheduler.

Lemma logged_job_wrapper_contract_witness :
  (exists j st', add_job in_ten_seconds answer "interval" no_kwargs idle_manager = (Return j, st')
     /\ job_func j ([], tt)
        = (Return 42%Z, ([started "answer"; completed "answer"], tt)))
  /\ (exists j st', add_job in_ten_seconds broken "interval" no_kwargs idle_manager = (Return j, st')
     /\ job_func j ([], tt)
        = (Raise (Exn ZeroDivisionError "division by zero"),
           ([started "broken";
             failed "broken" (Exn ZeroDivisionError "division by zero")], tt))).
Proof.
  split.
  - eexists _, _. split; [reflexivity|].
    exact (proj2 (logged_job_wrapper_contract in_ten_seconds answer "interval" no_kwargs
                    idle_manager _ _ eq_refl) [] tt).
  - eexists _, _. split; [reflexivity|].
    exact (proj2 (logged_job_wrapper_contract in_ten_seconds broken "interval" no_kwargs
                    idle_manager _ _ eq_refl) [] tt).
Defined.

(** C3 read to the letter fails on a job that raises [SystemExit]: the
    exception comes out of the wrapper, but nothing about it was
    logged. *)
Lemma system_exit_is_not_logged :
  exists j st',
    add_job in_ten_seconds leaving "interval" no_kwargs idle_manager = (Return j, st')
    /\ ~ logs_and_reraises_every_exception leaving (job_func j).
Proof.
  eexists _, _. split; [reflexivity|].
  intros H. destruct (H [] tt (Exn SystemExit "1") tt eq_refl) as (log' & Hrun & r & Hin & Hr).
  vm_compute in Hrun. injection Hrun as <-.
  vm_compute in Hin. destruct Hin as [<- | []]. discriminate.
Qed.

End SchedulerExamples.

(** ** The access gate: the decorator, the identity, the bypass *)

Section AuthCoverage.
Import Text Auth.

Lemma acceptable_cookie_decision (r : request_ctx) :
  no_development_bypass r ->
  (acceptable_cookie r -> exists u, cookies_LASTUSER r = Some u /\ decision r = (true, Some u))
  /\ (~ acceptable_cookie r -> fst (decision r) = false).
Proof.
  intros Hnb. unfold decision. rewrite (check_user_access_no_bypass r Hnb).
  unfold acceptable_cookie. split.
  - intros (u & Hu & Hne & Hx). exists u. split; [exact Hu|]. rewrite Hu.
    destruct u as [|c rest]; [congruence|].
    destruct (is_restricted_user (Some (String c rest))) eqn:Hr.
    + apply is_restricted_user_spec in Hr. contradiction.
    + reflexivity.
  - intros Hn. destruct (cookies_LASTUSER r) as [[|c rest]|] eqn:Hu; try reflexivity.
    destruct (is_restricted_user (Some (String c rest))) eqn:Hr; [reflexivity|].
    exfalso. apply Hn. exists (String c rest). split; [reflexivity|].
    split; [discriminate|]. intros Hx. apply is_restricted_user_spec in Hx. congruence.
Qed.

(** X1.  The decorator runs the handler exactly on the requests the gate
    lets through: always in a development environment; otherwise if and
    only if the cookie is present, not empty and does not start with
    [x] or [X].  Every other request gets the fixed 403 answer, and the
    handler is not run. *)
Theorem require_access_gate {A} (f : unit -> A) (r : request_ctx) :
  (is_development_environment r = true -> require_access f r = Handled (f tt))
  /\ (no_development_bypass r -> acceptable_cookie r -> require_access f r = Handled (f tt))
  /\ (no_development_bypass r -> ~ acceptable_cookie r -> require_access f r = access_denied).
Proof.
  unfold require_access. split; [|split].
  - intros Hdev. unfold decision, check_user_access. rewrite Hdev. reflexivity.
  - intros Hnb Hok.
    destruct (proj1 (acceptable_cookie_decision r Hnb) Hok) as (u & _ & ->). reflexivity.
  - intros Hnb Hbad.
    pose proof (proj2 (acceptable_cookie_decision r Hnb) Hbad) as Hd.
    destruct (decision r) as [ok id]. simpl in Hd. subst ok. reflexivity.
Qed.

Lemma require_access_gate_witness :
  require_access (fun _ => "page") (desktop_request (Some "xavier")) = Handled "page"
  /\ require_access (fun _ => "page") (request_with (Some "maria")) = Handled "page"
  /\ require_access (fun _ => "page") (request_with (Some "Xavier")) = access_denied.
Proof.
  split; [|split].
  - exact (proj1 (require_access_gate (fun _ => "page") (desktop_request (Some "xavier")))
             eq_refl).
  - apply (proj1 (proj2 (require_access_gate (fun _ => "page") (request_with (Some "maria"))))
             (request_with_no_bypass _)).
    exists "maria". split; [reflexivity|]. split; [discriminate|].
    intros (c & rest & Heq & [Hx | Hx]); injection Heq as <- _; discriminate.
  - apply (proj2 (proj2 (require_access_gate (fun _ => "page") (request_with (Some "Xavier"))))
             (request_with_no_bypass _)).
    intros (u & Hu & _ & Hx). injection Hu as <-.
    apply Hx. exists "X"%char, "avier". split; [reflexivity | right; reflexivity].
Defined.

(** X2.  What the gate answers, on any request whatever: access is never
    granted to a null or empty identity -- the identity granted is
    [dev_user] or the cookie itself; a null identity always comes with a
    denial; a denial that names an identity names a cookie starting with
    [x] or [X]; and every denial is logged. *)
Theorem decision_identity (r : request_ctx) :
  (fst (decision r) = true ->
   exists u, snd (decision r) = Some u /\ u <> ""
             /\ (u = "dev_user" \/ cookies_LASTUSER r = Some u))
  /\ (snd (decision r) = None -> fst (decision r) = false)
  /\ (forall u, decision r = (false, Some u) ->
      cookies_LASTUSER r = Some u /\ first_char_is_x u)
  /\ (fst (decision r) = false ->
      exists lvl msg, In (Log lvl msg) (snd (check_user_access r))).
Proof.
  unfold decision.
  destruct (is_development_environment r) eqn:Hdev.
  - unfold check_user_access. rewrite Hdev. simpl.
    split; [|split; [|split]]; try discriminate.
    intros _. exists "dev_user". split; [reflexivity|]. split; [discriminate | left; reflexivity].
  - apply no_bypass_spec in Hdev. rewrite (check_user_access_no_bypass r Hdev).
    destruct (cookies_LASTUSER r) as [[|c rest]|]; cbn [fst snd].
    + split; [|split; [|split]]; try discriminate; try reflexivity.
      intros _. eexists _, _. left. reflexivity.
    + destruct (is_restricted_user (Some (String c rest))) eqn:Hr; cbn [fst snd negb].
      * split; [|split; [|split]]; try discriminate.
        -- intros u [= <-]. split; [reflexivity|]. apply is_restricted_user_spec. exact Hr.
        -- intros _. eexists _, _. right. left. reflexivity.
      * split; [|split; [|split]]; try discriminate.
        intros _. exists (String c rest). split; [reflexivity|].
        split; [discriminate | right; reflexivity].
    + split; [|split; [|split]]; try discriminate; try reflexivity.
      intros _. eexists _, _. left. reflexivity.
Qed.

Lemma decision_identity_witness :
  (exists u, snd (decision (request_with (Some "maria"))) = Some u /\ u <> ""
             /\ (u = "dev_user" \/ cookies_LASTUSER (request_with (Some "maria")) = Some u))
  /\ fst (decision (request_with None)) = false
  /\ first_char_is_x "xavier"
  /\ exists lvl msg,
       In (Log lvl msg) (snd (check_user_access (request_with (Some "xavier")))).
Proof.
  split; [|split; [|split]].
  - exact (proj1 (decision_identity (request_with (Some "maria"))) eq_refl).
  - exact (proj1 (proj2 (decision_identity (request_with None))) eq_refl).
  - exact (proj2 (proj1 (proj2 (proj2 (decision_identity (request_with (Some "xavier")))))
                    "xavier" eq_refl)).
  - exact (proj2 (proj2 (proj2 (decision_identity (request_with (Some "xavier"))))) eq_refl).
Defined.

(** X3.  Any one of the three development conditions -- dummy mode from a
    loopback address, a host name starting with DESKTOP in any case, a
    debug flag -- grants access as [dev_user] without a look at the
    cookie: the answer and the trace are the same for every cookie, a
    restricted one included, and the restriction rule is not consulted. *)
Theorem development_bypass_ignores_cookie (r : request_ctx) (cookie : option string) :
  dummy_mode_from_loopback r \/ development_hostname r \/ debug_flag r ->
  check_user_access (with_cookie cookie r)
  = ((true, Some "dev_user"),
     [Log INFO "Development environment detected - bypassing authentication"]).
Proof.
  intros H. apply is_development_environment_spec in H.
  unfold check_user_access.
  change (is_development_environment (with_cookie cookie r))
    with (is_development_environment r).
  rewrite H. reflexivity.
Qed.

Lemma development_bypass_ignores_cookie_witness :
  check_user_access (with_cookie (Some "xavier") (desktop_request None))
  = ((true, Some "dev_user"),
     [Log INFO "Development environment detected - bypassing authentication"]).
Proof.
  apply (development_bypass_ignores_cookie (desktop_request None) (Some "xavier")).
  right. left. reflexivity.
Defined.

End AuthCoverage.

(** ** The time-range builder: what parses, what fails, what is searched *)

Section TimeRangeCoverage.
Import Py Datetime Values Regex Strptime TimeRangeBound TimeRangeSearch.

Lemma strptime_valid (s : string) (f : format) (dt : datetime) :
  strptime s f = Some dt ->
  valid_date (year dt) (month dt) (day dt) = true
  /\ valid_time (hour dt) (minute dt) (second dt) (microsecond dt) = true
  /\ microsecond dt = 0%Z /\ utcoffset dt = None.
Proof.
  unfold strptime. destruct (rmatch (format_regex f) s) as [[g [|c rest]]|];
    try discriminate.
  destruct (valid_date _ _ _) eqn:Hd; [|discriminate].
  destruct (valid_time _ _ _ _) eqn:Ht; [|discriminate].
  intros [= <-]. simpl. auto.
Qed.

Lemma try_formats_origin (s : string) (fs : list format) (dt : datetime) :
  try_formats s fs = Some dt -> exists f, In f fs /\ strptime s f = Some dt.
Proof.
  induction fs as [|f fs IH]; simpl; [discriminate|].
  destruct (strptime s f) as [d|] eqn:Hf.
  - intros [= ->]. exists f. auto.
  - intros H. destruct (IH H) as (f' & Hin & Hf'). exists f'. auto.
Qed.

(** X4.  A text that [parse_time_input] reads always denotes a real
    instant: a date of the calendar (leap years observed, year 1 to
    9999), a time of day within range, no fraction of a second and no
    time zone; and the text has at least eight characters. *)
Theorem parsed_text_is_valid (s : string) (dt : datetime) :
  parse_time_input (PStr s) = Return dt ->
  valid_date (year dt) (month dt) (day dt) = true
  /\ valid_time (hour dt) (minute dt) (second dt) (microsecond dt) = true
  /\ microsecond dt = 0%Z /\ utcoffset dt = None
  /\ 8 <= String.length s.
Proof.
  unfold parse_time_input. destruct (try_formats s formats) as [d|] eqn:Ht; [|discriminate].
  intros [= ->]. destruct (try_formats_origin _ _ _ Ht) as (f & Hin & Hf).
  destruct (strptime_valid _ _ _ Hf) as (H1 & H2 & H3 & H4).
  repeat split; try assumption.
  apply strptime_length in Hf.
  destruct Hin as [<- | [<- | [<- | []]]];
    [change (min_len (format_regex fmt_seconds)) with 14 in Hf
    |change (min_len (format_regex fmt_minutes)) with 12 in Hf
    |change (min_len (format_regex fmt_date)) with 8 in Hf]; lia.
Qed.

Lemma parsed_text_is_valid_witness :
  valid_date 2024 2 29 = true /\ valid_time 23 59 0 0 = true
  /\ parse_time_input (PStr "2023-02-29 23:59")
     = Raise (Exn ValueError "Unable to parse time string: 2023-02-29 23:59").
Proof.
  destruct (parsed_text_is_valid "2024-02-29 23:59" (Dt 2024 2 29 23 59 0 0 None))
    as (H1 & H2 & _).
  - vm_compute. reflexivity.
  - split; [exact H1|]. split; [exact H2|]. vm_compute. reflexivity.
Defined.

Lemma parse_error_shape (v : pyval) (e : exn) :
  parse_time_input v = Raise e ->
  (exists s, v = PStr s /\ e = Exn ValueError ("Unable to parse time string: " ++ s))
  \/ (is_str v = false /\ is_date v = false /\ exn_class e = TypeError).
Proof.
  destruct v as [|s|dt|d|n b]; unfold parse_time_input; try discriminate.
  - intros [= <-]. right. auto.
  - destruct (try_formats s formats); [discriminate|].
    intros [= <-]. left. exists s. auto.
  - intros [= <-]. right. auto.
Qed.

(** X5.  Errors of the bounds surface unchanged and in order: a start
    bound that is supplied and unreadable makes the builder raise its
    error whatever the end bound is; with a start bound that is fine, an
    unreadable end bound makes it raise that one.  The error is a
    [ValueError] naming the text for a string, and a [TypeError] for a
    value that is neither a string nor a date. *)
Theorem bound_errors_surface (field : string) (start end_ : pyval)
        (inclusive : string) (e : exn) :
  (truthy start = true -> parse_time_input start = Raise e ->
   build_time_range_query field start end_ inclusive = Raise e)
  /\ (usable start -> truthy end_ = true -> parse_time_input end_ = Raise e ->
      build_time_range_query field start end_ inclusive = Raise e)
  /\ (forall v, parse_time_input v = Raise e ->
      (exists s, v = PStr s /\ e = Exn ValueError ("Unable to parse time string: " ++ s))
      \/ (is_str v = false /\ is_date v = false /\ exn_class e = TypeError)).
Proof.
  split; [|split].
  - intros Ht He. unfold build_time_range_query, get_time_range_bounds, parse_if_truthy.
    rewrite Ht, He. reflexivity.
  - intros Hs Ht He. destruct (parse_if_truthy_usable start Hs) as (o & Ho & _).
    unfold build_time_range_query, get_time_range_bounds. rewrite Ho.
    unfold parse_if_truthy. rewrite Ht, He. reflexivity.
  - intros v. apply parse_error_shape.
Qed.

Lemma bound_errors_surface_witness :
  build_time_range_query "ts" (PStr "yesterday") (POther "int" true) "both"
  = Raise (Exn ValueError "Unable to parse time string: yesterday")
  /\ build_time_range_query "ts" PNone (POther "int" true) "both"
     = Raise (Exn TypeError "Unsupported time input type: <class 'int'>").
Proof.
  split.
  - apply (proj1 (bound_errors_surface "ts" (PStr "yesterday") (POther "int" true) "both" _));
      vm_compute; reflexivity.
  - apply (proj1 (proj2 (bound_errors_surface "ts" PNone (POther "int" true) "both" _))).
    + left. reflexivity.
    + reflexivity.
    + reflexivity.
Defined.

(** X6.  The bounds that come back are the bounds that were parsed: the
    start bound exactly; the end bound either exactly or moved to the
    last instant of its own day, never to another day.  A bound comes
    back absent exactly when the value given for it is falsy. *)
Theorem bounds_stay_on_their_day (start end_ : pyval) (inclusive : string)
        (sd ed : option datetime) :
  get_time_range_bounds start end_ inclusive = Return (sd, ed) ->
  (forall s, sd = Some s -> parse_time_input start = Return s)
  /\ (forall e, ed = Some e ->
      exists p, parse_time_input end_ = Return p
                /\ date_of e = date_of p
                /\ (e = p \/ e = combine (date_of p) time_max))
  /\ (sd = None <-> truthy start = false)
  /\ (ed = None <-> truthy end_ = false).
Proof.
  assert (Hw : forall p : datetime,
    let w := if (is_str end_ || is_date end_) && negb (is_datetime end_)
             then if (String.length (py_str end_) =? 10)%nat || is_date end_
                  then Some (combine (date_of p) time_max) else Some p
             else Some p in
    w = Some p \/ w = Some (combine (date_of p) time_max)).
  { intros p. cbv zeta.
    destruct ((is_str end_ || is_date end_) && negb (is_datetime end_));
      [destruct ((String.length (py_str end_) =? 10)%nat || is_date end_)|]; auto. }
  assert (Hend : forall p w,
    w = Some p \/ w = Some (combine (date_of p) time_max) ->
    (forall e, w = Some e ->
       exists p0, Return p = Return p0 /\ date_of e = date_of p0
                  /\ (e = p0 \/ e = combine (date_of p0) time_max))
    /\ (w = None <-> true = false)).
  { intros p w [-> | ->]; (split; [|split; discriminate]); intros e [= <-]; exists p.
    - auto.
    - rewrite date_of_combine. auto. }
  unfold get_time_range_bounds, parse_if_truthy.
  destruct (truthy start) eqn:Hs.
  - destruct (parse_time_input start) as [s0|e0]; [|discriminate]. cbn [Py.bind].
    destruct (truthy end_) eqn:He.
    + destruct (parse_time_input end_) as [p|e1]; [|discriminate]. cbn [Py.bind].
      intros [= <- <-].
      destruct (Hend p _ (Hw p)) as [H1 H2].
      split; [intros s [= <-]; reflexivity|].
      split; [exact H1|]. split; [split; discriminate | exact H2].
    + cbn [Py.bind]. intros [= <- <-].
      split; [intros s [= <-]; reflexivity|].
      split; [discriminate|]. split; split; try discriminate; reflexivity.
  - cbn [Py.bind]. destruct (truthy end_) eqn:He.
    + destruct (parse_time_input end_) as [p|e1]; [|discriminate]. cbn [Py.bind].
      intros [= <- <-].
      destruct (Hend p _ (Hw p)) as [H1 H2].
      split; [discriminate|].
      split; [exact H1|]. split; [split; reflexivity | exact H2].
    + cbn [Py.bind]. intros [= <- <-].
      split; [discriminate|]. split; [discriminate|].
      split; split; reflexivity.
Qed.

Lemma bounds_stay_on_their_day_witness :
  parse_time_input (PStr "2024-02-01 08:30") = Return (Dt 2024 2 1 8 30 0 0 None)
  /\ exists p, parse_time_input (PStr "2024-01-01") = Return p
               /\ date_of (Dt 2024 1 1 23 59 59 999999 None) = date_of p.
Proof.
  destruct (bounds_stay_on_their_day (PStr "2024-02-01 08:30") (PStr "2024-01-01") "both"
              (Some (Dt 2024 2 1 8 30 0 0 None))
              (Some (Dt 2024 1 1 23 59 59 999999 None))) as (Hs & He & _).
  - vm_compute. reflexivity.
  - split; [apply Hs; reflexivity|].
    destruct (He _ eq_refl) as (p & Hp & Hd & _). exists p. auto.
Defined.







End TimeRangeCoverage.

(** ** A calendar date, written and read back *)

Section DateRoundTrip.
Import Py Datetime Values Regex Strptime TimeRangeBound.

Lemma digit_char_spec (n : Z) :
  Text.is_digit (digit_char n) = true
  /\ Z.of_N (Text.code (digit_char n) - 48) = (n mod 10)%Z.
Proof.
  unfold digit_char.
  assert (H : (0 <= n mod 10 < 10)%Z) by (apply Z.mod_pos_bound; lia).
  assert (Hc : (n mod 10 = 0 \/ n mod 10 = 1 \/ n mod 10 = 2 \/ n mod 10 = 3
                \/ n mod 10 = 4 \/ n mod 10 = 5 \/ n mod 10 = 6 \/ n mod 10 = 7
                \/ n mod 10 = 8 \/ n mod 10 = 9)%Z) by lia.
  destruct Hc as [-> | [-> | [-> | [-> | [-> | [-> | [-> | [-> | [-> | ->]]]]]]]]];
    split; reflexivity.
Qed.

(** the four digits of a year are read back as the year *)
Lemma year_text (y : Z) :
  (1 <= y <= 9999)%Z ->
  exists c1 c2 c3 c4,
    pad 4 y = String c1 (String c2 (String c3 (String c4 EmptyString)))
    /\ Text.is_digit c1 = true /\ Text.is_digit c2 = true
    /\ Text.is_digit c3 = true /\ Text.is_digit c4 = true
    /\ int_of (pad 4 y) = y.
Proof.
  intros Hy.
  exists (digit_char (y / 10 / 10 / 10)), (digit_char (y / 10 / 10)),
         (digit_char (y / 10)), (digit_char y).
  destruct (digit_char_spec (y / 10 / 10 / 10)) as [H1 V1].
  destruct (digit_char_spec (y / 10 / 10)) as [H2 V2].
  destruct (digit_char_spec (y / 10)) as [H3 V3].
  destruct (digit_char_spec y) as [H4 V4].
  split; [reflexivity|]. repeat (split; [assumption|]).
  unfold int_of. cbv [pad String.append int_digits].
  rewrite H1, H2, H3, H4, V1, V2, V3, V4.
  pose proof (Z.div_mod y 10 ltac:(lia)) as E1.
  pose proof (Z.div_mod (y / 10) 10 ltac:(lia)) as E2.
  pose proof (Z.div_mod (y / 10 / 10) 10 ltac:(lia)) as E3.
  pose proof (Z.mod_pos_bound y 10 ltac:(lia)) as B1.
  pose proof (Z.mod_pos_bound (y / 10) 10 ltac:(lia)) as B2.
  pose proof (Z.mod_pos_bound (y / 10 / 10) 10 ltac:(lia)) as B3.
  assert (B4 : (0 <= y / 10 / 10 / 10 < 10)%Z).
  { generalize dependent (y / 10 / 10 / 10)%Z.
    generalize dependent (y / 10 / 10)%Z. generalize dependent (y / 10)%Z.
    intros. lia. }
  rewrite (Z.mod_small _ _ B4).
  generalize dependent (y / 10 / 10 / 10)%Z.
  generalize dependent (y / 10 / 10)%Z. generalize dependent (y / 10)%Z.
  generalize dependent (y mod 10)%Z. intros. lia.
Qed.

(** a year of four digits in front of a text is consumed by [%Y] *)
Lemma run_year {R} (c1 c2 c3 c4 : ascii) (r : regex) (tail : string)
      (g : groups) (k : string -> groups -> option R) :
  Text.is_digit c1 = true -> Text.is_digit c2 = true ->
  Text.is_digit c3 = true -> Text.is_digit c4 = true ->
  run (Seq (directive_regex DY) r)
      (String c1 (String c2 (String c3 (String c4 tail)))) g k
  = run r tail (("Y", String c1 (String c2 (String c3 (String c4 EmptyString)))) :: g) k.
Proof.
  intros H1 H2 H3 H4. cbn [run directive_regex digit]. rewrite H1, H2, H3, H4.
  cbn [String.length].
  replace (S (S (S (S (String.length tail)))) - String.length tail) with 4 by lia.
  reflexivity.
Qed.

Lemma days_in_month_le (y m : Z) : (days_in_month y m <= 31)%Z.
Proof.
  unfold days_in_month.
  destruct (m =? 2)%Z; [destruct (is_leap y); lia|].
  destruct ((m =? 4) || (m =? 6) || (m =? 9) || (m =? 11))%Z; lia.
Qed.

Lemma valid_date_bounds (y m d : Z) :
  valid_date y m d = true ->
  (1 <= y <= 9999 /\ 1 <= m <= 12 /\ 1 <= d <= 31)%Z.
Proof.
  unfold valid_date. rewrite !andb_true_iff, !Z.leb_le.
  pose proof (days_in_month_le y m). lia.
Qed.

(** X9.  Round trip: the text Python prints for a calendar date,
    [str(d)], is read back by [parse_time_input] as midnight of that
    very date, for every date of the calendar. *)
Theorem date_text_round_trip (y m d : Z) :
  valid_date y m d = true ->
  parse_time_input (PStr (date_isoformat (Date y m d)))
  = Return (combine (Date y m d) time_min).
Proof.
  intros Hv. destruct (valid_date_bounds y m d Hv) as (Hy & Hm & Hd).
  destruct (year_text y Hy) as (c1 & c2 & c3 & c4 & Hpad & D1 & D2 & D3 & D4 & Hint).
  assert (Hrun : forall (r : regex) (tail : string) (g : groups)
                        (k : string -> groups -> option (groups * string)),
             run (Seq (directive_regex DY) r) (pad 4 y ++ tail) g k
             = run r tail (("Y", pad 4 y) :: g) k).
  { intros r tail g k. rewrite Hpad. apply (run_year c1 c2 c3 c4); assumption. }
  unfold date_isoformat. cbn [d_year d_month d_day].
  clear Hpad. revert Hrun Hint. generalize (pad 4 y). intros ys Hrun Hint.
  unfold parse_time_input, formats, try_formats, strptime, rmatch.
  change (format_regex fmt_seconds)
    with (Seq (directive_regex DY) (format_regex (List.tl fmt_seconds))).
  change (format_regex fmt_minutes)
    with (Seq (directive_regex DY) (format_regex (List.tl fmt_minutes))).
  change (format_regex fmt_date)
    with (Seq (directive_regex DY) (format_regex (List.tl fmt_date))).
  rewrite !Hrun.
  assert (Hm' : (m = 1 \/ m = 2 \/ m = 3 \/ m = 4 \/ m = 5 \/ m = 6 \/ m = 7 \/ m = 8 \/ m = 9 \/ m = 10 \/ m = 11 \/ m = 12)%Z) by lia.
  assert (Hd' : (d = 1 \/ d = 2 \/ d = 3 \/ d = 4 \/ d = 5 \/ d = 6 \/ d = 7 \/ d = 8 \/ d = 9 \/ d = 10 \/ d = 11 \/ d = 12 \/ d = 13 \/ d = 14 \/ d = 15 \/ d = 16 \/ d = 17 \/ d = 18 \/ d = 19 \/ d = 20 \/ d = 21 \/ d = 22 \/ d = 23 \/ d = 24 \/ d = 25 \/ d = 26 \/ d = 27 \/ d = 28 \/ d = 29 \/ d = 30 \/ d = 31)%Z) by lia.
  clear Hm Hd Hrun.
  repeat (destruct Hm' as [Hm' | Hm']); subst m;
    repeat (destruct Hd' as [Hd' | Hd']); subst d;
    repeat match goal with
           | |- context [run ?r ?t (("Y", ys) :: []) ?k] =>
             let v := eval vm_compute in (run r t (("Y", ys) :: []) k) in
             change (run r t (("Y", ys) :: []) k) with v
           end;
    cbv beta iota;
    repeat match goal with
           | |- context [field "Y" ?dv ?G] => change (field "Y" dv G) with (int_of ys)
           end;
    rewrite Hint;
    repeat match goal with
           | |- context [field ?n ?dv ?G] =>
             let v := eval vm_compute in (field n dv G) in
             change (field n dv G) with v
           end;
    rewrite Hv; reflexivity.
Qed.

Lemma date_text_round_trip_witness :
  parse_time_input (PStr "2024-02-29") = Return (Dt 2024 2 29 0 0 0 0 None).
Proof. exact (date_text_round_trip 2024 2 29 eq_refl). Defined.

End DateRoundTrip.

(** ** The date normaliser: phrases, flags, white space, escaping errors *)

Section ConverterCoverage.
Import Py Datetime Values Regex DatetimeConverter DatetimeConverterSettings.

Variable now : datetime.
Variable plus : datetime -> unit_ -> Z -> outcome datetime.
Variable parse : string -> bool -> outcome datetime.
Variable parse_with : string -> bool -> bool -> option datetime -> outcome datetime.

Lemma relative_phrase_found (s : string) (off : option (unit_ * Z)) :
  clock_in_range now plus ->
  In (Text.lower s, off) phrase_offsets ->
  exists dt,
    match off with
    | None => dt = now
    | Some (u, n) => plus now u n = Return dt
    end
    /\ parse_relative_date now plus s = Return (Some dt).
Proof.
  intros Hc Hin. unfold parse_relative_date, relative_dates, minus.
  change (- (1))%Z with (-1)%Z.
  destruct (returns_of_not_raises _ (proj1 (Hc Days))) as [d1 E1].
  destruct (returns_of_not_raises _ (proj2 (Hc Days))) as [d2 E2].
  destruct (returns_of_not_raises _ (proj1 (Hc Weeks))) as [w1 E3].
  destruct (returns_of_not_raises _ (proj2 (Hc Weeks))) as [w2 E4].
  destruct (returns_of_not_raises _ (proj1 (Hc Months))) as [m1 E5].
  destruct (returns_of_not_raises _ (proj2 (Hc Months))) as [m2 E6].
  destruct (returns_of_not_raises _ (proj1 (Hc Years))) as [y1 E7].
  destruct (returns_of_not_raises _ (proj2 (Hc Years))) as [y2 E8].
  rewrite E1, E2, E3, E4, E5, E6, E7, E8. cbn [Py.bind].
  unfold phrase_offsets in Hin. cbn [In] in Hin.
  repeat (destruct Hin as [Hin | Hin];
          [injection Hin as Hs <-; rewrite <- Hs; eexists; split;
           [first [reflexivity | eassumption] | reflexivity] |]).
  contradiction.
Qed.

(** X10.  A relative phrase, in any mix of cases and with blanks around
    it, is answered from the clock alone: [today] and [now] give the
    present instant, the eight others the instant one day, week, month
    or year before or after it.  The free-form parser has no say in the
    answer. *)
Theorem relative_phrase_answer (s : string) (off : option (unit_ * Z))
        (return_iso include_microseconds : bool) :
  clock_in_range now plus ->
  In (Text.lower (Text.strip s), off) phrase_offsets ->
  exists dt,
    match off with
    | None => dt = now
    | Some (u, n) => plus now u n = Return dt
    end
    /\ parse_date_string now plus parse (PStr s) return_iso include_microseconds
       = Return (finish return_iso include_microseconds dt).
Proof.
  intros Hc Hin.
  destruct (relative_phrase_found _ _ Hc Hin) as (dt & Hdt & Hrel).
  exists dt. split; [exact Hdt|].
  unfold parse_date_string.
  destruct s as [|c s]; [vm_compute in Hin; intuition discriminate|].
  cbn [Text.truthy negb]. rewrite Hrel. reflexivity.
Qed.


Lemma finish_kind (return_iso include_microseconds : bool) (dt : datetime) (r : parsed) :
  finish return_iso include_microseconds dt = Some r ->
  match r with
  | AsDatetime dt' =>
    return_iso = false /\ (include_microseconds = false -> microsecond dt' = 0%Z)
  | AsIso s =>
    return_iso = true
    /\ exists dt', s = isoformat dt'
                   /\ (include_microseconds = false -> microsecond dt' = 0%Z)
  end.
Proof.
  unfold finish. intros H. injection H as <-.
  destruct return_iso.
  - split; [reflexivity|]. eexists. split; [reflexivity|].
    intros ->. reflexivity.
  - split; [reflexivity|]. intros ->. reflexivity.
Qed.

(** X12.  The kind of the result follows the flags: a datetime comes
    back only when [return_iso] is false, a text only when it is true
    and then it is the ISO form of a datetime; and with
    [include_microseconds] false that datetime has no microseconds. *)
Theorem result_kind (v : pyval) (return_iso include_microseconds : bool) (r : parsed) :
  parse_date_string now plus parse v return_iso include_microseconds = Return (Some r) ->
  match r with
  | AsDatetime dt =>
    return_iso = false /\ (include_microseconds = false -> microsecond dt = 0%Z)
  | AsIso s =>
    return_iso = true
    /\ exists dt, s = isoformat dt
                  /\ (include_microseconds = false -> microsecond dt = 0%Z)
  end.
Proof.
  destruct v as [|t|dt|d|x]; try discriminate.
  unfold parse_date_string. destruct (negb (Text.truthy t)); [discriminate|].
  destruct (parse_relative_date now plus (Text.strip t)) as [[dt|]|e];
    cbn [Py.bind]; try discriminate.
  { intros H. apply (finish_kind return_iso include_microseconds dt). congruence. }
  unfold try_parse.
  destruct (parse (Text.strip t) false) as [dt|e].
  { intros H. apply (finish_kind return_iso include_microseconds dt). congruence. }
  destruct (isinstance_ValueError e); [|discriminate].
  destruct (parse (Text.strip t) true) as [dt|e'].
  { intros H. apply (finish_kind return_iso include_microseconds dt). congruence. }
  destruct (isinstance_ValueError e'); discriminate.
Qed.

Lemma rstrip_idem (s : string) : Text.rstrip (Text.rstrip s) = Text.rstrip s.
Proof.
  induction s as [|c s IH]; [reflexivity|].
  cbn [Text.rstrip]. destruct (Text.rstrip s) as [|a r] eqn:E.
  - destruct (Text.is_space c) eqn:Hc; [reflexivity|].
    cbn [Text.rstrip]. rewrite Hc. reflexivity.
  - change (Text.rstrip (String c (String a r)))
      with (match Text.rstrip (String a r) with
            | EmptyString => if Text.is_space c then EmptyString else String c EmptyString
            | String b r' => String c (String b r')
            end).
    rewrite IH. reflexivity.
Qed.

Lemma lstrip_head (s : string) :
  match Text.lstrip s with
  | String c _ => Text.is_space c = false
  | EmptyString => True
  end.
Proof.
  induction s as [|c s IH]; [exact I|].
  cbn [Text.lstrip]. destruct (Text.is_space c) eqn:Hc; [exact IH | exact Hc].
Qed.

Lemma rstrip_keeps_head (c : ascii) (r : string) :
  Text.is_space c = false -> Text.rstrip (String c r) = String c (Text.rstrip r).
Proof.
  intros Hc. cbn [Text.rstrip]. rewrite Hc.
  destruct (Text.rstrip r); reflexivity.
Qed.

Lemma strip_idem (s : string) : Text.strip (Text.strip s) = Text.strip s.
Proof.
  unfold Text.strip. pose proof (lstrip_head s) as H.
  destruct (Text.lstrip s) as [|c r]; [reflexivity|].
  rewrite (rstrip_keeps_head c r H).
  cbn [Text.lstrip]. rewrite H.
  rewrite (rstrip_keeps_head c _ H), rstrip_idem. reflexivity.
Qed.

(** X13.  Blanks around the text do not count: a text with something
    other than white space in it is read exactly as the same text with
    the blanks at both ends removed. *)
Theorem surrounding_blanks_ignored (s : string) (return_iso include_microseconds : bool) :
  Text.strip s <> "" ->
  parse_date_string now plus parse (PStr s) return_iso include_microseconds
  = parse_date_string now plus parse (PStr (Text.strip s)) return_iso include_microseconds.
Proof.
  intros Hs. unfold parse_date_string. rewrite strip_idem.
  destruct s as [|c s]; [contradiction Hs; reflexivity|].
  destruct (Text.strip (String c s)) as [|a r]; [contradiction Hs; reflexivity|].
  reflexivity.
Qed.

(** X14.  What can escape: an exception leaves [parse_date_string] only
    when the relative-date step raised it (the clock or an offset out of
    the range of dates), or when the free-form parser raised something
    that is no [ValueError].  A [ValueError] of the parser, and so a
    [ParserError], never reaches the caller. *)
Theorem escaping_exceptions (v : pyval) (return_iso include_microseconds : bool) (e : exn) :
  parse_date_string now plus parse v return_iso include_microseconds = Raise e ->
  exists s,
    v = PStr s
    /\ (parse_relative_date now plus (Text.strip s) = Raise e
        \/ (isinstance_ValueError e = false
            /\ exists dayfirst, parse (Text.strip s) dayfirst = Raise e)).
Proof.
  destruct v as [|s|dt|d|x]; try discriminate.
  intros H. exists s. split; [reflexivity|]. revert H.
  unfold parse_date_string. destruct (negb (Text.truthy s)); [discriminate|].
  destruct (parse_relative_date now plus (Text.strip s)) as [[dt|]|e0];
    cbn [Py.bind]; try discriminate.
  - unfold try_parse.
    destruct (parse (Text.strip s) false) as [dt|e1] eqn:E1; [discriminate|].
    destruct (isinstance_ValueError e1) eqn:V1.
    + destruct (parse (Text.strip s) true) as [dt|e2] eqn:E2; [discriminate|].
      destruct (isinstance_ValueError e2) eqn:V2; [discriminate|].
      intros H. injection H as <-. right. split; [exact V2|]. exists true. exact E2.
    + intros H. injection H as <-. right. split; [exact V1|]. exists false. exact E1.
  - intros H. injection H as <-. left. reflexivity.
Qed.

(** X15.  The plain entry point is the one with settings, tried twice:
    where the parser is called with its own defaults for [yearfirst]
    and [default], [parse_date_string] answers as
    [parse_date_string_with_settings] does month first, and, when that
    finds nothing, as it does day first. *)
Theorem plain_is_settings_twice (v : pyval) (return_iso include_microseconds : bool) :
  (forall s dayfirst, parse s dayfirst = parse_with s dayfirst false None) ->
  parse_date_string now plus parse v return_iso include_microseconds
  = match parse_date_string_with_settings now plus parse_with v return_iso
            false false None include_microseconds with
    | Return None =>
      parse_date_string_with_settings now plus parse_with v return_iso
        true false None include_microseconds
    | r => r
    end.
Proof.
  intros Hp. destruct v as [|s|dt|d|x]; try reflexivity.
  unfold parse_date_string, parse_date_string_with_settings.
  destruct (negb (Text.truthy s)); [reflexivity|].
  destruct (parse_relative_date now plus (Text.strip s)) as [[dt|]|e];
    cbn [Py.bind]; try reflexivity.
  unfold try_parse. rewrite !Hp.
  destruct (parse_with (Text.strip s) false false None) as [dt|e]; [reflexivity|].
  destruct (isinstance_ValueError e); reflexivity.
Qed.

End ConverterCoverage.

Section ConverterCoverageExamples.
Import Py Datetime Values Regex DatetimeConverter DatetimeConverterSettings SampleEnv.

Lemma relative_phrase_answer_witness :
  exists dt,
    relativedelta_plus noon Weeks 1 = Return dt
    /\ parse_date_string noon relativedelta_plus parse_iso_date (PStr " Next Week ")
         false true
       = Return (finish false true dt).
Proof.
  apply (relative_phrase_answer noon relativedelta_plus parse_iso_date
           " Next Week " (Some (Weeks, 1%Z)) false true noon_in_range).
  unfold phrase_offsets. cbn [In]. do 5 right. left. reflexivity.
Defined.

Lemma result_kind_witness :
  false = false
  /\ (false = false -> microsecond (Dt 2024 3 5 0 0 0 0 None) = 0%Z).
Proof.
  apply (result_kind noon relativedelta_plus parse_iso_date (PStr "2024-03-05")
           false false (AsDatetime (Dt 2024 3 5 0 0 0 0 None))).
  vm_compute. reflexivity.
Defined.

Lemma surrounding_blanks_ignored_witness :
  parse_date_string noon relativedelta_plus parse_iso_date (PStr "  tomorrow ") false true
  = parse_date_string noon relativedelta_plus parse_iso_date
      (PStr (Text.strip "  tomorrow ")) false true.
Proof.
  apply (surrounding_blanks_ignored noon relativedelta_plus parse_iso_date "  tomorrow ").
  vm_compute. discriminate.
Defined.

Lemma escaping_exceptions_witness :
  exists s,
    PStr "10000 years ago" = PStr s
    /\ (parse_relative_date noon relativedelta_plus (Text.strip s)
        = Raise (Exn ValueError "year -7976 is out of range")
        \/ (isinstance_ValueError (Exn ValueError "year -7976 is out of range") = false
            /\ exists dayfirst,
                 parse_iso_date (Text.strip s) dayfirst
                 = Raise (Exn ValueError "year -7976 is out of range"))).
Proof.
  apply (escaping_exceptions noon relativedelta_plus parse_iso_date
           (PStr "10000 years ago") false true).
  vm_compute. reflexivity.
Defined.

Lemma plain_is_settings_twice_witness :
  parse_date_string noon relativedelta_plus parse_iso_date (PStr "2024-03-05") false true
  = match parse_date_string_with_settings noon relativedelta_plus
            (fun s b _ _ => parse_iso_date s b) (PStr "2024-03-05") false
            false false None true with
    | Return None =>
      parse_date_string_with_settings noon relativedelta_plus
        (fun s b _ _ => parse_iso_date s b) (PStr "2024-03-05") false
        true false None true
    | r => r
    end.
Proof.
  apply (plain_is_settings_twice noon relativedelta_plus parse_iso_date
           (fun s b _ _ => parse_iso_date s b) (PStr "2024-03-05") false true).
  intros s dayfirst. reflexivity.
Defined.

End ConverterCoverageExamples.

(** ** The date normaliser: offsets counted in days, weeks, months, years *)

Section OffsetCoverage.
Import Py Datetime Values Regex DatetimeConverter.

Variable now : datetime.
Variable plus : datetime -> unit_ -> Z -> outcome datetime.
Variable parse : string -> bool -> outcome datetime.

Lemma append_cons (c : ascii) (s t : string) :
  String c s ++ t = String c (s ++ t).
Proof. reflexivity. Qed.

Lemma length_append (s t : string) :
  String.length (s ++ t) = String.length s + String.length t.
Proof.
  induction s as [|c s IH]; [reflexivity|].
  rewrite append_cons. cbn [String.length]. rewrite IH. reflexivity.
Qed.

Lemma take_str_append (s t : string) :
  take_str (String.length (s ++ t) - String.length t) (s ++ t) = s.
Proof.
  rewrite length_append.
  replace (String.length s + String.length t - String.length t)
    with (String.length s) by lia.
  induction s as [|c s IH]; [destruct t; reflexivity|].
  rewrite append_cons. cbn [String.length take_str]. rewrite IH. reflexivity.
Qed.

Lemma digit_cases (c : ascii) :
  Text.is_digit c = true ->
  In c ["0"; "1"; "2"; "3"; "4"; "5"; "6"; "7"; "8"; "9"]%char.
Proof.
  destruct c as [[] [] [] [] [] [] [] []]; intros H;
    try (vm_compute in H; discriminate H); cbn [In];
    repeat (first [left; reflexivity | right]).
Qed.

Lemma search_hit (r : regex) (s : string) (g : groups) (rest : string) :
  rmatch r s = Some (g, rest) -> search r s = Some g.
Proof. intros H. destruct s; cbn [search]; rewrite H; reflexivity. Qed.

Lemma search_miss (r : regex) (c : ascii) (s : string) :
  rmatch r (String c s) = None -> search r (String c s) = search r s.
Proof. intros H. cbn [search]. rewrite H. reflexivity. Qed.

(** the greedy run of digits stops where the digits stop, when what
    follows goes through *)
Lemma star_digits_greedy {R} (k : string -> option R) (d tail : string) (x : R) :
  all_digits d = true -> no_digit_head tail = true ->
  k tail = Some x ->
  star Text.is_digit k (d ++ tail) = Some x.
Proof.
  intros Hd Ht Hk. induction d as [|c d IH].
  - change ("" ++ tail) with tail. destruct tail as [|a t]; [exact Hk|].
    cbn [star]. cbn [no_digit_head] in Ht.
    destruct (Text.is_digit a); [discriminate | exact Hk].
  - cbn [all_digits] in Hd. apply andb_true_iff in Hd as [Hc Hd].
    rewrite append_cons. cbn [star]. rewrite Hc, (IH Hd). reflexivity.
Qed.

Lemma star_digits_none {R} (k : string -> option R) (d tail : string) :
  all_digits d = true -> no_digit_head tail = true ->
  (forall d', all_digits d' = true -> k (d' ++ tail) = None) ->
  star Text.is_digit k (d ++ tail) = None.
Proof.
  intros Hd Ht Hk. induction d as [|c d IH].
  - change ("" ++ tail) with tail. destruct tail as [|a t].
    + exact (Hk "" eq_refl).
    + cbn [star]. cbn [no_digit_head] in Ht.
      destruct (Text.is_digit a); [discriminate | exact (Hk "" eq_refl)].
  - pose proof Hd as Hcd.
    cbn [all_digits] in Hd. apply andb_true_iff in Hd as [Hc Hd].
    rewrite append_cons. cbn [star]. rewrite Hc, (IH Hd).
    rewrite <- append_cons. exact (Hk _ Hcd).
Qed.

(** [(\d+)] in front of a numeral takes all of it *)
Lemma run_digits1 {R} (n tail : string) (g : groups)
      (k : string -> groups -> option R) (x : R) :
  numeral n = true -> no_digit_head tail = true ->
  k tail (("1", n) :: g) = Some x ->
  run digits1 (n ++ tail) g k = Some x.
Proof.
  unfold numeral. destruct n as [|c d]; [discriminate|].
  cbn [Text.truthy andb all_digits].
  intros [Hc Hd]%andb_true_iff Ht Hk.
  unfold digits1, digit. cbn [run]. rewrite append_cons, Hc.
  apply star_digits_greedy; [exact Hd | exact Ht |].
  rewrite <- append_cons, take_str_append. exact Hk.
Qed.

Lemma run_digits1_none {R} (n tail : string) (g : groups)
      (k : string -> groups -> option R) :
  numeral n = true -> no_digit_head tail = true ->
  (forall d g', all_digits d = true -> k (d ++ tail) g' = None) ->
  run digits1 (n ++ tail) g k = None.
Proof.
  unfold numeral. destruct n as [|c d]; [discriminate|].
  cbn [Text.truthy andb all_digits].
  intros [Hc Hd]%andb_true_iff Ht Hk.
  unfold digits1, digit. cbn [run]. rewrite append_cons, Hc.
  apply star_digits_none; [exact Hd | exact Ht |].
  intros d' Hd'. apply Hk. exact Hd'.
Qed.

(** a pattern that fails in front of every numeral followed by [tail],
    and is not found in [tail], is not found in a numeral followed by
    [tail] *)
Lemma search_numeral (r : regex) (d tail : string) :
  all_digits d = true ->
  (forall c d', Text.is_digit c = true -> all_digits d' = true ->
     rmatch r (String c d' ++ tail) = None) ->
  search r tail = None ->
  search r (d ++ tail) = None.
Proof.
  intros Hd Hr Ht. induction d as [|c d IH]; [exact Ht|].
  cbn [all_digits] in Hd. apply andb_true_iff in Hd as [Hc Hd].
  rewrite append_cons, search_miss.
  - exact (IH Hd).
  - rewrite <- append_cons. exact (Hr c d Hc Hd).
Qed.

Lemma digit_not_space (c : ascii) : Text.is_digit c = true -> Text.is_space c = false.
Proof.
  intros H. destruct (digit_cases c H) as [<-|[<-|[<-|[<-|[<-|[<-|[<-|[<-|[<-|[<-|[]]]]]]]]]]];
    reflexivity.
Qed.

Lemma rmatch_ago_pattern (w s : string) :
  rmatch (ago_pattern w) s
  = run digits1 s [] (fun s' g' => run (after_ago w) s' g' found).
Proof. reflexivity. Qed.

Lemma rmatch_in_pattern (w n tail : string) :
  numeral n = true ->
  rmatch (in_pattern w) ("in " ++ n ++ tail)
  = run digits1 (n ++ tail) [] (fun s' g' => run (after_in w) s' g' found).
Proof.
  unfold numeral. destruct n as [|c d]; [discriminate|].
  cbn [Text.truthy andb all_digits]. intros [Hc Hd]%andb_true_iff.
  change ("in " ++ String c d ++ tail)
    with (String "i" (String "n" (String " " (String c (d ++ tail))))).
  unfold rmatch, in_pattern, spaces.
  cbn [run word star]. rewrite !Ascii.eqb_refl.
  change (Text.is_space " ") with true. cbv iota.
  rewrite (digit_not_space c Hc).
  rewrite append_cons.
  match goal with
  | |- match ?X with Some x => Some x | None => ?Y end = ?Z =>
    change Y with (@None (groups * string)); change X with Z; destruct Z; reflexivity
  end.
Qed.

Lemma ago_pattern_not_found (w n tail : string) :
  numeral n = true -> no_digit_head tail = true ->
  (forall g, run (after_ago w) tail g found = None) ->
  (forall c rest g, Text.is_digit c = true ->
     run (after_ago w) (String c rest) g found = None) ->
  search (ago_pattern w) tail = None ->
  search (ago_pattern w) (n ++ tail) = None.
Proof.
  intros Hn Ht H0 Hd Hs.
  apply search_numeral; [| |exact Hs].
  - apply andb_true_iff in Hn as [_ Hn]. exact Hn.
  - intros c d' Hc Hd'. rewrite rmatch_ago_pattern.
    apply run_digits1_none; [|exact Ht|].
    + unfold numeral. cbn [Text.truthy all_digits]. rewrite Hc, Hd'. reflexivity.
    + intros [|a r] g' Hr; [apply H0|].
      cbn [all_digits] in Hr. apply andb_true_iff in Hr as [Ha _].
      rewrite append_cons. apply Hd. exact Ha.
Qed.

Lemma ago_pattern_found (w n tail rest : string) :
  numeral n = true -> no_digit_head tail = true ->
  run (after_ago w) tail [("1", n)] found = Some ([("1", n)], rest) ->
  search (ago_pattern w) (n ++ tail) = Some [("1", n)].
Proof.
  intros Hn Ht Hk. apply search_hit with (rest := rest).
  rewrite rmatch_ago_pattern. apply run_digits1; assumption.
Qed.

Lemma ago_pattern_not_found_after_in (w n tail : string) :
  numeral n = true -> no_digit_head tail = true ->
  (forall g, run (after_ago w) tail g found = None) ->
  (forall c rest g, Text.is_digit c = true ->
     run (after_ago w) (String c rest) g found = None) ->
  search (ago_pattern w) tail = None ->
  search (ago_pattern w) ("in " ++ n ++ tail) = None.
Proof.
  intros Hn Ht H0 Hd Hs.
  change ("in " ++ n ++ tail)
    with (String "i" (String "n" (String " " (n ++ tail)))).
  rewrite !search_miss by reflexivity.
  apply ago_pattern_not_found; assumption.
Qed.

Lemma digit_not_i (c : ascii) : Text.is_digit c = true -> Ascii.eqb c "i" = false.
Proof.
  intros H. destruct (digit_cases c H) as [<-|[<-|[<-|[<-|[<-|[<-|[<-|[<-|[<-|[<-|[]]]]]]]]]]];
    reflexivity.
Qed.

Lemma in_pattern_found (w n tail rest : string) :
  numeral n = true -> no_digit_head tail = true ->
  run (after_in w) tail [("1", n)] found = Some ([("1", n)], rest) ->
  search (in_pattern w) ("in " ++ n ++ tail) = Some [("1", n)].
Proof.
  intros Hn Ht Hk. apply search_hit with (rest := rest).
  rewrite (rmatch_in_pattern w n tail Hn). apply run_digits1; assumption.
Qed.

Lemma in_pattern_not_found (w n tail : string) :
  numeral n = true -> no_digit_head tail = true ->
  (forall g, run (after_in w) tail g found = None) ->
  (forall c rest g, Text.is_digit c = true ->
     run (after_in w) (String c rest) g found = None) ->
  search (in_pattern w) tail = None ->
  search (in_pattern w) ("in " ++ n ++ tail) = None.
Proof.
  intros Hn Ht H0 Hd Hs.
  assert (H1 : rmatch (in_pattern w) ("in " ++ n ++ tail) = None).
  { rewrite (rmatch_in_pattern w n tail Hn).
    apply run_digits1_none; [exact Hn | exact Ht |].
    intros [|a r] g' Hr; [apply H0|].
    cbn [all_digits] in Hr. apply andb_true_iff in Hr as [Ha _].
    rewrite append_cons. apply Hd. exact Ha. }
  change ("in " ++ n ++ tail)
    with (String "i" (String "n" (String " " (n ++ tail)))) in *.
  rewrite (search_miss _ _ _ H1).
  rewrite !search_miss by reflexivity.
  apply search_numeral; [| |exact Hs].
  - apply andb_true_iff in Hn as [_ Hn]. exact Hn.
  - intros c d' Hc Hd'. rewrite append_cons.
    unfold rmatch, in_pattern. cbn [run word].
    rewrite (digit_not_i c Hc). reflexivity.
Qed.

Lemma numeral_text_no_phrase (n tail : string) :
  numeral n = true -> ~ In (n ++ tail) relative_phrases.
Proof.
  unfold numeral. destruct n as [|c d]; [discriminate|].
  cbn [Text.truthy andb all_digits]. intros [Hc _]%andb_true_iff.
  rewrite append_cons. unfold relative_phrases. cbn [In].
  intros Hin.
  repeat (destruct Hin as [Hin|Hin];
          [injection Hin as Hin _; rewrite <- Hin in Hc; discriminate Hc|]).
  exact Hin.
Qed.

Lemma in_text_no_phrase (n tail : string) :
  ~ In ("in " ++ n ++ tail) relative_phrases.
Proof.
  change ("in " ++ n ++ tail)
    with (String "i" (String "n" (String " " (n ++ tail)))).
  unfold relative_phrases. cbn [In].
  intros Hin.
  repeat (destruct Hin as [Hin|Hin]; [discriminate Hin|]).
  exact Hin.
Qed.

Ltac fails_on_digit :=
  let c := fresh "c" in
  let rest := fresh "rest" in
  let g := fresh "g" in
  let Hc := fresh "Hc" in
  intros c rest g Hc;
  destruct (digit_cases c Hc) as [<-|[<-|[<-|[<-|[<-|[<-|[<-|[<-|[<-|[<-|[]]]]]]]]]]];
  vm_compute; reflexivity.

Ltac side Hn :=
  first [ exact Hn
        | fails_on_digit
        | (intros; vm_compute; reflexivity) ].

Ltac literal t :=
  let v := eval vm_compute in t in change t with v.

Lemma counted_ago_relative (s n : string) (u : unit_) (plural : bool) :
  clock_in_range now plus ->
  numeral n = true -> String.length n <= 4300 ->
  Text.lower s = ago_text n u plural ->
  parse_relative_date now plus s
  = (let* dt := minus plus now u (int_of n) in Return (Some dt)).
Proof.
  intros Hc Hn _ Hs. unfold parse_relative_date. rewrite Hs. unfold ago_text.
  destruct (relative_dates_keys now plus Hc) as (table & -> & Hk).
  cbn [Py.bind]. rewrite (Hk _ (numeral_text_no_phrase _ _ Hn)).
  unfold patterns.
  destruct u, plural;
    match goal with |- context [ago_tail ?a ?b] => literal (ago_tail a b) end;
    cbn [first_pattern];
    try (rewrite (ago_pattern_not_found "day") by side Hn);
    try (rewrite (ago_pattern_not_found "week") by side Hn);
    try (rewrite (ago_pattern_not_found "month") by side Hn);
    first [ rewrite (ago_pattern_found "day" n _ "") by side Hn
          | rewrite (ago_pattern_found "week" n _ "") by side Hn
          | rewrite (ago_pattern_found "month" n _ "") by side Hn
          | rewrite (ago_pattern_found "year" n _ "") by side Hn ];
    reflexivity.
Qed.

Lemma counted_in_relative (s n : string) (u : unit_) (plural : bool) :
  clock_in_range now plus ->
  numeral n = true -> String.length n <= 4300 ->
  Text.lower s = in_text n u plural ->
  parse_relative_date now plus s
  = (let* dt := plus now u (int_of n) in Return (Some dt)).
Proof.
  intros Hc Hn _ Hs. unfold parse_relative_date. rewrite Hs. unfold in_text.
  destruct (relative_dates_keys now plus Hc) as (table & -> & Hk).
  cbn [Py.bind]. rewrite (Hk _ (in_text_no_phrase _ _)).
  unfold patterns.
  destruct u, plural;
    match goal with |- context [in_tail ?a ?b] => literal (in_tail a b) end;
    cbn [first_pattern];
    rewrite (ago_pattern_not_found_after_in "day") by side Hn;
    rewrite (ago_pattern_not_found_after_in "week") by side Hn;
    rewrite (ago_pattern_not_found_after_in "month") by side Hn;
    rewrite (ago_pattern_not_found_after_in "year") by side Hn;
    try (rewrite (in_pattern_not_found "day") by side Hn);
    try (rewrite (in_pattern_not_found "week") by side Hn);
    try (rewrite (in_pattern_not_found "month") by side Hn);
    first [ rewrite (in_pattern_found "day" n _ "") by side Hn
          | rewrite (in_pattern_found "week" n _ "") by side Hn
          | rewrite (in_pattern_found "month" n _ "") by side Hn
          | rewrite (in_pattern_found "year" n _ "") by side Hn ];
    reflexivity.
Qed.

(** X16.  [<n> <unit> ago] and [<n> <unit>s ago], for a numeral [n] of
    at most 4300 digits (the longest Python converts) and each of the
    four units, in any mix of cases and with blanks around, give the
    instant [n] units before the present one: the pattern of the unit is
    the one that is found and the numeral is read whole.  The parser is
    not consulted, and a subtraction that leaves the range of dates
    raises out of [parse_date_string]. *)
Theorem counted_offset_ago (s n : string) (u : unit_) (plural : bool)
        (return_iso include_microseconds : bool) :
  clock_in_range now plus ->
  numeral n = true -> String.length n <= 4300 ->
  Text.lower (Text.strip s) = ago_text n u plural ->
  parse_date_string now plus parse (PStr s) return_iso include_microseconds
  = (let* dt := minus plus now u (int_of n) in
     Return (finish return_iso include_microseconds dt)).
Proof.
  intros Hc Hn Hl Hs. unfold parse_date_string.
  destruct s as [|c s].
  { destruct n; [discriminate Hn | discriminate Hs]. }
  cbn [Text.truthy negb].
  rewrite (counted_ago_relative _ n u plural Hc Hn Hl Hs).
  destruct (minus plus now u (int_of n)); reflexivity.
Qed.

(** X17.  [in <n> <unit>] and [in <n> <unit>s], under the same
    conditions, give the instant [n] units after the present one.  The
    parser is not consulted, and an addition that leaves the range of
    dates raises out of [parse_date_string]. *)
Theorem counted_offset_in (s n : string) (u : unit_) (plural : bool)
        (return_iso include_microseconds : bool) :
  clock_in_range now plus ->
  numeral n = true -> String.length n <= 4300 ->
  Text.lower (Text.strip s) = in_text n u plural ->
  parse_date_string now plus parse (PStr s) return_iso include_microseconds
  = (let* dt := plus now u (int_of n) in
     Return (finish return_iso include_microseconds dt)).
Proof.
  intros Hc Hn Hl Hs. unfold parse_date_string.
  destruct s as [|c s]; [discriminate Hs|].
  cbn [Text.truthy negb].
  rewrite (counted_in_relative _ n u plural Hc Hn Hl Hs).
  destruct (plus now u (int_of n)); reflexivity.
Qed.

End OffsetCoverage.

Section OffsetExamples.
Import Py Datetime Values Regex DatetimeConverter SampleEnv.

Lemma counted_offset_ago_witness :
  parse_date_string noon relativedelta_plus parse_iso_date (PStr " 10 Days ago") false true
  = Return (Some (AsDatetime (Dt 2024 6 5 12 0 0 0 None)))
  /\ parse_date_string noon relativedelta_plus parse_iso_date (PStr "10000 years ago")
       false true
     = Raise (Exn ValueError "year -7976 is out of range").
Proof.
  split.
  - exact (counted_offset_ago noon relativedelta_plus parse_iso_date
             " 10 Days ago" "10" Days true false true noon_in_range eq_refl
             ltac:(vm_compute; lia) eq_refl).
  - exact (counted_offset_ago noon relativedelta_plus parse_iso_date
             "10000 years ago" "10000" Years true false true noon_in_range eq_refl
             ltac:(vm_compute; lia) eq_refl).
Defined.

Lemma counted_offset_in_witness :
  parse_date_string noon relativedelta_plus parse_iso_date (PStr "in 2 months") true true
  = Return (Some (AsIso "2024-08-15T12:00:00")).
Proof.
  exact (counted_offset_in noon relativedelta_plus parse_iso_date
           "in 2 months" "2" Months true true true noon_in_range eq_refl
           ltac:(vm_compute; lia) eq_refl).
Defined.

End OffsetExamples.

(** the projections and the updaters of the state of the manager, unfolded *)
Ltac unfold_state :=
  cbv [LoggerManager.set_self LoggerManager.set_logger
       LoggerManager.set_print LoggerManager.with_handler_ids
       LoggerManager.with_extra_handlers LoggerManager.with_print_redirected
       LoggerManager.with_filter_func LoggerManager.with_exception_handler
       LoggerManager.self LoggerManager.logger LoggerManager.builtins_print
       LoggerManager.handlers LoggerManager.handlers_count
       LoggerManager.log_name LoggerManager.log_file_path LoggerManager.level
       LoggerManager.retention LoggerManager.rotation
       LoggerManager.json_format LoggerManager.mode
       LoggerManager.console_level LoggerManager.enable_print_redirect
       LoggerManager.enable_exception_logging LoggerManager.custom_format
       LoggerManager.colorize LoggerManager.backtrace LoggerManager.diagnose
       LoggerManager.catch_exceptions LoggerManager.extra_handlers
       LoggerManager.filter_func LoggerManager._original_print
       LoggerManager._print_redirected LoggerManager._handler_ids
       LoggerManager.exception_handler].

Ltac unfold_state_in H :=
  cbv [LoggerManager.set_self LoggerManager.set_logger
       LoggerManager.set_print LoggerManager.with_handler_ids
       LoggerManager.with_extra_handlers LoggerManager.with_print_redirected
       LoggerManager.with_filter_func LoggerManager.with_exception_handler
       LoggerManager.self LoggerManager.logger LoggerManager.builtins_print
       LoggerManager.handlers LoggerManager.handlers_count
       LoggerManager.log_name LoggerManager.log_file_path LoggerManager.level
       LoggerManager.retention LoggerManager.rotation
       LoggerManager.json_format LoggerManager.mode
       LoggerManager.console_level LoggerManager.enable_print_redirect
       LoggerManager.enable_exception_logging LoggerManager.custom_format
       LoggerManager.colorize LoggerManager.backtrace LoggerManager.diagnose
       LoggerManager.catch_exceptions LoggerManager.extra_handlers
       LoggerManager.filter_func LoggerManager._original_print
       LoggerManager._print_redirected LoggerManager._handler_ids
       LoggerManager.exception_handler] in H.

(** ** The logging manager: what construction, clean-up and a change of
    filter leave behind *)

Section LoggerCoverage.
Import Py LoggerManager.

Variable refusal : gmap string kwval -> option (exn * bool).
Variable mkdir_error : string -> option exn.

Lemma register_lookup (hs : list (gmap string kwval)) :
  forall c reg i,
    register c hs reg !! i
    = if decide (c <= i < c + length hs) then hs !! (i - c) else reg !! i.
Proof.
  induction hs as [|h hs IH]; intros c reg i; cbn [register length].
  - destruct (decide (c <= i < c + 0)) as [H|H]; [lia | reflexivity].
  - rewrite IH.
    destruct (decide (S c <= i < S c + length hs)) as [H1|H1];
      destruct (decide (c <= i < c + S (length hs))) as [H2|H2]; try lia.
    + replace (i - c) with (S (i - S c)) by lia. reflexivity.
    + assert (i = c) as -> by lia. rewrite Nat.sub_diag. apply lookup_insert_eq.
    + apply lookup_insert_ne. lia.
Qed.

Lemma unregister_lookup (ids : list nat) :
  forall reg i,
    unregister ids reg !! i = if bool_decide (i ∈ ids) then None else reg !! i.
Proof.
  induction ids as [|j ids IH]; intros reg i; cbn [unregister].
  - rewrite bool_decide_eq_false_2 by apply not_elem_of_nil. reflexivity.
  - rewrite IH. destruct (decide (i ∈ ids)) as [Hin|Hin].
    + rewrite !bool_decide_eq_true_2; [reflexivity | right; exact Hin | exact Hin].
    + rewrite (bool_decide_eq_false_2 _ Hin).
      destruct (decide (i = j)) as [->|Hne].
      * rewrite bool_decide_eq_true_2 by left. apply lookup_delete_eq.
      * rewrite bool_decide_eq_false_2.
        { apply lookup_delete_ne. congruence. }
        intros H. apply elem_of_cons in H as [H|H]; [exact (Hne H) | exact (Hin H)].
Qed.

(** *** When the backend takes a handler, and when it does not *)

Lemma logger_add_accepted (kw : gmap string kwval) (st : state) :
  accepts refusal kw ->
  logger_add refusal kw st
  = (Return (handlers_count (logger st)),
     set_logger (Loguru (<[handlers_count (logger st) := kw]> (handlers (logger st)))
                        (S (handlers_count (logger st)))) st).
Proof. intros [[x Hx] Hr]. unfold logger_add. rewrite Hx, Hr. reflexivity. Qed.

Lemma logger_add_returned (kw : gmap string kwval) (st : state) (id : nat) :
  fst (logger_add refusal kw st) = Return id -> accepts refusal kw.
Proof.
  unfold logger_add, accepts. destruct (kw !! "sink"); [|discriminate].
  destruct (refusal kw) as [[e t]|]; [discriminate|]. intros _. split; eauto.
Qed.

Lemma add_extra_handlers_spec (todo : list (gmap string kwval)) :
  forall done st,
    Forall (fun h => accepts refusal (fill_filter (filter_func (self st)) h)) todo ->
    extra_handlers (self st) = (done ++ todo)%list ->
    add_extra_handlers refusal todo done st
    = (Return tt,
       set_self
         (with_handler_ids
            (_handler_ids (self st) ++ List.seq (handlers_count (logger st)) (length todo))
            (with_extra_handlers
               (done ++ map (fill_filter (filter_func (self st))) todo) (self st)))
         (set_logger
            (Loguru (register (handlers_count (logger st))
                       (map (fill_filter (filter_func (self st))) todo)
                       (handlers (logger st)))
                    (handlers_count (logger st) + length todo))
            st)).
Proof.
  induction todo as [|h todo IH]; intros done st Hacc Hx.
  - destruct st as [[hd c] p m]. destruct m. unfold_state. unfold_state_in Hx.
    subst. rewrite !app_nil_r, Nat.add_0_r. reflexivity.
  - apply Forall_cons in Hacc as [Hh Hacc].
    cbn [add_extra_handlers]. unfold seq at 1, modify. cbv beta iota.
    unfold seq at 1. rewrite (logger_add_accepted _ _ Hh). cbv beta iota zeta.
    unfold seq at 1, append_handler_id, modify. cbv beta iota.
    rewrite IH.
    + destruct st as [[hd c] p m]. destruct m. unfold_state.
      cbn [map length List.seq register].
      rewrite <- !app_assoc. cbn [app].
      replace (S c + length todo) with (c + S (length todo)) by lia.
      reflexivity.
    + exact Hacc.
    + destruct st as [[hd c] p m]. destruct m. unfold_state.
      unfold_state_in Hx. rewrite <- app_assoc. reflexivity.
Qed.

Lemma add_extra_handlers_returned (todo : list (gmap string kwval)) :
  forall done st,
    fst (add_extra_handlers refusal todo done st) = Return tt ->
    Forall (fun h => accepts refusal (fill_filter (filter_func (self st)) h)) todo.
Proof.
  induction todo as [|h todo IH]; intros done st H; [constructor|].
  cbn [add_extra_handlers] in H. unfold seq at 1, modify in H. cbv beta iota in H.
  unfold seq at 1 in H.
  match type of H with
  | context [logger_add refusal ?kw ?s] =>
    destruct (logger_add refusal kw s) as [[id|e] st2] eqn:E; [|discriminate H];
    assert (Hh : accepts refusal kw) by (apply (logger_add_returned kw s id); rewrite E; reflexivity);
    rewrite (logger_add_accepted kw s Hh) in E; injection E as <- <-
  end.
  constructor; [exact Hh|].
  unfold seq at 1, append_handler_id, modify in H. cbv beta iota in H.
  exact (IH _ _ H).
Qed.

Lemma init_unfold (a : init_args) (l : loguru) (p : printer) :
  __init__ refusal mkdir_error a l p
  = _setup_logger refusal mkdir_error (before_setup a l p).
Proof. reflexivity. Qed.

Lemma setup_logger_spec (st : state) :
  setup_accepted refusal mkdir_error st ->
  _setup_logger refusal mkdir_error st = (Return tt, after_setup st).
Proof.
  intros (Hc & Hm & Hf & Hx). cbv zeta in *.
  unfold _setup_logger.
  unfold seq at 1. unfold logger_remove at 1. cbv beta iota zeta.
  unfold seq at 1. unfold seq at 1. rewrite (logger_add_accepted _ _ Hc).
  unfold append_handler_id at 1, modify. cbv beta iota zeta.
  unfold seq at 1. unfold mkdir_parent at 1.
  change (log_file_path (self (set_self _ _))) with (log_file_path (self st)).
  rewrite Hm.
  unfold seq at 1. unfold seq at 1. rewrite (logger_add_accepted _ _ Hf).
  unfold append_handler_id at 1, modify. cbv beta iota zeta.
  unfold seq at 1. rewrite add_extra_handlers_spec; [|exact Hx|reflexivity].
  unfold seq at 1. unfold _redirect_print, _setup_exception_logging, ret, after_setup.
  destruct st as [[hd c] p m]. destruct m. unfold_state. cbv zeta.
  cbn [app List.seq Nat.add]. rewrite <- !app_assoc. cbn [app].
  destruct enable_print_redirect0, _print_redirected0,
    enable_exception_logging0, catch_exceptions0, exception_handler0;
    reflexivity.
Qed.

Ltac add_step H Hacc :=
  match type of H with
  | context [logger_add refusal ?kw ?s] =>
    let id := fresh "id" in
    let e := fresh "e" in
    let st2 := fresh "st" in
    let E := fresh "E" in
    destruct (logger_add refusal kw s) as [[id|e] st2] eqn:E; [|discriminate H];
    assert (Hacc : accepts refusal kw)
      by (apply (logger_add_returned kw s id); rewrite E; reflexivity);
    rewrite (logger_add_accepted kw s Hacc) in E; injection E as <- <-
  end.

Lemma setup_logger_returned (st : state) :
  fst (_setup_logger refusal mkdir_error st) = Return tt ->
  setup_accepted refusal mkdir_error st.
Proof.
  intros H. unfold _setup_logger in H.
  unfold seq at 1 in H. unfold logger_remove at 1 in H. cbv beta iota zeta in H.
  unfold seq at 1 in H. unfold seq at 1 in H. add_step H Hc.
  unfold append_handler_id at 1, modify in H. cbv beta iota zeta in H.
  unfold seq at 1 in H. unfold mkdir_parent at 1 in H.
  match type of H with
  | context [mkdir_error ?p] => destruct (mkdir_error p) eqn:Hm; [discriminate H|]
  end.
  unfold seq at 1 in H. unfold seq at 1 in H. add_step H Hf.
  unfold append_handler_id at 1, modify in H. cbv beta iota zeta in H.
  unfold seq at 1 in H.
  match type of H with
  | context [add_extra_handlers refusal ?todo ?done ?s] =>
    destruct (add_extra_handlers refusal todo done s) as [[[]|e] st5] eqn:E;
      [|discriminate H];
    assert (Hx := add_extra_handlers_returned todo done s
                    ltac:(rewrite E; reflexivity))
  end.
  unfold setup_accepted. cbv zeta.
  split; [exact Hc|]. split; [exact Hm|]. split; [exact Hf|]. exact Hx.
Qed.

Lemma setup_logger_returns (st : state) :
  fst (_setup_logger refusal mkdir_error st) = Return tt ->
  snd (_setup_logger refusal mkdir_error st) = after_setup st.
Proof.
  intros H. rewrite (setup_logger_spec st (setup_logger_returned st H)). reflexivity.
Qed.

Lemma remove_all_spec (ids : list nat) :
  forall st,
    remove_all ids st
    = (Return tt,
       set_logger (Loguru (unregister ids (handlers (logger st)))
                          (handlers_count (logger st))) st).
Proof.
  induction ids as [|i ids IH]; intros st.
  - destruct st as [[hd c] p m]. reflexivity.
  - cbn [remove_all unregister]. unfold seq, except_ValueError_pass, logger_remove.
    destruct (handlers (logger st) !! i) as [kw|] eqn:E.
    + rewrite IH. destruct st as [[hd c] p m]. reflexivity.
    + change (isinstance_ValueError (no_such_handler i)) with true. cbv iota.
      rewrite IH, (delete_id _ _ E). reflexivity.
Qed.

Lemma cleanup_spec (st : state) : cleanup st = (Return tt, after_cleanup st).
Proof.
  unfold cleanup. unfold seq at 1. rewrite remove_all_spec.
  unfold seq, modify, restore_print, after_cleanup.
  destruct st as [[hd c] p m]. destruct m. unfold_state. cbv zeta.
  destruct _print_redirected0; reflexivity.
Qed.

Lemma set_filter_unfold (f : option callable) (st : state) :
  set_filter refusal mkdir_error f st
  = _setup_logger refusal mkdir_error
      (after_cleanup (set_self (with_filter_func f (self st)) st)).
Proof.
  unfold set_filter. unfold seq at 1. unfold modify. cbv beta iota.
  unfold seq at 1. rewrite cleanup_spec. reflexivity.
Qed.

Lemma setup_registry (c : nat) (console file : gmap string kwval)
      (hs : list (gmap string kwval)) :
  let reg := register (S (S c)) hs (<[S c := file]> (<[c := console]> ∅)) in
  (forall i, i < c \/ c + 2 + length hs <= i -> reg !! i = None)
  /\ reg !! c = Some console
  /\ reg !! (c + 1) = Some file
  /\ forall i, reg !! (c + 2 + i) = hs !! i.
Proof.
  cbv zeta. repeat split.
  - intros i Hi. rewrite register_lookup.
    destruct (decide (S (S c) <= i < S (S c) + length hs)); [lia|].
    rewrite !lookup_insert_ne by lia. apply lookup_empty.
  - rewrite register_lookup.
    destruct (decide (S (S c) <= c < S (S c) + length hs)); [lia|].
    rewrite lookup_insert_ne by lia. apply lookup_insert_eq.
  - rewrite register_lookup.
    destruct (decide (S (S c) <= c + 1 < S (S c) + length hs)); [lia|].
    replace (c + 1) with (S c) by lia. apply lookup_insert_eq.
  - intros i. rewrite register_lookup.
    destruct (decide (S (S c) <= c + 2 + i < S (S c) + length hs)) as [H|H].
    + f_equal. lia.
    + rewrite !lookup_insert_ne by lia. rewrite lookup_empty.
      symmetry. apply lookup_ge_None_2. lia.
Qed.

(** X18.  What construction leaves behind.  Whether it returns or
    raises, [LoggerManager(...)] has removed every handler the backend
    had, whoever had added it.  It returns exactly when the backend
    takes the console handler, the directory of the log file can be
    made, and the backend takes the file handler and every extra
    handler; and then it has registered these handlers, in this order,
    under the next identifiers of the backend -- an extra handler with
    the manager's filter unless it has its own -- and tracks exactly
    these identifiers. *)
Theorem construction_registers (a : init_args) (l : loguru) (p : printer) :
  let st := snd (__init__ refusal mkdir_error a l p) in
  let c := handlers_count l in
  let extras := default [] (a_extra_handlers a) in
  (forall i, i < c -> handlers (logger st) !! i = None)
  /\ (fst (__init__ refusal mkdir_error a l p) = Return tt
      <-> setup_accepted refusal mkdir_error (before_setup a l p))
  /\ (fst (__init__ refusal mkdir_error a l p) = Return tt ->
      _handler_ids (self st) = List.seq c (2 + length extras)
      /\ handlers_count (logger st) = c + 2 + length extras
      /\ (forall i, c + 2 + length extras <= i -> handlers (logger st) !! i = None)
      /\ handlers (logger st) !! c = Some (console_kwargs (self st))
      /\ handlers (logger st) !! (c + 1) = Some (file_kwargs (self st))
      /\ forall i h, extras !! i = Some h ->
           handlers (logger st) !! (c + 2 + i)
           = Some (fill_filter (a_filter_func a) h)).
Proof.
  cbv zeta. rewrite init_unfold. split; [|split].
  - intros i Hi.
    destruct (setup_logger_above refusal mkdir_error (handlers_count l)
                (before_setup a l p) eq_refl) as [_ H].
    apply H. exact Hi.
  - split; [apply setup_logger_returned|].
    intros H. rewrite (setup_logger_spec _ H). reflexivity.
  - intros H. rewrite (setup_logger_returns _ H).
    unfold after_setup, before_setup. unfold_state. cbv zeta.
    match goal with
    | |- context [register (S (S ?c)) ?hs (<[S ?c := ?file]> (<[?c := ?console]> ∅))] =>
      destruct (setup_registry c console file hs) as (Hout & Hc & Hf & Hx)
    end.
    rewrite length_map in Hout.
    split; [reflexivity|]. split; [lia|].
    split; [intros i Hi; apply Hout; lia|]. split; [exact Hc|]. split; [exact Hf|].
    intros i h Hi. rewrite Hx, list_lookup_fmap, Hi. reflexivity.
Qed.

(** X19.  What [cleanup] leaves behind: it always returns; afterwards the
    manager tracks no identifier, every handler it tracked is gone from
    the backend and every other handler is still there, the counter of
    the backend has not moved, and [print] is the original one if the
    manager had redirected it.  A second [cleanup] changes nothing. *)
Theorem cleanup_postcondition (st : state) :
  let st' := snd (cleanup st) in
  fst (cleanup st) = Return tt
  /\ _handler_ids (self st') = []
  /\ (forall i, handlers (logger st') !! i
               = if bool_decide (i ∈ _handler_ids (self st)) then None
                 else handlers (logger st) !! i)
  /\ handlers_count (logger st') = handlers_count (logger st)
  /\ _print_redirected (self st') = false
  /\ builtins_print st'
     = (if _print_redirected (self st) then _original_print (self st)
        else builtins_print st)
  /\ cleanup st' = (Return tt, st').
Proof.
  cbv zeta. rewrite cleanup_spec. cbn [fst snd].
  split; [reflexivity|]. split; [reflexivity|].
  split; [intros i; unfold after_cleanup; unfold_state; apply unregister_lookup|].
  split; [reflexivity|]. split; [reflexivity|]. split; [reflexivity|].
  rewrite cleanup_spec. reflexivity.
Qed.


(** *** What every state of a manager has in common *)

Lemma well_formed_setup (st : state) :
  well_formed st -> well_formed (after_setup st).
Proof.
  intros [Hb Ht]. unfold well_formed, backend_ok, after_setup.
  unfold_state. unfold_state_in Ht. cbv zeta.
  match goal with
  | |- context [register (S (S ?c)) ?hs (<[S ?c := ?file]> (<[?c := ?console]> ∅))] =>
    destruct (setup_registry c console file hs) as (Hout & _)
  end.
  rewrite length_map in Hout. split.
  - intros i Hi. apply Hout. lia.
  - intros i Hi. apply elem_of_app in Hi as [Hi|Hi].
    + specialize (Ht i Hi). lia.
    + apply elem_of_seq in Hi. lia.
Qed.

Lemma well_formed_cleanup (st : state) :
  well_formed st -> well_formed (after_cleanup st).
Proof.
  intros [Hb Ht]. unfold well_formed, backend_ok, after_cleanup.
  unfold_state. unfold_state_in Hb. split.
  - intros i Hi. rewrite unregister_lookup.
    destruct (bool_decide _); [reflexivity | apply Hb; exact Hi].
  - intros i Hi. apply elem_of_nil in Hi. contradiction.
Qed.

Lemma list_remove_subset (x i : nat) (l : list nat) :
  i ∈ list_remove x l -> i ∈ l.
Proof.
  induction l as [|y l IH]; cbn [list_remove]; [intros H; exact H|].
  destruct (Nat.eqb x y).
  - intros H. right. exact H.
  - intros H. apply elem_of_cons in H as [->|H]; [left | right; apply IH; exact H].
Qed.

Lemma list_remove_last (x : nat) (l : list nat) :
  x ∉ l -> list_remove x (l ++ [x]) = l.
Proof.
  induction l as [|y l IH]; intros Hx; cbn [app list_remove].
  - rewrite Nat.eqb_refl. reflexivity.
  - destruct (Nat.eqb_spec x y) as [->|Hne].
    + contradiction Hx. left.
    + rewrite IH; [reflexivity|]. intros H. apply Hx. right. exact H.
Qed.


Ltac well_formed_cases Hb Ht :=
  unfold well_formed, backend_ok in *;
  unfold_state; unfold_state_in Hb; unfold_state_in Ht;
  split;
  [ let i := fresh "i" in let Hi := fresh "Hi" in
    intros i Hi; rewrite ?lookup_insert_ne by lia; apply Hb; lia
  | let i := fresh "i" in let Hi := fresh "Hi" in
    intros i Hi;
    try (apply elem_of_app in Hi as [Hi|Hi];
         [|apply list_elem_of_singleton in Hi; lia]);
    specialize (Ht i Hi); lia ].

Lemma well_formed_add_and_append (kw : manager -> gmap string kwval) :
  preserves well_formed
    (fun st => (do handler_id := logger_add refusal (kw (self st)) in
                append_handler_id handler_id) st).
Proof.
  intros st [Hb Ht]. unfold seq, logger_add, append_handler_id, modify.
  destruct (kw (self st) !! "sink"); [|split; assumption].
  destruct (refusal (kw (self st))) as [[e []]|]; cbn [snd];
    well_formed_cases Hb Ht.
Qed.

Lemma well_formed_extras (todo : list (gmap string kwval)) :
  forall done, preserves well_formed (add_extra_handlers refusal todo done).
Proof.
  induction todo as [|h todo IH]; intros done st Hwf; [exact Hwf|].
  cbn [add_extra_handlers]. unfold seq at 1, modify. cbv beta iota.
  unfold seq at 1, logger_add.
  match goal with
  | |- context [fill_filter ?f h] => set (h' := fill_filter f h)
  end.
  destruct Hwf as [Hb Ht].
  change (logger (set_self _ st)) with (logger st). cbv zeta.
  destruct (h' !! "sink") eqn:Hs.
  - destruct (refusal h') as [[e []]|] eqn:Hr; cbv beta iota.
    + cbn [snd]. well_formed_cases Hb Ht.
    + cbn [snd]. well_formed_cases Hb Ht.
    + unfold seq at 1, append_handler_id, modify. cbv beta iota.
      apply IH. well_formed_cases Hb Ht.
  - cbn [snd]. well_formed_cases Hb Ht.
Qed.

Lemma well_formed_setup_logger :
  preserves well_formed (_setup_logger refusal mkdir_error).
Proof.
  unfold _setup_logger.
  apply preserves_seq.
  { intros st [Hb Ht]. unfold logger_remove. cbn [snd].
    unfold well_formed, backend_ok in *. unfold_state. unfold_state_in Ht.
    split; [intros i _; apply lookup_empty | exact Ht]. }
  intros _. apply preserves_seq; [apply well_formed_add_and_append|]. intros _.
  apply preserves_seq.
  { intros st H. unfold mkdir_parent.
    destruct (mkdir_error (log_file_path (self st))); exact H. }
  intros _. apply preserves_seq; [apply well_formed_add_and_append|]. intros _.
  apply preserves_seq.
  { apply (preserves_read well_formed
             (fun s => add_extra_handlers refusal (extra_handlers (self s)) [])).
    intros s. apply well_formed_extras. }
  intros _. apply preserves_seq.
  { intros s H. destruct (enable_print_redirect (self s)); [|exact H].
    unfold _redirect_print. destruct (_print_redirected (self s)); exact H. }
  intros _ s H. destruct (enable_exception_logging (self s)); [|exact H].
  unfold _setup_exception_logging. destruct (catch_exceptions (self s)); exact H.
Qed.

Lemma reachable_well_formed (st : state) :
  reachable refusal mkdir_error st -> well_formed st.
Proof.
  induction 1 as [a l p Hl | kw st _ IH | h st _ [Hb Ht] | st _ IH
                  | f st _ IH | st _ [Hb Ht]].
  - rewrite init_unfold. apply well_formed_setup_logger. split; [exact Hl|].
    intros i Hi. apply elem_of_nil in Hi. contradiction.
  - destruct IH as [Hb Ht].
    unfold add_handler, seq, logger_add, append_handler_id, modify, ret.
    match goal with
    | |- context [fill_filter ?f kw] => set (kw' := fill_filter f kw)
    end.
    destruct (kw' !! "sink"); [|split; assumption].
    destruct (refusal kw') as [[e []]|]; cbn [snd]; well_formed_cases Hb Ht.
  - unfold remove_handler, seq, logger_remove.
    destruct (handlers (logger st) !! h) eqn:E; [|split; assumption].
    destruct (bool_decide _); cbn [snd];
      unfold well_formed, backend_ok in *;
      unfold_state; unfold_state_in Hb; unfold_state_in Ht; split.
    + intros i Hi. destruct (decide (i = h)) as [->|Hne];
        [apply lookup_delete_eq | rewrite lookup_delete_ne by congruence; apply Hb; exact Hi].
    + intros i Hi. apply Ht. apply (list_remove_subset h). exact Hi.
    + intros i Hi. destruct (decide (i = h)) as [->|Hne];
        [apply lookup_delete_eq | rewrite lookup_delete_ne by congruence; apply Hb; exact Hi].
    + exact Ht.
  - rewrite cleanup_spec. apply well_formed_cleanup. exact IH.
  - rewrite set_filter_unfold. apply well_formed_setup_logger.
    apply well_formed_cleanup. exact IH.
  - unfold restore_print. destruct (_print_redirected (self st)); split; assumption.
Qed.

(** X20.  Round trip of a handler: on a manager in any state it can be
    in, an [add_handler] that returns has returned an identifier that
    was not in use and that the manager did not track, has registered
    the handler under it -- with the manager's filter unless the
    handler has its own -- and tracks it; [remove_handler] on that
    identifier then returns and gives back the registry and the tracked
    identifiers as they were, only the counter of the backend has moved
    on.  An [add_handler] that raises -- the handler has no sink, or the
    backend refuses it -- registers and tracks nothing. *)
Theorem add_then_remove (kw : gmap string kwval) (st : state) :
  reachable refusal mkdir_error st ->
  let st1 := snd (add_handler refusal kw st) in
  (forall id, fst (add_handler refusal kw st) = Return id ->
     id = handlers_count (logger st)
     /\ handlers (logger st) !! id = None
     /\ (id ∉ _handler_ids (self st))
     /\ handlers (logger st1) !! id = Some (fill_filter (filter_func (self st)) kw)
     /\ _handler_ids (self st1) = (_handler_ids (self st) ++ [id])%list
     /\ remove_handler id st1
        = (Return tt, set_logger (Loguru (handlers (logger st)) (S id)) st))
  /\ (forall e, fst (add_handler refusal kw st) = Raise e ->
      handlers (logger st1) = handlers (logger st)
      /\ _handler_ids (self st1) = _handler_ids (self st)).
Proof.
  intros Hr. destruct (reachable_well_formed st Hr) as [Hb Ht]. cbv zeta.
  assert (Hfree : handlers (logger st) !! handlers_count (logger st) = None)
    by (apply Hb; lia).
  assert (Hnew : handlers_count (logger st) ∉ _handler_ids (self st))
    by (intros H; specialize (Ht _ H); lia).
  split.
  - intros id Hret.
    assert (Hacc : accepts refusal (fill_filter (filter_func (self st)) kw)).
    { unfold add_handler, seq in Hret.
      destruct (logger_add refusal (fill_filter (filter_func (self st)) kw) st)
        as [[i|e] s2] eqn:E; [|discriminate Hret].
      apply (logger_add_returned _ st i). rewrite E. reflexivity. }
    revert Hret. unfold add_handler, seq. rewrite (logger_add_accepted _ _ Hacc).
    unfold append_handler_id, modify, ret. cbn [fst snd]. intros [= <-].
    split; [reflexivity|]. split; [exact Hfree|]. split; [exact Hnew|].
    split; [unfold_state; apply lookup_insert_eq|]. split; [reflexivity|].
    unfold remove_handler, seq, logger_remove.
    destruct st as [[hd c] p m]. destruct m. unfold_state. unfold_state_in Hfree.
    unfold_state_in Hnew.
    rewrite lookup_insert_eq. cbv iota beta.
    rewrite bool_decide_eq_true_2 by (apply elem_of_app; right; left).
    rewrite (delete_insert_id _ _ _ Hfree), (list_remove_last _ _ Hnew). reflexivity.
  - intros e. unfold add_handler, seq, logger_add.
    destruct (fill_filter (filter_func (self st)) kw !! "sink");
      [|intros _; split; reflexivity].
    destruct (refusal (fill_filter (filter_func (self st)) kw)) as [[e' t]|];
      cbn [fst snd]; [intros _; split; reflexivity | discriminate].
Qed.

Lemma fill_filter_absorb (f : option callable) (h : gmap string kwval) :
  is_Some (h !! "filter") -> fill_filter f h = h.
Proof. intros [x Hx]. unfold fill_filter. rewrite Hx. reflexivity. Qed.


Lemma set_filter_registry (f : option callable) (st : state) :
  fst (set_filter refusal mkdir_error f st) = Return tt ->
  let st' := snd (set_filter refusal mkdir_error f st) in
  let c := handlers_count (logger st) in
  let extras := extra_handlers (self st) in
  filter_func (self st') = f
  /\ _handler_ids (self st') = List.seq c (2 + length extras)
  /\ (forall i, i < c \/ c + 2 + length extras <= i -> handlers (logger st') !! i = None)
  /\ handlers (logger st') !! c = Some (console_kwargs (self st'))
  /\ handlers (logger st') !! (c + 1) = Some (file_kwargs (self st'))
  /\ forall i, handlers (logger st') !! (c + 2 + i) = fill_filter f <$> extras !! i.
Proof.
  cbv zeta. rewrite set_filter_unfold. intros H. rewrite (setup_logger_returns _ H).
  unfold after_setup, after_cleanup. unfold_state. cbv zeta.
  match goal with
  | |- context [register (S (S ?c)) ?hs (<[S ?c := ?file]> (<[?c := ?console]> ∅))] =>
    destruct (setup_registry c console file hs) as (Hout & Hc & Hf & Hx)
  end.
  rewrite length_map in Hout.
  split; [reflexivity|]. split; [reflexivity|]. split; [exact Hout|].
  split; [exact Hc|]. split; [exact Hf|].
  intros i. rewrite Hx, list_lookup_fmap. reflexivity.
Qed.

(** X21.  What a change of filter does.  Whether it returns or raises,
    [set_filter] has dropped every handler the backend had, those added
    with [add_handler] included.  When it returns, it has registered
    the console, file and extra handlers anew under fresh identifiers,
    which are the ones the manager then tracks; the console and the
    file handler carry the new filter; an extra handler gets it only if
    it has no filter yet. *)
Theorem set_filter_rebuilds (f : option callable) (st : state) :
  let st' := snd (set_filter refusal mkdir_error f st) in
  let c := handlers_count (logger st) in
  let extras := extra_handlers (self st) in
  (forall i, i < c -> handlers (logger st') !! i = None)
  /\ (fst (set_filter refusal mkdir_error f st) = Return tt ->
      filter_func (self st') = f
      /\ _handler_ids (self st') = List.seq c (2 + length extras)
      /\ (forall i, c + 2 + length extras <= i -> handlers (logger st') !! i = None)
      /\ (exists kw, handlers (logger st') !! c = Some kw
                     /\ kw !! "sink" = Some (KSink Stdout)
                     /\ kw !! "filter" = Some (KCallable f))
      /\ (exists kw, handlers (logger st') !! (c + 1) = Some kw
                     /\ kw !! "sink" = Some (KSink (File (log_file_path (self st))))
                     /\ kw !! "filter" = Some (KCallable f))
      /\ (forall i h, extras !! i = Some h ->
            handlers (logger st') !! (c + 2 + i)
            = Some (match h !! "filter" with
                    | Some _ => h
                    | None => fill_filter f h
                    end))).
Proof.
  cbv zeta. split.
  - intros i Hi. apply set_filter_invalidates. exact Hi.
  - intros Hret.
    destruct (set_filter_registry f st Hret) as (Hf & Hids & Hout & Hc & Hfile & Hx).
    cbv zeta in *.
    split; [exact Hf|]. split; [exact Hids|].
    split; [intros i Hi; apply Hout; lia|].
    split; [|split].
    + eexists. split; [exact Hc|]. unfold console_kwargs. rewrite Hf.
      split; reflexivity.
    + eexists. split; [exact Hfile|]. unfold file_kwargs. rewrite Hf.
      rewrite set_filter_unfold in *. rewrite (setup_logger_returns _ Hret).
      split; reflexivity.
    + intros i h Hi. rewrite Hx, Hi. cbn [fmap option_fmap option_map]. f_equal.
      destruct (h !! "filter") eqn:E; [|reflexivity].
      apply fill_filter_absorb. rewrite E. eauto.
Qed.

(** X22.  A filter written into an extra handler stays there: when the
    manager is built under a filter [g] and construction returns, an
    extra handler without a filter of its own is registered with [g],
    and after any later [set_filter f] that returns it is registered
    again with [g], not with [f] -- also when [f] is [None] -- while
    the manager's own filter, and that of the console handler, is [f]. *)
Theorem stale_extra_filters (a : init_args) (l : loguru) (p : printer)
        (g : callable) (f : option callable) (i : nat) (h : gmap string kwval) :
  a_filter_func a = Some g ->
  default [] (a_extra_handlers a) !! i = Some h ->
  h !! "filter" = None ->
  let st := snd (__init__ refusal mkdir_error a l p) in
  let st' := snd (set_filter refusal mkdir_error f st) in
  fst (__init__ refusal mkdir_error a l p) = Return tt ->
  fst (set_filter refusal mkdir_error f st) = Return tt ->
  handlers (logger st) !! (handlers_count l + 2 + i)
  = Some (<["filter" := KCallable (Some g)]> h)
  /\ handlers (logger st') !! (handlers_count (logger st) + 2 + i)
     = Some (<["filter" := KCallable (Some g)]> h)
  /\ filter_func (self st') = f
  /\ exists kw, handlers (logger st') !! handlers_count (logger st) = Some kw
                /\ kw !! "filter" = Some (KCallable f).
Proof.
  intros Hg Hi Hh. cbv zeta. intros Hinit Hset.
  destruct (set_filter_registry f _ Hset) as (Hf & _ & _ & Hc & _ & Hx).
  cbv zeta in *.
  assert (Hfill : fill_filter (Some g) h = <["filter" := KCallable (Some g)]> h)
    by (unfold fill_filter; rewrite Hh; reflexivity).
  rewrite init_unfold in *.
  assert (Hext : extra_handlers (self (snd (_setup_logger refusal mkdir_error
                                              (before_setup a l p)))) !! i
                 = Some (<["filter" := KCallable (Some g)]> h)).
  { rewrite (setup_logger_returns _ Hinit).
    unfold after_setup, before_setup. unfold_state. cbv zeta.
    rewrite list_lookup_fmap, Hi, Hg. cbn [fmap option_fmap option_map].
    rewrite Hfill. reflexivity. }
  split; [|split; [|split]].
  - rewrite (setup_logger_returns _ Hinit).
    unfold after_setup, before_setup. unfold_state. cbv zeta.
    match goal with
    | |- context [register (S (S ?c)) ?hs (<[S ?c := ?file]> (<[?c := ?console]> ∅))] =>
      destruct (setup_registry c console file hs) as (_ & _ & _ & Hreg)
    end.
    rewrite Hreg, list_lookup_fmap, Hi, Hg. cbn [fmap option_fmap option_map].
    rewrite Hfill. reflexivity.
  - rewrite Hx, Hext. cbn [fmap option_fmap option_map]. f_equal.
    apply fill_filter_absorb. rewrite lookup_insert_eq. eauto.
  - exact Hf.
  - eexists. split; [exact Hc|]. unfold console_kwargs. rewrite Hf. reflexivity.
Qed.

(** *** The context manager, finalisation, and an argument without effect *)

Import LoggerLifecycle.

Lemma flush_each_fine (complete : state -> outcome unit) (st : state) (ids : list nat) :
  (forall e, complete st = Raise e -> isinstance_Exception e = true) ->
  flush_each complete ids st = (Return tt, st).
Proof.
  intros Hc. induction ids as [|i ids IH]; [reflexivity|].
  cbn [flush_each]. unfold seq, complete_quietly.
  destruct (complete st) as [[]|e] eqn:E; [exact IH|].
  rewrite (Hc e eq_refl). exact IH.
Qed.

(** X23.  Leaving a [with] block keeps the handlers: when flushing is
    not interrupted, [__exit__] returns [False], so the exception of
    the block goes on, and it leaves the registry of the backend and
    the tracked identifiers as they are; it only gives [print] back, if
    the manager was built to redirect it.  The handlers go with
    [cleanup], and [__del__] is [cleanup].  An interruption of the
    flush -- not an [Exception] -- leaves [__exit__] at once, before
    [print] is given back. *)
Theorem exit_keeps_handlers (complete : state -> outcome unit) (st : state) :
  ((forall e, complete st = Raise e -> isinstance_Exception e = true) ->
   let st' := snd (__exit__ complete st) in
   fst (__exit__ complete st) = Return false
   /\ logger st' = logger st
   /\ _handler_ids (self st') = _handler_ids (self st)
   /\ builtins_print st'
      = (if enable_print_redirect (self st) && _print_redirected (self st)
         then _original_print (self st) else builtins_print st)
   /\ _print_redirected (self st')
      = _print_redirected (self st) && negb (enable_print_redirect (self st)))
  /\ (forall e, complete st = Raise e -> isinstance_Exception e = false ->
      _handler_ids (self st) <> [] ->
      __exit__ complete st = (Raise e, st))
  /\ __del__ st = cleanup st.
Proof.
  split; [|split].
  - intros Hc. cbv zeta.
    assert (E : __exit__ complete st
                = (Return false,
                   if enable_print_redirect (self st) then snd (restore_print st)
                   else st)).
    { unfold __exit__, flush. unfold seq at 1.
      rewrite (flush_each_fine complete st _ Hc). unfold seq, ret.
      destruct (enable_print_redirect (self st)); [|reflexivity].
      unfold restore_print. destruct (_print_redirected (self st)); reflexivity. }
    rewrite E. cbn [fst snd]. unfold restore_print.
    destruct (enable_print_redirect (self st)), (_print_redirected (self st)) eqn:Hp;
      cbn [fst snd andb negb]; rewrite ?Hp; repeat split; reflexivity.
  - intros e He Hne Hids. unfold __exit__, flush. unfold seq at 1.
    destruct (_handler_ids (self st)) as [|i ids]; [contradiction Hids; reflexivity|].
    cbn [flush_each]. unfold seq at 1. unfold complete_quietly.
    rewrite He, Hne. reflexivity.
  - unfold __del__. rewrite cleanup_spec. reflexivity.
Qed.


(** X24.  The argument [colorize] has no effect on logging: whatever is
    passed for it, construction returns in the same cases, and then it
    leaves the same registry, the same tracked identifiers and the same
    [print]; the console handler is registered with [colorize] off; and
    a [colorize] of [None] is stored as [False]. *)
Theorem colorize_is_ignored (a : init_args) (b : option bool) (l : loguru) (p : printer) :
  let st := snd (__init__ refusal mkdir_error a l p) in
  let st' := snd (__init__ refusal mkdir_error (with_colorize b a) l p) in
  (fst (__init__ refusal mkdir_error (with_colorize b a) l p) = Return tt
   <-> fst (__init__ refusal mkdir_error a l p) = Return tt)
  /\ (fst (__init__ refusal mkdir_error a l p) = Return tt ->
      logger st' = logger st
      /\ builtins_print st' = builtins_print st
      /\ _handler_ids (self st') = _handler_ids (self st)
      /\ colorize (self st') = default false b
      /\ exists kw, handlers (logger st') !! handlers_count l = Some kw
                    /\ kw !! "colorize" = Some (KBool false)).
Proof.
  cbv zeta. rewrite !init_unfold.
  assert (Hsame : setup_accepted refusal mkdir_error (before_setup (with_colorize b a) l p)
                  <-> setup_accepted refusal mkdir_error (before_setup a l p))
    by reflexivity.
  split.
  - split; intros H; apply setup_logger_returned in H.
    + rewrite (setup_logger_spec _ (proj1 Hsame H)). reflexivity.
    + rewrite (setup_logger_spec _ (proj2 Hsame H)). reflexivity.
  - intros H. pose proof (setup_logger_returned _ H) as Hacc.
    rewrite (setup_logger_spec _ Hacc).
    rewrite (setup_logger_spec _ (proj2 Hsame Hacc)). cbn [snd].
    unfold after_setup, before_setup, console_kwargs, file_kwargs, file_format,
      with_colorize.
    unfold_state. cbv zeta.
    split; [reflexivity|]. split; [reflexivity|]. split; [reflexivity|].
    split; [reflexivity|].
    match goal with
    | |- context [register (S (S ?c)) ?hs (<[S ?c := ?file]> (<[?c := ?console]> ∅))] =>
      destruct (setup_registry c console file hs) as (_ & Hc & _)
    end.
    eexists. split; [exact Hc|]. reflexivity.
Qed.

End LoggerCoverage.

Section LoggerCoverageExamples.
Import Py LoggerManager SampleBackend.

Lemma fresh_loguru_ok : backend_ok fresh_loguru.
Proof.
  intros i Hi. cbn in Hi. unfold fresh_loguru. cbn [handlers].
  apply lookup_singleton_ne. lia.
Qed.

Lemma construction_registers_witness :
  (let a := filtered_args (Callable "no_password_filter") in
   let st := snd (__init__ loguru_refusal writable a fresh_loguru builtin_print) in
   let c := handlers_count fresh_loguru in
   let extras := default [] (a_extra_handlers a) in
   fst (__init__ loguru_refusal writable a fresh_loguru builtin_print) = Return tt
   /\ _handler_ids (self st) = List.seq c (2 + length extras)
   /\ handlers_count (logger st) = c + 2 + length extras
   /\ (forall i, c + 2 + length extras <= i -> handlers (logger st) !! i = None)
   /\ handlers (logger st) !! c = Some (console_kwargs (self st))
   /\ handlers (logger st) !! (c + 1) = Some (file_kwargs (self st))
   /\ forall i h, extras !! i = Some h ->
        handlers (logger st) !! (c + 2 + i)
        = Some (fill_filter (a_filter_func a) h))
  /\ (let st := snd (__init__ loguru_refusal writable verbose_args fresh_loguru
                       builtin_print) in
      fst (__init__ loguru_refusal writable verbose_args fresh_loguru builtin_print)
      = Raise (Exn ValueError "Level 'VERBOSE' does not exist")
      /\ forall i, i < handlers_count fresh_loguru -> handlers (logger st) !! i = None)
  /\ (let st := snd (__init__ loguru_refusal writable proc_args fresh_loguru
                       builtin_print) in
      fst (__init__ loguru_refusal writable proc_args fresh_loguru builtin_print)
      = Raise no_such_directory
      /\ forall i, i < handlers_count fresh_loguru -> handlers (logger st) !! i = None).
Proof.
  assert (H : fst (__init__ loguru_refusal writable
                     (filtered_args (Callable "no_password_filter"))
                     fresh_loguru builtin_print) = Return tt)
    by (vm_compute; reflexivity).
  split; [|split].
  - exact (conj H (proj2 (proj2 (construction_registers loguru_refusal writable
                                   (filtered_args (Callable "no_password_filter"))
                                   fresh_loguru builtin_print)) H)).
  - split; [vm_compute; reflexivity|].
    exact (proj1 (construction_registers loguru_refusal writable verbose_args
                    fresh_loguru builtin_print)).
  - split; [vm_compute; reflexivity|].
    exact (proj1 (construction_registers loguru_refusal writable proc_args
                    fresh_loguru builtin_print)).
Defined.

Lemma add_then_remove_witness :
  let st := default_manager in
  let id := handlers_count (logger st) in
  let st1 := snd (add_handler loguru_refusal audit_sink st) in
  let loud := <["level" := KStr "LOUD"]> audit_sink in
  let st2 := snd (add_handler loguru_refusal loud st) in
  (fst (add_handler loguru_refusal audit_sink st) = Return id
   /\ id = handlers_count (logger st)
   /\ handlers (logger st) !! id = None
   /\ (id ∉ _handler_ids (self st))
   /\ handlers (logger st1) !! id = Some (fill_filter (filter_func (self st)) audit_sink)
   /\ _handler_ids (self st1) = (_handler_ids (self st) ++ [id])%list
   /\ remove_handler id st1
      = (Return tt, set_logger (Loguru (handlers (logger st)) (S id)) st))
  /\ (fst (add_handler loguru_refusal loud st)
      = Raise (Exn ValueError "Level 'LOUD' does not exist")
      /\ handlers (logger st2) = handlers (logger st)
      /\ _handler_ids (self st2) = _handler_ids (self st))
  /\ (fst (add_handler loguru_refusal ∅ st) = Raise missing_sink
      /\ handlers (logger (snd (add_handler loguru_refusal ∅ st))) = handlers (logger st)
      /\ _handler_ids (self (snd (add_handler loguru_refusal ∅ st)))
         = _handler_ids (self st)).
Proof.
  assert (Hr : reachable loguru_refusal writable default_manager)
    by exact (reach_init loguru_refusal writable default_args fresh_loguru
                builtin_print fresh_loguru_ok).
  assert (H1 : fst (add_handler loguru_refusal audit_sink default_manager)
               = Return (handlers_count (logger default_manager)))
    by (vm_compute; reflexivity).
  assert (H2 : fst (add_handler loguru_refusal (<["level" := KStr "LOUD"]> audit_sink)
                      default_manager)
               = Raise (Exn ValueError "Level 'LOUD' does not exist"))
    by (vm_compute; reflexivity).
  assert (H3 : fst (add_handler loguru_refusal ∅ default_manager) = Raise missing_sink)
    by (vm_compute; reflexivity).
  exact (conj (conj H1 (proj1 (add_then_remove loguru_refusal writable audit_sink
                                 default_manager Hr) _ H1))
              (conj (conj H2 (proj2 (add_then_remove loguru_refusal writable
                                       (<["level" := KStr "LOUD"]> audit_sink)
                                       default_manager Hr) _ H2))
                    (conj H3 (proj2 (add_then_remove loguru_refusal writable ∅
                                       default_manager Hr) _ H3)))).
Defined.

Lemma set_filter_rebuilds_witness :
  let f := Some (Callable "no_token_filter") in
  let st := default_manager in
  let st' := snd (set_filter loguru_refusal writable f st) in
  let c := handlers_count (logger st) in
  let extras := extra_handlers (self st) in
  fst (set_filter loguru_refusal writable f st) = Return tt
  /\ filter_func (self st') = f
  /\ _handler_ids (self st') = List.seq c (2 + length extras)
  /\ (forall i, c + 2 + length extras <= i -> handlers (logger st') !! i = None)
  /\ (exists kw, handlers (logger st') !! c = Some kw
                 /\ kw !! "sink" = Some (KSink Stdout)
                 /\ kw !! "filter" = Some (KCallable f))
  /\ (exists kw, handlers (logger st') !! (c + 1) = Some kw
                 /\ kw !! "sink" = Some (KSink (File (log_file_path (self st))))
                 /\ kw !! "filter" = Some (KCallable f))
  /\ (forall i h, extras !! i = Some h ->
        handlers (logger st') !! (c + 2 + i)
        = Some (match h !! "filter" with
                | Some _ => h
                | None => fill_filter f h
                end)).
Proof.
  assert (H : fst (set_filter loguru_refusal writable (Some (Callable "no_token_filter"))
                     default_manager) = Return tt)
    by (vm_compute; reflexivity).
  exact (conj H (proj2 (set_filter_rebuilds loguru_refusal writable
                          (Some (Callable "no_token_filter")) default_manager) H)).
Defined.

Lemma stale_extra_filters_witness :
  let g := Callable "no_password_filter" in
  let f := Some (Callable "no_token_filter") in
  let st := snd (__init__ loguru_refusal writable (filtered_args g) fresh_loguru
                   builtin_print) in
  let st' := snd (set_filter loguru_refusal writable f st) in
  handlers (logger st) !! (handlers_count fresh_loguru + 2 + 0)
  = Some (<["filter" := KCallable (Some g)]> audit_sink)
  /\ handlers (logger st') !! (handlers_count (logger st) + 2 + 0)
     = Some (<["filter" := KCallable (Some g)]> audit_sink)
  /\ filter_func (self st') = f
  /\ exists kw, handlers (logger st') !! handlers_count (logger st) = Some kw
                /\ kw !! "filter" = Some (KCallable f).
Proof.
  exact (stale_extra_filters loguru_refusal writable
           (filtered_args (Callable "no_password_filter"))
           fresh_loguru builtin_print (Callable "no_password_filter")
           (Some (Callable "no_token_filter")) 0 audit_sink eq_refl eq_refl
           ltac:(vm_compute; reflexivity) ltac:(vm_compute; reflexivity)
           ltac:(vm_compute; reflexivity)).
Defined.

Lemma exit_keeps_handlers_witness :
  (let st := redirecting_manager in
   let st' := snd (LoggerLifecycle.__exit__ complete_fine st) in
   fst (LoggerLifecycle.__exit__ complete_fine st) = Return false
   /\ logger st' = logger st
   /\ _handler_ids (self st') = _handler_ids (self st)
   /\ builtins_print st'
      = (if enable_print_redirect (self st) && _print_redirected (self st)
         then _original_print (self st) else builtins_print st)
   /\ _print_redirected (self st')
      = _print_redirected (self st) && negb (enable_print_redirect (self st)))
  /\ LoggerLifecycle.__exit__ complete_interrupted redirecting_manager
     = (Raise (Exn KeyboardInterrupt EmptyString), redirecting_manager).
Proof.
  split.
  - apply (proj1 (exit_keeps_handlers complete_fine redirecting_manager)).
    intros e H. discriminate H.
  - apply (proj1 (proj2 (exit_keeps_handlers complete_interrupted redirecting_manager))
             (Exn KeyboardInterrupt EmptyString) eq_refl eq_refl).
    vm_compute. discriminate.
Defined.

Lemma colorize_is_ignored_witness :
  let a := default_args in
  let b := Some true in
  let st := snd (__init__ loguru_refusal writable a fresh_loguru builtin_print) in
  let st' := snd (__init__ loguru_refusal writable (with_colorize b a) fresh_loguru
                    builtin_print) in
  fst (__init__ loguru_refusal writable a fresh_loguru builtin_print) = Return tt
  /\ logger st' = logger st
  /\ builtins_print st' = builtins_print st
  /\ _handler_ids (self st') = _handler_ids (self st)
  /\ colorize (self st') = default false b
  /\ exists kw, handlers (logger st') !! handlers_count fresh_loguru = Some kw
                /\ kw !! "colorize" = Some (KBool false).
Proof.
  assert (H : fst (__init__ loguru_refusal writable default_args fresh_loguru
                     builtin_print) = Return tt)
    by (vm_compute; reflexivity).
  exact (conj H (proj2 (colorize_is_ignored loguru_refusal writable default_args
                          (Some true) fresh_loguru builtin_print) H)).
Defined.

End LoggerCoverageExamples.

(** ** The decorator that times a function *)

Section PerformanceCoverage.
Import Py Scheduler Performance.
Context {W R : Type}.

(** X25.  The timing decorator is transparent: the wrapped function
    returns what the function returns, raises what it raises, and does
    to the rest of the process what it does.  Besides, it writes one
    INFO record when the function returns, one ERROR record carrying
    the exception when the function fails with an [Exception] and
    [log_exceptions] is on, and nothing otherwise: a failure with
    [log_exceptions] off, or one that is not an [Exception], leaves no
    record. *)
Theorem log_performance_transparent (include_args log_exceptions : bool)
        (func : callable W R) (args : list string) (kwargs : list (string * string))
        (elapsed : string) (log : list log_record) (w : W) :
  let wrapped := log_performance include_args log_exceptions func args kwargs elapsed in
  let text := arg_str include_args args kwargs in
  fst (wrapped (log, w)) = fst (call func w)
  /\ snd (snd (wrapped (log, w))) = snd (call func w)
  /\ fst (snd (wrapped (log, w)))
     = (log ++ match fst (call func w) with
               | Return _ => [performance_ok (__name__ func) text elapsed]
               | Raise e =>
                 if isinstance_Exception e && log_exceptions
                 then [performance_failed (__name__ func) text elapsed e]
                 else []
               end)%list.
Proof.
  cbv zeta. unfold log_performance.
  destruct (call func w) as [[r|e] w']; cbn [fst snd].
  - repeat split.
  - destruct (isinstance_Exception e), log_exceptions; cbn [fst snd andb];
      rewrite ?app_nil_r; repeat split.
Qed.

End PerformanceCoverage.

(** ** The application logger: one manager, built on demand *)

Section AppLoggerCoverage.
Import Py LoggerManager Scheduler AppLogger.

Variable refusal : gmap string kwval -> option (exn * bool).
Variable mkdir_error : string -> option exn.

Lemma get_app_logger_first (e : environ) (h : host) (s : process) :
  _logger s = false ->
  setup_accepted refusal mkdir_error (before_setup (manager_args e) (backend s) (print s)) ->
  get_app_logger refusal mkdir_error e h s
  = (Return tt,
     let st := after_setup (before_setup (manager_args e) (backend s) (print s)) in
     Process (logger st) (builtins_print st) (Some (self st)) true
       (written s ++ [startup_record h (self st)])%list).
Proof.
  intros H Hacc. unfold get_app_logger. rewrite H, init_unfold.
  rewrite (setup_logger_spec _ _ _ Hacc). reflexivity.
Qed.

Lemma get_app_logger_returned (e : environ) (h : host) (s : process) :
  _logger s = false ->
  fst (get_app_logger refusal mkdir_error e h s) = Return tt ->
  setup_accepted refusal mkdir_error (before_setup (manager_args e) (backend s) (print s)).
Proof.
  intros H. unfold get_app_logger. rewrite H, init_unfold. intros Hret.
  apply setup_logger_returned.
  destruct (_setup_logger refusal mkdir_error _) as [[[]|x] st]; [reflexivity|].
  discriminate Hret.
Qed.

Lemma app_manager_registry (e : environ) (l : loguru) (p : printer) :
  let st := after_setup (before_setup (manager_args e) l p) in
  let c := handlers_count l in
  _handler_ids (self st) = [c; S c]
  /\ (forall i, i <> c -> i <> S c -> handlers (logger st) !! i = None)
  /\ handlers (logger st) !! c = Some (console_kwargs (self st))
  /\ handlers (logger st) !! (S c) = Some (file_kwargs (self st)).
Proof.
  cbv zeta. unfold after_setup, before_setup. unfold_state. cbv zeta.
  change (default [] (a_extra_handlers (manager_args e))) with (@nil (gmap string kwval)).
  cbn [map length register List.seq app Nat.add].
  split; [reflexivity|]. split; [|split].
  - intros i H1 H2. rewrite !lookup_insert_ne by congruence. apply lookup_empty.
  - rewrite lookup_insert_ne by lia. apply lookup_insert_eq.
  - apply lookup_insert_eq.
Qed.

(** X26.  The application logger is built once.  When the logger is
    set, [get_app_logger] returns and changes nothing.  When it is not,
    the call builds the manager, and returns exactly when the backend
    takes the console and the file handler and the directory of the log
    file can be made: then it has wiped the backend, registered the two
    handlers under the next two identifiers and handed one start-up
    record to the logger, and every later call, whatever the
    environment has become, changes nothing -- no new manager, no
    handler, no record.  When the construction raises, the exception
    reaches the caller, the handlers the backend had are gone all the
    same, and the logger stays unset and no record is written, so that
    the next call builds again. *)
Theorem app_logger_built_once (e e' : environ) (h h' : host) (s : process) :
  let s1 := snd (get_app_logger refusal mkdir_error e h s) in
  let c := handlers_count (backend s) in
  (_logger s = true -> get_app_logger refusal mkdir_error e h s = (Return tt, s))
  /\ (_logger s = false ->
      (fst (get_app_logger refusal mkdir_error e h s) = Return tt
       <-> setup_accepted refusal mkdir_error
             (before_setup (manager_args e) (backend s) (print s)))
      /\ (fst (get_app_logger refusal mkdir_error e h s) = Return tt ->
          _logger s1 = true
          /\ (exists m, _log_manager s1 = Some m
                        /\ _handler_ids m = [c; S c]
                        /\ written s1 = (written s ++ [startup_record h m])%list)
          /\ (forall i, is_Some (handlers (backend s1) !! i) <-> i = c \/ i = S c)
          /\ get_app_logger refusal mkdir_error e' h' s1 = (Return tt, s1))
      /\ (forall x, fst (get_app_logger refusal mkdir_error e h s) = Raise x ->
          _logger s1 = false
          /\ _log_manager s1 = _log_manager s
          /\ written s1 = written s
          /\ forall i, i < c -> handlers (backend s1) !! i = None)).
Proof.
  cbv zeta. split.
  - intros Hl. unfold get_app_logger. rewrite Hl. reflexivity.
  - intros Hl. split; [|split].
    + split; [apply get_app_logger_returned; exact Hl|].
      intros Hacc. rewrite (get_app_logger_first e h s Hl Hacc). reflexivity.
    + intros Hret. pose proof (get_app_logger_returned e h s Hl Hret) as Hacc.
      rewrite (get_app_logger_first e h s Hl Hacc). cbv zeta. cbn [fst snd].
      destruct (app_manager_registry e (backend s) (print s))
        as (Hids & Hout & Hc & Hf). cbv zeta in *.
      split; [reflexivity|]. split; [|split; [|reflexivity]].
      * eexists. split; [reflexivity|]. split; [exact Hids | reflexivity].
      * intros i. cbn [backend]. split.
        -- intros Hi. destruct (decide (i = handlers_count (backend s))) as [->|H1];
             [left; reflexivity|].
           destruct (decide (i = S (handlers_count (backend s)))) as [->|H2];
             [right; reflexivity|].
           rewrite (Hout i H1 H2) in Hi. destruct Hi as [y Hy]. discriminate.
        -- intros [->| ->]; [rewrite Hc | rewrite Hf]; eauto.
    + intros x. unfold get_app_logger. rewrite Hl, init_unfold.
      pose proof (setup_logger_above refusal mkdir_error (handlers_count (backend s))
                    (before_setup (manager_args e) (backend s) (print s)) eq_refl)
        as [_ Hwipe].
      destruct (_setup_logger refusal mkdir_error _) as [[[]|y] st]; cbn [fst snd].
      * discriminate.
      * intros _. cbn [_logger _log_manager written backend].
        split; [reflexivity|]. split; [reflexivity|]. split; [reflexivity|].
        exact Hwipe.
Qed.

(** X27.  What the environment decides, and what it does not: when the
    first [get_app_logger] returns, the file handler of the application
    logger takes its level from [LOG_LEVEL] (upper-cased, [INFO] when
    unset) and is serialised as JSON, with diagnosis off, exactly when
    [FLASK_ENV] is [production] to the letter; the console handler
    stays at level [INFO] whatever the environment says. *)
Theorem app_logger_handlers (e : environ) (h : host) (s : process) :
  _logger s = false ->
  fst (get_app_logger refusal mkdir_error e h s) = Return tt ->
  let s1 := snd (get_app_logger refusal mkdir_error e h s) in
  let c := handlers_count (backend s) in
  (exists console,
      handlers (backend s1) !! c = Some console
      /\ console !! "sink" = Some (KSink Stdout)
      /\ console !! "level" = Some (KStr "INFO"))
  /\ (exists file,
      handlers (backend s1) !! S c = Some file
      /\ file !! "sink" = Some (KSink (File "logs/skewnono_app.log"))
      /\ file !! "level" = Some (KStr (Text.upper (default "INFO" (LOG_LEVEL e))))
      /\ file !! "serialize" = Some (KBool (is_production e))
      /\ file !! "diagnose" = Some (KBool (negb (is_production e)))
      /\ file !! "backtrace" = Some (KBool true))
  /\ (is_production e = true <-> FLASK_ENV e = Some "production").
Proof.
  intros Hl Hret. cbv zeta.
  rewrite (get_app_logger_first e h s Hl (get_app_logger_returned e h s Hl Hret)).
  cbv zeta. cbn [snd backend].
  destruct (app_manager_registry e (backend s) (print s)) as (_ & _ & Hc & Hf).
  cbv zeta in *. split; [|split].
  - eexists. split; [exact Hc|]. unfold console_kwargs, after_setup, before_setup.
    unfold_state. split; reflexivity.
  - eexists. split; [exact Hf|]. unfold file_kwargs, after_setup, before_setup.
    unfold_state. repeat split; reflexivity.
  - unfold is_production. apply opt_eqb_spec.
Qed.

(** X28.  Shutting the application logger down and asking for it again:
    [cleanup_logger] always returns and does nothing when there is no
    manager; otherwise it removes the handlers the manager tracks --
    no other --, clears both globals, and a second call changes
    nothing.  The next [get_app_logger], when it returns, has built a
    new manager under the next two identifiers of the backend and
    handed a second start-up record to the logger. *)
Theorem cleanup_logger_cycle (e : environ) (h : host) (s : process) :
  fst (cleanup_logger s) = Return tt
  /\ (_log_manager s = None -> cleanup_logger s = (Return tt, s))
  /\ (forall m, _log_manager s = Some m ->
      let s1 := snd (cleanup_logger s) in
      let s2 := snd (get_app_logger refusal mkdir_error e h s1) in
      let c := handlers_count (backend s) in
      _log_manager s1 = None /\ _logger s1 = false
      /\ written s1 = written s
      /\ (forall i, handlers (backend s1) !! i
                    = if bool_decide (i ∈ _handler_ids m) then None
                      else handlers (backend s) !! i)
      /\ cleanup_logger s1 = (Return tt, s1)
      /\ (fst (get_app_logger refusal mkdir_error e h s1) = Return tt ->
          exists m2, _log_manager s2 = Some m2
                     /\ _handler_ids m2 = [c; S c]
                     /\ written s2 = (written s ++ [startup_record h m2])%list)).
Proof.
  unfold cleanup_logger. destruct (_log_manager s) as [m|] eqn:Hm.
  - rewrite cleanup_spec. cbn [fst snd].
    split; [reflexivity|]. split; [discriminate|].
    intros m' [= <-]. cbv zeta. cbn [_log_manager _logger written backend].
    split; [reflexivity|]. split; [reflexivity|]. split; [reflexivity|].
    split; [intros i; unfold after_cleanup; unfold_state; apply unregister_lookup|].
    split; [reflexivity|].
    intros Hret.
    match type of Hret with
    | fst (get_app_logger _ _ _ _ ?s1) = _ =>
      rewrite (get_app_logger_first e h s1 eq_refl
                 (get_app_logger_returned e h s1 eq_refl Hret))
    end.
    cbv zeta. cbn [snd backend print].
    match goal with
    | |- context [before_setup ?a ?l ?p] =>
      destruct (app_manager_registry e l p) as (Hids & _)
    end.
    cbv zeta in Hids.
    eexists. split; [reflexivity|]. split; [exact Hids | reflexivity].
  - cbn [fst]. split; [reflexivity|]. split; [reflexivity|]. discriminate.
Qed.

End AppLoggerCoverage.

Section AppLoggerExamples.
Import Py LoggerManager SampleBackend Scheduler AppLogger.

Lemma app_logger_built_once_witness :
  (let s := fresh_process in
   let s1 := snd (get_app_logger loguru_refusal writable no_environment this_host s) in
   let c := handlers_count (backend s) in
   fst (get_app_logger loguru_refusal writable no_environment this_host s) = Return tt
   /\ _logger s1 = true
   /\ (exists m, _log_manager s1 = Some m
                 /\ _handler_ids m = [c; S c]
                 /\ written s1 = (written s ++ [startup_record this_host m])%list)
   /\ (forall i, is_Some (handlers (backend s1) !! i) <-> i = c \/ i = S c)
   /\ get_app_logger loguru_refusal writable production this_host s1 = (Return tt, s1))
  /\ (let s := fresh_process in
      let s1 := snd (get_app_logger loguru_refusal writable verbose_environment
                       this_host s) in
      let c := handlers_count (backend s) in
      fst (get_app_logger loguru_refusal writable verbose_environment this_host s)
      = Raise (Exn ValueError "Level 'VERBOSE' does not exist")
      /\ _logger s1 = false
      /\ _log_manager s1 = _log_manager s
      /\ written s1 = written s
      /\ forall i, i < c -> handlers (backend s1) !! i = None).
Proof.
  assert (H : fst (get_app_logger loguru_refusal writable no_environment this_host
                     fresh_process) = Return tt)
    by (vm_compute; reflexivity).
  assert (H' : fst (get_app_logger loguru_refusal writable verbose_environment this_host
                      fresh_process)
               = Raise (Exn ValueError "Level 'VERBOSE' does not exist"))
    by (vm_compute; reflexivity).
  split.
  - exact (conj H (proj1 (proj2 (proj2 (app_logger_built_once loguru_refusal writable
                                          no_environment production
                                          this_host this_host fresh_process) eq_refl)) H)).
  - exact (conj H' (proj2 (proj2 (proj2 (app_logger_built_once loguru_refusal writable
                                           verbose_environment production
                                           this_host this_host fresh_process) eq_refl))
                      _ H')).
Defined.

Lemma app_logger_handlers_witness :
  let e := production in
  let s1 := snd (get_app_logger loguru_refusal writable e this_host fresh_process) in
  let c := handlers_count (backend fresh_process) in
  (exists console,
      handlers (backend s1) !! c = Some console
      /\ console !! "sink" = Some (KSink Stdout)
      /\ console !! "level" = Some (KStr "INFO"))
  /\ (exists file,
      handlers (backend s1) !! S c = Some file
      /\ file !! "sink" = Some (KSink (File "logs/skewnono_app.log"))
      /\ file !! "level" = Some (KStr (Text.upper (default "INFO" (LOG_LEVEL e))))
      /\ file !! "serialize" = Some (KBool (is_production e))
      /\ file !! "diagnose" = Some (KBool (negb (is_production e)))
      /\ file !! "backtrace" = Some (KBool true))
  /\ (is_production e = true <-> FLASK_ENV e = Some "production").
Proof.
  exact (app_logger_handlers loguru_refusal writable production this_host fresh_process
           eq_refl ltac:(vm_compute; reflexivity)).
Defined.

Lemma cleanup_logger_cycle_witness :
  cleanup_logger fresh_process = (Return tt, fresh_process)
  /\ (let s := snd (get_app_logger loguru_refusal writable no_environment this_host
                      fresh_process) in
      let m := self (snd (__init__ loguru_refusal writable (manager_args no_environment)
                            fresh_loguru builtin_print)) in
      let s1 := snd (cleanup_logger s) in
      let s2 := snd (get_app_logger loguru_refusal writable production this_host s1) in
      let c := handlers_count (backend s) in
      _log_manager s1 = None /\ _logger s1 = false
      /\ written s1 = written s
      /\ (forall i, handlers (backend s1) !! i
                    = if bool_decide (i ∈ _handler_ids m) then None
                      else handlers (backend s) !! i)
      /\ cleanup_logger s1 = (Return tt, s1)
      /\ (fst (get_app_logger loguru_refusal writable production this_host s1) = Return tt ->
          exists m2, _log_manager s2 = Some m2
                     /\ _handler_ids m2 = [c; S c]
                     /\ written s2 = (written s ++ [startup_record this_host m2])%list)).
Proof.
  split.
  - exact (proj1 (proj2 (cleanup_logger_cycle loguru_refusal writable no_environment
                           this_host fresh_process))
             eq_refl).
  - exact (proj2 (proj2 (cleanup_logger_cycle loguru_refusal writable production this_host
                           (snd (get_app_logger loguru_refusal writable no_environment
                                   this_host fresh_process))))
             (self (snd (__init__ loguru_refusal writable (manager_args no_environment)
                           fresh_loguru builtin_print)))
             ltac:(vm_compute; reflexivity)).
Defined.

End AppLoggerExamples.

(** ** The scheduler: started on demand, stopped once *)

Section SchedulerLifecycleCoverage.
Import Py Scheduler SchedulerLifecycle.
Context {W R : Type}.
Variable jobs_after_shutdown : list (job W R) -> list (job W R).
Variable next_fire_time : string -> option string.

(** X29.  The scheduler is started on demand and once: on a manager
    that is not initialised, [get_scheduler] builds a scheduler without
    jobs, registers the three listeners and one exit hook, starts it
    and hands one SUCCESS record to the logger; asked again it returns
    the same scheduler and changes nothing, without the warning that a
    second [init_scheduler] writes.  When the start fails, the error
    comes out of [get_scheduler], logged with one ERROR record if it is
    an [Exception], and the manager stays uninitialised with no exit
    hook registered.  [add_scheduled_job] does not start anything: on a
    fresh manager it raises [AttributeError]. *)
Theorem scheduler_on_demand (w : world W R) (started : outcome unit) :
  _initialized (manager w) = false ->
  let w1 := snd (get_scheduler started w) in
  (started = Return tt ->
   fst (get_scheduler started w) = Return (Some started_scheduler)
   /\ manager w1 = SchedulerManager (Some started_scheduler) true
   /\ length (listeners w1) = 3
   /\ atexit w1 = S (atexit w)
   /\ (exists r, log w1 = (log w ++ [r])%list /\ lvl r = SUCCESS)
   /\ (forall again, get_scheduler again w1 = (Return (Some started_scheduler), w1))
   /\ (forall again,
        exists r,
          init_scheduler again w1
          = (Return (Some started_scheduler),
             World (log w1 ++ [r])%list (manager w1) (listeners w1) (atexit w1))
          /\ lvl r = WARNING))
  /\ (forall e, started = Raise e ->
      fst (get_scheduler started w) = Raise e
      /\ _initialized (manager w1) = false
      /\ atexit w1 = atexit w
      /\ log w1 = (log w ++ if isinstance_Exception e
                            then [LogRecord ERROR "Failed to initialize scheduler" []
                                    (Some e)]
                            else [])%list)
  /\ (forall func trigger kwargs,
      scheduler (manager w) = None ->
      add_scheduled_job next_fire_time func trigger kwargs w
      = (Raise (Exn AttributeError "'NoneType' object has no attribute 'add_job'"), w)).
Proof.
  intros Hi. cbv zeta. unfold get_scheduler. rewrite Hi. cbn [negb].
  unfold init_scheduler. rewrite Hi. split; [|split].
  - intros ->. cbn [fst snd manager scheduler log listeners atexit length jobs made_up
                      new_scheduler _initialized negb].
    split; [reflexivity|]. split; [reflexivity|]. split; [reflexivity|].
    split; [reflexivity|]. split; [eexists; split; reflexivity|].
    split; [intros again; reflexivity|].
    intros again. eexists. split; reflexivity.
  - intros e ->. destruct (isinstance_Exception e);
      cbn [fst snd manager _initialized atexit log]; rewrite ?app_nil_r;
      repeat split; reflexivity.
  - intros func trigger kwargs Hs. unfold add_scheduled_job, add_job.
    rewrite Hs. destruct w. reflexivity.
Qed.

(** X30.  The scheduler is stopped once: [shutdown] always returns; on
    a manager without a scheduler, or with one that is not running, it
    changes nothing, so a second [shutdown] changes nothing; on a
    running scheduler it stops it, marks the manager uninitialised and
    hands two records to the logger.  The next [get_scheduler] then
    starts a new scheduler, which has none of the jobs of the old one,
    and registers one more exit hook. *)
Theorem shutdown_once (wait wait' : bool) (w : world W R) :
  let w1 := snd (shutdown jobs_after_shutdown wait w) in
  let w2 := snd (get_scheduler (Return tt) w1) in
  fst (shutdown jobs_after_shutdown wait w) = Return tt
  /\ shutdown jobs_after_shutdown wait' w1 = (Return tt, w1)
  /\ ((forall b, scheduler (manager w) = Some b -> running b = false) -> w1 = w)
  /\ (forall b, scheduler (manager w) = Some b -> running b = true ->
      _initialized (manager w1) = false
      /\ (exists b', scheduler (manager w1) = Some b' /\ running b' = false)
      /\ (exists r1 r2, log w1 = (log w ++ [r1; r2])%list
                        /\ lvl r1 = INFO /\ lvl r2 = SUCCESS)
      /\ fst (get_scheduler (Return tt) w1) = Return (Some started_scheduler)
      /\ manager w2 = SchedulerManager (Some started_scheduler) true
      /\ atexit w2 = S (atexit w)).
Proof.
  cbv zeta. unfold shutdown.
  destruct (scheduler (manager w)) as [b|] eqn:Hs.
  - destruct (running b) eqn:Hr; cbn [fst snd manager scheduler running].
    + split; [reflexivity|]. split; [reflexivity|].
      split; [intros H; specialize (H b eq_refl); congruence|].
      intros b0 [= <-] _.
      split; [reflexivity|]. split; [eexists; split; reflexivity|].
      split; [do 2 eexists; repeat split; reflexivity|].
      repeat split; reflexivity.
    + rewrite Hs, Hr. split; [reflexivity|]. split; [reflexivity|].
      split; [reflexivity|]. intros b0 [= <-] H. congruence.
  - cbn [fst snd]. rewrite Hs. split; [reflexivity|]. split; [reflexivity|].
    split; [reflexivity|]. intros b0 H. discriminate.
Qed.

End SchedulerLifecycleCoverage.

Section SchedulerLifecycleExamples.
Import Py Scheduler SchedulerLifecycle.

Lemma scheduler_on_demand_witness :
  let w := @fresh_world unit Z in
  let w1 := snd (get_scheduler (Return tt) w) in
  (fst (get_scheduler (Return tt) w) = Return (Some started_scheduler)
   /\ manager w1 = SchedulerManager (Some started_scheduler) true
   /\ length (listeners w1) = 3
   /\ atexit w1 = S (atexit w)
   /\ (exists r, log w1 = (log w ++ [r])%list /\ lvl r = SUCCESS)
   /\ (forall again, get_scheduler again w1 = (Return (Some started_scheduler), w1))
   /\ (forall again,
        exists r,
          init_scheduler again w1
          = (Return (Some started_scheduler),
             World (log w1 ++ [r])%list (manager w1) (listeners w1) (atexit w1))
          /\ lvl r = WARNING))
  /\ add_scheduled_job in_ten_seconds answer "interval" no_kwargs w
     = (Raise (Exn AttributeError "'NoneType' object has no attribute 'add_job'"), w).
Proof.
  split.
  - exact (proj1 (scheduler_on_demand in_ten_seconds fresh_world (Return tt) eq_refl) eq_refl).
  - exact (proj2 (proj2 (scheduler_on_demand in_ten_seconds fresh_world (Return tt) eq_refl))
             answer "interval" no_kwargs eq_refl).
Defined.

Lemma shutdown_once_witness :
  let w := busy_world in
  let w1 := snd (shutdown emptied true w) in
  let w2 := snd (get_scheduler (Return tt) w1) in
  _initialized (manager w1) = false
  /\ (exists b', scheduler (manager w1) = Some b' /\ running b' = false)
  /\ (exists r1 r2, log w1 = (log w ++ [r1; r2])%list
                    /\ lvl r1 = INFO /\ lvl r2 = SUCCESS)
  /\ fst (get_scheduler (Return tt) w1) = Return (Some started_scheduler)
  /\ manager w2 = SchedulerManager (Some started_scheduler) true
  /\ atexit w2 = S (atexit w).
Proof.
  exact (proj2 (proj2 (proj2 (shutdown_once emptied true true busy_world)))
           _ eq_refl eq_refl).
Defined.

End SchedulerLifecycleExamples.
